(** * generate_std.rs: the Roblox standard-library generator of selene

    A shallow embedding of [src/selene/src/roblox/generate_std.rs].  The
    descriptor types of [selene_lib::standard_library] and the API-dump types
    of [roblox/api.rs] are not part of the embedded file; they are written
    here after the data model of the specification.  [BTreeMap<String, _>] is
    a [gmap string _]; a [panic!] or [unwrap] on [None] is the [Panic]
    outcome; recursion that the source does not bound is given fuel, and
    running out of it is the separate [OutOfFuel] outcome. *)

From Stdlib Require Import String ZArith List.
From stdpp Require Import base gmap strings list sorting.
Import ListNotations.
Open Scope string_scope.

(** ** Outcomes: success, a panic, or exhausted fuel *)

Inductive outcome (A : Type) : Type :=
| Ok (a : A)
| Panic (msg : string)
| OutOfFuel.
Arguments Ok {A} a.
Arguments Panic {A} msg.
Arguments OutOfFuel {A}.

Global Instance outcome_ret : MRet outcome := fun A a => Ok a.
Global Instance outcome_bind : MBind outcome :=
  fun A B k m =>
    match m with
    | Ok a => k a
    | Panic s => Panic s
    | OutOfFuel => OutOfFuel
    end.

Definition unwrap_none_msg : string :=
  "called `Option::unwrap()` on a `None` value".

(** [Vec<String>::contains] *)
Definition contains (l : list string) (s : string) : bool :=
  existsb (String.eqb s) l.

(** ** The API dump (roblox/api.rs) *)

(** Modelled from the spec: the API dump types of [roblox/api.rs].  A
    [DataType] value carries the answer of its [has_custom_methods]
    predicate, so that statements over all dumps range over every
    predicate. *)
Record ApiDataType := {
  data_type_name : string;
  data_type_custom_methods : bool
}.

Definition has_custom_methods (v : ApiDataType) : bool :=
  data_type_custom_methods v.

Module ApiValueType.
Inductive ApiValueType :=
  | Class (name : string)
  | DataType (value : ApiDataType)
  | Other (category : string).
End ApiValueType.

(** Modelled from the spec: a property security value, with its default. *)
Definition ApiPropertySecurity := string.
Definition default_security : ApiPropertySecurity := "None".

Module ApiMember.
Inductive ApiMember :=
  | Callback (name : string) (tags : option (list string))
  | Event (name : string) (tags : option (list string))
  | Function_ (name : string) (tags : option (list string))
      (parameters : list string)
  | Property (name : string) (tags : option (list string))
      (security : ApiPropertySecurity) (value_type : ApiValueType.ApiValueType)
  | Unknown.
End ApiMember.

Module ApiClass.
Record ApiClass := {
    name : string;
    superclass : string;
    tags : list string;
    members : list ApiMember.ApiMember
  }.
End ApiClass.

Module ApiEnum.
Record ApiEnum := {
    name : string;
    items : list string
  }.
End ApiEnum.

Record ApiDump := {
  classes : list ApiClass.ApiClass;
  enums : list ApiEnum.ApiEnum
}.

Definition ROOT : string := "<<<ROOT>>>".

(** ** The descriptor (selene_lib::standard_library) *)

Module PropertyWritability.
Inductive PropertyWritability := ReadOnly | OverrideFields.
End PropertyWritability.

Module ArgumentType.
Inductive ArgumentType := Any | Constant (values : list string).
End ArgumentType.

Module Required.
Inductive t := Required (default : option string) | NotRequired.
End Required.

Module Observes.
Inductive Observes := ReadWrite | Read | Write.
End Observes.

Record Argument := {
  argument_type : ArgumentType.ArgumentType;
  required : Required.t;
  observes : Observes.Observes
}.

Record FunctionBehavior := {
  arguments : list Argument;
  method : bool;
  must_use : bool
}.

Module FieldKind.
Inductive FieldKind :=
  | Any
  | Struct (name : string)
  | Property (writability : PropertyWritability.PropertyWritability)
  | Function_ (behavior : FunctionBehavior).
End FieldKind.

Record Deprecated := {
  message : string;
  replace : list string
}.

Record Field := {
  field_kind : FieldKind.FieldKind;
  deprecated : option Deprecated
}.

Definition from_field_kind (k : FieldKind.FieldKind) : Field :=
  {| field_kind := k; deprecated := None |}.

Record RobloxClass := {
  rc_superclass : string;
  rc_events : list string;
  rc_properties : list string
}.

Record StandardLibrary := {
  base : option string;
  globals : gmap string Field;
  structs : gmap string (gmap string Field);
  roblox_classes : gmap string RobloxClass;
  last_updated : option Z;
  last_selene_version : option string
}.

Definition set_globals (m : gmap string Field) (s : StandardLibrary) :=
  {| base := base s; globals := m; structs := structs s;
     roblox_classes := roblox_classes s; last_updated := last_updated s;
     last_selene_version := last_selene_version s |}.

Definition set_structs (m : gmap string (gmap string Field))
    (s : StandardLibrary) :=
  {| base := base s; globals := globals s; structs := m;
     roblox_classes := roblox_classes s; last_updated := last_updated s;
     last_selene_version := last_selene_version s |}.

Definition set_roblox_classes (m : gmap string RobloxClass)
    (s : StandardLibrary) :=
  {| base := base s; globals := globals s; structs := structs s;
     roblox_classes := m; last_updated := last_updated s;
     last_selene_version := last_selene_version s |}.

Definition set_stamps (t : option Z) (v : option string)
    (s : StandardLibrary) :=
  {| base := base s; globals := globals s; structs := structs s;
     roblox_classes := roblox_classes s; last_updated := t;
     last_selene_version := v |}.

(** ** The generator state

    [RobloxGenerator { std }], plus [completed]: a ghost record, newest last,
    of every finished table stored by line 84 of [write_class_struct]. *)

Record RobloxGenerator := {
  std : StandardLibrary;
  completed : list (string * gmap string Field)
}.

Definition map_std (k : StandardLibrary -> StandardLibrary)
    (g : RobloxGenerator) : RobloxGenerator :=
  {| std := k (std g); completed := completed g |}.

Definition contains_key {V} (m : gmap string V) (k : string) : bool :=
  match m !! k with Some _ => true | None => false end.

Definition find_class (api : ApiDump) (class_name : string)
    : option ApiClass.ApiClass :=
  List.find (fun c => String.eqb (ApiClass.name c) class_name) (classes api).

(** ** Class struct synthesis: [write_class_struct] and [write_class_members] *)

Definition tags_or_empty (t : option (list string)) : list string :=
  match t with Some l => l | None => [] end.

Definition any_argument : Argument :=
  {| argument_type := ArgumentType.Any; required := Required.NotRequired;
     observes := Observes.ReadWrite |}.

Definition deprecation : Deprecated :=
  {| message := "this property is deprecated."; replace := [] |}.

(** Lines 196-202: the deprecation annotation of an emitted field. *)
Definition apply_deprecation (tags : list string) (field : Field) : Field :=
  if contains tags "Deprecated"
  then {| field_kind := field_kind field; deprecated := Some deprecation |}
  else field.

(** Lines 96-188: the [match &member], producing [(name, tags, field)], or
    [None] for the [continue] of an unknown member.  [write_struct] is the
    recursive [self.write_class_struct(api, _)] of line 159. *)
Definition classify_member
    (write_struct : string -> RobloxGenerator -> outcome RobloxGenerator)
    (cfg_test : bool) (class_name : string) (member : ApiMember.ApiMember)
    (g : RobloxGenerator)
    : outcome (RobloxGenerator *
               option (string * option (list string) * option Field)) :=
  match member with
  | ApiMember.Callback name tags =>
      Ok (g, Some (name, tags, Some (from_field_kind
        (FieldKind.Property PropertyWritability.OverrideFields))))
  | ApiMember.Event name tags =>
      Ok (g, Some (name, tags, Some (from_field_kind (FieldKind.Struct "Event"))))
  | ApiMember.Function_ name tags parameters =>
      Ok (g, Some (name, tags, Some (from_field_kind (FieldKind.Function_
        {| arguments := map (fun _ => any_argument) parameters;
           method := true; must_use := false |}))))
  | ApiMember.Property name tags security value_type =>
      if String.eqb security default_security then
        let tags' := tags_or_empty tags in
        let default_field := Some (from_field_kind (FieldKind.Property
          (if contains tags' "ReadOnly" then PropertyWritability.ReadOnly
           else PropertyWritability.OverrideFields))) in
        match value_type with
        | ApiValueType.Class cname =>
            g' ← write_struct cname g;
            Ok (g', Some (name, tags,
                          Some (from_field_kind (FieldKind.Struct cname))))
        | ApiValueType.DataType value =>
            if has_custom_methods value
            then Ok (g, Some (name, tags, Some (from_field_kind FieldKind.Any)))
            else Ok (g, Some (name, tags, default_field))
        | ApiValueType.Other _ => Ok (g, Some (name, tags, default_field))
        end
      else Ok (g, Some (name, tags, None))
  | ApiMember.Unknown =>
      if cfg_test
      then Panic ("unknown property found in Roblox API dump for " ++ class_name)
      else Ok (g, None)
  end.

(** Lines 190-205: the field stored for a classified member, if any. *)
Definition emitted_field (tags : option (list string)) (field : option Field)
    : option Field :=
  match field with
  | Some f => Some (apply_deprecation (tags_or_empty tags) f)
  | None => None
  end.

(** Lines 95-206: the [for member in &class.members] loop. *)
Fixpoint write_class_members_loop
    (write_struct : string -> RobloxGenerator -> outcome RobloxGenerator)
    (cfg_test : bool) (class_name : string)
    (members : list ApiMember.ApiMember) (table : gmap string Field)
    (g : RobloxGenerator) : outcome (RobloxGenerator * gmap string Field) :=
  match members with
  | [] => Ok (g, table)
  | member :: rest =>
      r ← classify_member write_struct cfg_test class_name member g;
      let '(g', o) := r in
      match o with
      | None => write_class_members_loop write_struct cfg_test class_name
                  rest table g'
      | Some (name, tags, field) =>
          match emitted_field tags field with
          | Some field' =>
              write_class_members_loop write_struct cfg_test class_name rest
                (<[name := field']> table) g'
          | None =>
              write_class_members_loop write_struct cfg_test class_name
                rest table g'
          end
      end
  end.

Definition wildcard_field : Field :=
  from_field_kind (FieldKind.Struct "Instance").

(** Line 74: reserve the key with an empty table. *)
Definition reserve_struct (class_name : string) (g : RobloxGenerator)
    : RobloxGenerator :=
  map_std (fun s => set_structs (<[class_name := ∅]> (structs s)) s) g.

(** Line 84: store the finished table (and record it in [completed]). *)
Definition store_struct (class_name : string) (table : gmap string Field)
    (g : RobloxGenerator) : RobloxGenerator :=
  {| std := set_structs (<[class_name := table]> (structs (std g))) (std g);
     completed := completed g ++ [(class_name, table)] |}.

Fixpoint write_class_struct (fuel : nat) (cfg_test : bool) (api : ApiDump)
    (class_name : string) (g : RobloxGenerator) : outcome RobloxGenerator :=
  match fuel with
  | O => OutOfFuel
  | S fuel' =>
      if contains_key (structs (std g)) class_name then Ok g else
      let g1 := reserve_struct class_name g in
      let table := {[ "*" := wildcard_field ]} in
      r ← write_class_members fuel' cfg_test api table class_name g1;
      let '(g2, table') := r in
      Ok (store_struct class_name table' g2)
  end
with write_class_members (fuel : nat) (cfg_test : bool) (api : ApiDump)
    (table : gmap string Field) (class_name : string) (g : RobloxGenerator)
    : outcome (RobloxGenerator * gmap string Field) :=
  match fuel with
  | O => OutOfFuel
  | S fuel' =>
      match find_class api class_name with
      | None => Panic unwrap_none_msg
      | Some class =>
          r ← write_class_members_loop
                (fun n g' => write_class_struct fuel' cfg_test api n g')
                cfg_test class_name (ApiClass.members class) table g;
          let '(g', table') := r in
          if negb (String.eqb (ApiClass.superclass class) ROOT)
          then write_class_members fuel' cfg_test api table'
                 (ApiClass.superclass class) g'
          else Ok (g', table')
      end
  end.

(** ** The remaining passes of the generator *)

Definition set_global (name : string) (field : Field) (g : RobloxGenerator)
    : RobloxGenerator :=
  map_std (fun s => set_globals (<[name := field]> (globals s)) s) g.

Definition write_class (fuel : nat) (cfg_test : bool) (api : ApiDump)
    (global_name class_name : string) (g : RobloxGenerator)
    : outcome RobloxGenerator :=
  g' ← write_class_struct fuel cfg_test api class_name g;
  Ok (set_global global_name (from_field_kind (FieldKind.Struct class_name)) g').

Definition get_enum_items_field : Field :=
  from_field_kind (FieldKind.Function_
    {| arguments := []; method := true; must_use := true |}).

Definition write_enum (g : RobloxGenerator) (enuhm : ApiEnum.ApiEnum)
    : RobloxGenerator :=
  let g := set_global ("Enum." ++ ApiEnum.name enuhm ++ ".GetEnumItems")
             get_enum_items_field g in
  fold_left (fun g item =>
      set_global ("Enum." ++ ApiEnum.name enuhm ++ "." ++ item)
        (from_field_kind (FieldKind.Struct "EnumItem")) g)
    (ApiEnum.items enuhm) g.

Definition write_enums (api : ApiDump) (g : RobloxGenerator)
    : RobloxGenerator :=
  fold_left write_enum (enums api) g.

(** [Instance.new]: one [Required] [Constant] argument. *)
Definition constant_argument (names : list string) : Argument :=
  {| argument_type := ArgumentType.Constant names;
     required := Required.Required None;
     observes := Observes.ReadWrite |}.

Definition instance_names (api : ApiDump) : list string :=
  map ApiClass.name
    (List.filter (fun c => negb (contains (ApiClass.tags c) "NotCreatable"))
       (classes api)).

Definition instance_new_field (api : ApiDump) : Field :=
  from_field_kind (FieldKind.Function_
    {| arguments := [constant_argument (instance_names api)];
       method := false; must_use := true |}).

Definition write_instance_new (api : ApiDump) (g : RobloxGenerator)
    : RobloxGenerator :=
  set_global "Instance.new" (instance_new_field api) g.

Definition service_names (api : ApiDump) : list string :=
  map ApiClass.name
    (List.filter (fun c => contains (ApiClass.tags c) "Service") (classes api)).

Definition get_service_field (api : ApiDump) : Field :=
  from_field_kind (FieldKind.Function_
    {| arguments := [constant_argument (service_names api)];
       method := true; must_use := true |}).

(** Both [unwrap]s of lines 275-277 panic on a missing entry. *)
Definition write_get_service (api : ApiDump) (g : RobloxGenerator)
    : outcome RobloxGenerator :=
  match structs (std g) !! "DataModel" with
  | None => Panic unwrap_none_msg
  | Some data_model =>
      match data_model !! "GetService" with
      | None => Panic unwrap_none_msg
      | Some _ =>
          Ok (map_std (fun s => set_structs
                (<["DataModel" := <["GetService" := get_service_field api]>
                                    data_model]> (structs s)) s) g)
      end
  end.

Definition class_events (members : list ApiMember.ApiMember) : list string :=
  flat_map (fun m => match m with
                     | ApiMember.Event name _ => [name]
                     | _ => []
                     end) members.

Definition class_properties (members : list ApiMember.ApiMember)
    : list string :=
  flat_map (fun m => match m with
                     | ApiMember.Property name _ _ _ => [name]
                     | _ => []
                     end) members.

Definition write_roblox_class (g : RobloxGenerator) (class : ApiClass.ApiClass)
    : RobloxGenerator :=
  map_std (fun s => set_roblox_classes
    (<[ApiClass.name class :=
        {| rc_superclass := ApiClass.superclass class;
           rc_events := class_events (ApiClass.members class);
           rc_properties := class_properties (ApiClass.members class) |}]>
       (roblox_classes s)) s) g.

Definition write_roblox_classes (api : ApiDump) (g : RobloxGenerator)
    : RobloxGenerator :=
  fold_left write_roblox_class (classes api) g.

(** ** Output framing

    Modelled from the spec: the YAML serialization of the descriptor
    ([serde_yaml::to_string] over the [Serialize] impls of selene_lib, which
    are outside src/).  Every mapping is emitted in sorted-key order; the
    descriptor's fields are the ones of the data model, [last_updated]
    included. *)

Definition lf : string := String (Ascii.ascii_of_nat 10) EmptyString.

Set Warnings "-register-all".
Inductive yaml :=
| YNull
| YBool (b : bool)
| YInt (z : Z)
| YStr (s : string)
| YSeq (ys : list yaml)
| YMap (kvs : list (string * yaml)).

Fixpoint insert_entry {V} (kv : string * V) (l : list (string * V))
    : list (string * V) :=
  match l with
  | [] => [kv]
  | kv' :: rest =>
      if String.leb kv.1 kv'.1 then kv :: l else kv' :: insert_entry kv rest
  end.

Definition sort_entries {V} (l : list (string * V)) : list (string * V) :=
  fold_right insert_entry [] l.

Definition ymap (kvs : list (string * yaml)) : yaml := YMap (sort_entries kvs).

Fixpoint digits (fuel : nat) (z : Z) (acc : string) : string :=
  match fuel with
  | O => acc
  | S fuel' =>
      let acc' := String (Ascii.ascii_of_nat (48 + Z.to_nat (z mod 10))) acc in
      if Z.eqb (z / 10) 0 then acc' else digits fuel' (z / 10) acc'
  end.

Definition show_Z (z : Z) : string :=
  if Z.ltb z 0 then "-" ++ digits 40 (- z) "" else digits 40 z "".

Fixpoint spaces (n : nat) : string :=
  match n with O => "" | S n' => " " ++ spaces n' end.

(** What follows a mapping key's colon, or a sequence item's dash. *)
Fixpoint render_node (ind : nat) (y : yaml) : string :=
  match y with
  | YNull => " ~" ++ lf
  | YBool b => (if b then " true" else " false") ++ lf
  | YInt z => " " ++ show_Z z ++ lf
  | YStr s => " " ++ s ++ lf
  | YSeq [] => " []" ++ lf
  | YMap [] => " {}" ++ lf
  | YSeq ys =>
      lf
        ++ (fix go ys := match ys with
                         | [] => ""
                         | y :: rest =>
                             spaces (ind + 2) ++ "-" ++ render_node (ind + 2) y
                               ++ go rest
                         end) ys
  | YMap kvs =>
      lf
        ++ (fix go kvs := match kvs with
                          | [] => ""
                          | (k, v) :: rest =>
                              spaces (ind + 2) ++ k ++ ":"
                                ++ render_node (ind + 2) v ++ go rest
                          end) kvs
  end.

Definition render_document (kvs : list (string * yaml)) : string :=
  String.concat "" (map (fun kv => kv.1 ++ ":" ++ render_node 0 kv.2) kvs).

Definition yaml_option {A} (f : A -> yaml) (o : option A) : yaml :=
  match o with Some a => f a | None => YNull end.

Definition yaml_strings (l : list string) : yaml := YSeq (map YStr l).

Definition yaml_argument (a : Argument) : yaml :=
  ymap [("type", match argument_type a with
                 | ArgumentType.Any => YStr "any"
                 | ArgumentType.Constant vs => ymap [("constant", yaml_strings vs)]
                 end);
        ("required", match required a with
                     | Required.Required d => yaml_option YStr d
                     | Required.NotRequired => YBool false
                     end);
        ("observes", YStr match observes a with
                          | Observes.ReadWrite => "read-write"
                          | Observes.Read => "read"
                          | Observes.Write => "write"
                          end)].

Definition yaml_field (f : Field) : yaml :=
  ymap ((match field_kind f with
         | FieldKind.Any => [("any", YBool true)]
         | FieldKind.Struct n => [("struct", YStr n)]
         | FieldKind.Property PropertyWritability.ReadOnly =>
             [("property", YStr "read-only")]
         | FieldKind.Property PropertyWritability.OverrideFields =>
             [("property", YStr "override-fields")]
         | FieldKind.Function_ b =>
             [("args", YSeq (map yaml_argument (arguments b)));
              ("method", YBool (method b)); ("must_use", YBool (must_use b))]
         end) ++
        match deprecated f with
        | Some d => [("deprecated", ymap [("message", YStr (message d));
                                          ("replace", yaml_strings (replace d))])]
        | None => []
        end).

Definition yaml_gmap {V} (f : V -> yaml) (m : gmap string V) : yaml :=
  ymap (map (fun kv => (kv.1, f kv.2)) (map_to_list m)).

Definition yaml_roblox_class (c : RobloxClass) : yaml :=
  ymap [("superclass", YStr (rc_superclass c));
        ("events", yaml_strings (rc_events c));
        ("properties", yaml_strings (rc_properties c))].

(** The top-level mapping, its keys in sorted order. *)
Definition yaml_std (s : StandardLibrary) : list (string * yaml) :=
  [("base", yaml_option YStr (base s));
   ("globals", yaml_gmap yaml_field (globals s));
   ("last_selene_version", yaml_option YStr (last_selene_version s));
   ("last_updated", yaml_option YInt (last_updated s));
   ("roblox_classes", yaml_gmap yaml_roblox_class (roblox_classes s));
   ("structs", yaml_gmap (yaml_gmap yaml_field) (structs s))].

Definition to_yaml_string (s : StandardLibrary) : string :=
  render_document (yaml_std s).

(** Lines 47-50: the [writeln!] header. *)
Definition header_line (time : string) : string :=
  "# This file was @generated by generate-roblox-std at " ++ time
    ++ lf.

(** ** The orchestrator [start_generation]

    [api] is the fetched dump, [roblox_base] the seed
    [StandardLibrary::roblox_base()], [(timestamp, time)] the instant
    [Local::now()] as its Unix timestamp and its display, [pkg_version] is
    [CARGO_PKG_VERSION].  [from_name] and [extend] stand for the selene_lib
    functions of lines 54-55. *)

(** Lines 30-33. *)
Definition write_well_known_classes (fuel : nat) (cfg_test : bool)
    (api : ApiDump) (g : RobloxGenerator) : outcome RobloxGenerator :=
  g ← write_class fuel cfg_test api "game" "DataModel" g;
  g ← write_class fuel cfg_test api "plugin" "Plugin" g;
  g ← write_class fuel cfg_test api "script" "Script" g;
  write_class fuel cfg_test api "workspace" "Workspace" g.

(** Lines 17-38: seed, then every pass in order. *)
Definition run_passes (fuel : nat) (cfg_test : bool) (api : ApiDump)
    (roblox_base : StandardLibrary) : outcome RobloxGenerator :=
  g ← write_well_known_classes fuel cfg_test api
        {| std := roblox_base; completed := [] |};
  let g := write_enums api g in
  let g := write_instance_new api g in
  g ← write_get_service api g;
  Ok (write_roblox_classes api g).

(** Lines 30-45: the descriptor layer that is serialized. *)
Definition generate_layer (fuel : nat) (cfg_test : bool) (api : ApiDump)
    (roblox_base : StandardLibrary) (timestamp : Z) (pkg_version : string)
    : outcome StandardLibrary :=
  g ← run_passes fuel cfg_test api roblox_base;
  Ok (set_stamps (Some timestamp) (Some pkg_version) (std g)).

Definition start_generation (fuel : nat) (cfg_test : bool) (api : ApiDump)
    (roblox_base : StandardLibrary) (timestamp : Z) (time : string)
    (pkg_version : string)
    (from_name : string -> option StandardLibrary)
    (extend : StandardLibrary -> StandardLibrary -> StandardLibrary)
    : outcome (string * StandardLibrary) :=
  s ← generate_layer fuel cfg_test api roblox_base timestamp pkg_version;
  let bytes := header_line time ++ to_yaml_string s in
  match base s with
  | None => Panic unwrap_none_msg
  | Some b =>
      match from_name b with
      | None => Panic unwrap_none_msg
      | Some parent => Ok (bytes, extend s parent)
      end
  end.

(** The bytes after the first line feed: the YAML document after the
    header comment line. *)
Fixpoint after_first_line (s : string) : string :=
  match s with
  | EmptyString => EmptyString
  | String c rest =>
      if Ascii.eqb c (Ascii.ascii_of_nat 10) then rest else after_first_line rest
  end.

(** ** Auxiliary functions used by the statements *)

(** The tags of a member, a missing list read as empty (lines 190-194). *)
Definition member_tags (m : ApiMember.ApiMember) : list string :=
  match m with
  | ApiMember.Callback _ t | ApiMember.Event _ t | ApiMember.Function_ _ t _
  | ApiMember.Property _ t _ _ => tags_or_empty t
  | ApiMember.Unknown => []
  end.

(** The name a member is stored under, if it has one. *)
Definition member_name (m : ApiMember.ApiMember) : option string :=
  match m with
  | ApiMember.Callback n _ | ApiMember.Event n _ | ApiMember.Function_ n _ _
  | ApiMember.Property n _ _ _ => Some n
  | ApiMember.Unknown => None
  end.

(** No member of the dump is named [n]. *)
Definition no_member_named (n : string) (api : ApiDump) : bool :=
  forallb (fun c => forallb (fun m => match member_name m with
                                      | Some n' => negb (String.eqb n' n)
                                      | None => true
                                      end) (ApiClass.members c))
    (classes api).

Definition class_exists (api : ApiDump) (n : string) : bool :=
  match find_class api n with Some _ => true | None => false end.

(** The superclass walk of [write_class_members] from [n] stops within [d]
    steps (at the root sentinel, or at a missing class, where it panics). *)
Fixpoint walk_ends (d : nat) (api : ApiDump) (n : string) : bool :=
  match d with
  | O => false
  | S d' =>
      match find_class api n with
      | None => true
      | Some c =>
          if String.eqb (ApiClass.superclass c) ROOT then true
          else walk_ends d' api (ApiClass.superclass c)
      end
  end.

(** Every superclass chain reaches the root sentinel without a cycle. *)
Definition chains_ok (api : ApiDump) : bool :=
  forallb (fun c => walk_ends (length (classes api) + 1) api (ApiClass.name c))
    (classes api).

(** A member names only classes of the dump. *)
Definition member_refs_ok (api : ApiDump) (m : ApiMember.ApiMember) : bool :=
  match m with
  | ApiMember.Property _ _ security (ApiValueType.Class cn) =>
      negb (String.eqb security default_security) || class_exists api cn
  | _ => true
  end.

(** Every superclass and every class-typed property names a class of the
    dump. *)
Definition refs_ok (api : ApiDump) : bool :=
  forallb (fun c =>
      (String.eqb (ApiClass.superclass c) ROOT
       || class_exists api (ApiClass.superclass c))
      && forallb (member_refs_ok api) (ApiClass.members c))
    (classes api).

Definition is_unknown (m : ApiMember.ApiMember) : bool :=
  match m with ApiMember.Unknown => true | _ => false end.

(** Outside a test build, or with no [Unknown] member in the dump. *)
Definition unknown_ok (cfg_test : bool) (api : ApiDump) : bool :=
  negb cfg_test
  || forallb (fun c => forallb (fun m => negb (is_unknown m)) (ApiClass.members c))
       (classes api).

(** The number of classes of the dump whose name has no struct yet. *)
Definition absent (api : ApiDump) (g : RobloxGenerator) : nat :=
  length (List.filter (fun c => negb (contains_key (structs (std g)) (ApiClass.name c)))
            (classes api)).

(** Every struct table of [g] outside [old] and [pending] has the wildcard
    entry [Struct("Instance")] under ["*"]. *)
Definition wildcard_ok (old : gmap string (gmap string Field))
    (pending : list string) (g : RobloxGenerator) : Prop :=
  forall k t, structs (std g) !! k = Some t -> old !! k = None ->
    ~ In k pending -> t !! "*" = Some wildcard_field.

(** The dump with the members satisfying [p] removed from every class. *)
Definition strip_class (p : ApiMember.ApiMember -> bool) (c : ApiClass.ApiClass)
    : ApiClass.ApiClass :=
  {| ApiClass.name := ApiClass.name c; ApiClass.superclass := ApiClass.superclass c;
     ApiClass.tags := ApiClass.tags c;
     ApiClass.members := List.filter (fun m => negb (p m)) (ApiClass.members c) |}.

Definition strip_members (p : ApiMember.ApiMember -> bool) (api : ApiDump)
    : ApiDump :=
  {| classes := map (strip_class p) (classes api); enums := enums api |}.

(** A property whose security is not the default one. *)
Definition secure_property (m : ApiMember.ApiMember) : bool :=
  match m with
  | ApiMember.Property _ _ security _ => negb (String.eqb security default_security)
  | _ => false
  end.

Definition outcome_map {A B} (f : A -> B) (r : outcome A) : outcome B :=
  match r with
  | Ok x => Ok (f x)
  | Panic msg => Panic msg
  | OutOfFuel => OutOfFuel
  end.

(** Everything of the descriptor but the class index [roblox_classes]. *)
Definition layer_view (s : StandardLibrary) :=
  (base s, globals s, structs s, last_updated s, last_selene_version s).

(** The string holds a line feed. *)
Fixpoint has_lf (s : string) : bool :=
  match s with
  | EmptyString => false
  | String c rest => Ascii.eqb c (Ascii.ascii_of_nat 10) || has_lf rest
  end.

(** The entry lines 96-205 store for one member, [None] when the member
    is skipped ([Unknown], or a property with non-default security). *)
Definition member_entry (m : ApiMember.ApiMember) : option (string * Field) :=
  match m with
  | ApiMember.Callback name tags =>
      Some (name, apply_deprecation (tags_or_empty tags)
        (from_field_kind (FieldKind.Property PropertyWritability.OverrideFields)))
  | ApiMember.Event name tags =>
      Some (name, apply_deprecation (tags_or_empty tags)
        (from_field_kind (FieldKind.Struct "Event")))
  | ApiMember.Function_ name tags parameters =>
      Some (name, apply_deprecation (tags_or_empty tags)
        (from_field_kind (FieldKind.Function_
          {| arguments := map (fun _ => any_argument) parameters;
             method := true; must_use := false |})))
  | ApiMember.Property name tags security value_type =>
      if String.eqb security default_security then
        let default_field := from_field_kind (FieldKind.Property
          (if contains (tags_or_empty tags) "ReadOnly"
           then PropertyWritability.ReadOnly
           else PropertyWritability.OverrideFields)) in
        Some (name, apply_deprecation (tags_or_empty tags)
          match value_type with
          | ApiValueType.Class cname => from_field_kind (FieldKind.Struct cname)
          | ApiValueType.DataType value =>
              if has_custom_methods value then from_field_kind FieldKind.Any
              else default_field
          | ApiValueType.Other _ => default_field
          end)
      else None
  | ApiMember.Unknown => None
  end.

(** Inserting the entries of [ms] into [table], in order. *)
Definition insert_entries (ms : list ApiMember.ApiMember)
    (table : gmap string Field) : gmap string Field :=
  fold_left (fun t m => match member_entry m with
                        | Some (name, field) => <[name := field]> t
                        | None => t
                        end) ms table.

(** The classes the superclass walk of [write_class_members] visits from
    [n], for at most [d] steps. *)
Fixpoint superclass_chain (d : nat) (api : ApiDump) (n : string)
    : list ApiClass.ApiClass :=
  match d with
  | O => []
  | S d' =>
      match find_class api n with
      | None => []
      | Some c =>
          c :: (if String.eqb (ApiClass.superclass c) ROOT then []
                else superclass_chain d' api (ApiClass.superclass c))
      end
  end.

(** The walk from [n]: a walk that reaches the root does so within as many
    steps as the dump has classes. *)
Definition ancestry (api : ApiDump) (n : string) : list ApiClass.ApiClass :=
  superclass_chain (length (classes api) + 1) api n.

(** Every struct key of [g'] that [g] lacked names a class of the dump. *)
Definition new_keys_ok (api : ApiDump) (g g' : RobloxGenerator) : Prop :=
  forall k t, structs (std g') !! k = Some t -> structs (std g) !! k = None ->
    class_exists api k = true.

(** A [Struct] field refers to ["Instance"], ["Event"] or a struct of [S]. *)
Definition field_ref_ok (S : gmap string (gmap string Field)) (f : Field)
    : Prop :=
  match field_kind f with
  | FieldKind.Struct c => c = "Instance" \/ c = "Event" \/ is_Some (S !! c)
  | _ => True
  end.

Definition table_refs_ok (S : gmap string (gmap string Field))
    (t : gmap string Field) : Prop :=
  forall n f, t !! n = Some f -> field_ref_ok S f.

(** Every table of [S] whose key [old] lacks has resolved references. *)
Definition refs_closed (old S : gmap string (gmap string Field)) : Prop :=
  forall k t, S !! k = Some t -> old !! k = None -> table_refs_ok S t.

(** The descriptor entry [write_roblox_class] stores for a class. *)
Definition roblox_class_entry (c : ApiClass.ApiClass) : RobloxClass :=
  {| rc_superclass := ApiClass.superclass c;
     rc_events := class_events (ApiClass.members c);
     rc_properties := class_properties (ApiClass.members c) |}.

(** The globals after the four [write_class] calls of lines 30-33. *)
Definition well_known_globals (G : gmap string Field) : gmap string Field :=
  <["workspace" := from_field_kind (FieldKind.Struct "Workspace")]>
  (<["script" := from_field_kind (FieldKind.Struct "Script")]>
  (<["plugin" := from_field_kind (FieldKind.Struct "Plugin")]>
  (<["game" := from_field_kind (FieldKind.Struct "DataModel")]> G))).

(** ** Sample inputs *)

Definition sample_property (n : string) (t : list string)
    (vt : ApiValueType.ApiValueType) : ApiMember.ApiMember :=
  ApiMember.Property n (Some t) default_security vt.

Definition sample_class (n sup : string) (t : list string)
    (ms : list ApiMember.ApiMember) : ApiClass.ApiClass :=
  {| ApiClass.name := n; ApiClass.superclass := sup; ApiClass.tags := t;
     ApiClass.members := ms |}.

(** A small dump with the four well-known classes, a self-referential
    property ([Script.Parent2]), a property with non-default security
    ([Workspace.Secret]) and an enum with an item named [GetEnumItems]. *)
Definition sample_api : ApiDump := {|
  classes := [
    sample_class "Instance" ROOT ["NotCreatable"]
      [sample_property "Name" [] (ApiValueType.Other "Primitive");
       ApiMember.Function_ "Destroy" None []];
    sample_class "DataModel" "Instance" ["Service"; "NotCreatable"]
      [ApiMember.Function_ "GetService" None ["className"];
       sample_property "Workspace" ["ReadOnly"] (ApiValueType.Class "Workspace")];
    sample_class "Plugin" "Instance" ["NotCreatable"] [];
    sample_class "Script" "Instance" []
      [sample_property "Source" [] (ApiValueType.Other "Primitive");
       sample_property "Parent2" ["Deprecated"] (ApiValueType.Class "Script")];
    sample_class "Workspace" "Instance" ["Service"]
      [ApiMember.Event "Changed" None;
       ApiMember.Property "Secret" None "PluginSecurity"
         (ApiValueType.Other "Primitive")] ];
  enums := [ {| ApiEnum.name := "Style"; ApiEnum.items := ["A"; "GetEnumItems"] |} ]
|}.

Definition empty_std : StandardLibrary :=
  {| base := Some "lua51"; globals := ∅; structs := ∅; roblox_classes := ∅;
     last_updated := None; last_selene_version := None |}.

Definition empty_generator : RobloxGenerator :=
  {| std := empty_std; completed := [] |}.

Definition sample_layer : StandardLibrary :=
  match generate_layer 40 false sample_api empty_std 7 "0.1.0" with
  | Ok s => s
  | _ => empty_std
  end.

(** [sample_api] with a callback named ["*"] in [Plugin]. *)
Definition star_api : ApiDump := {|
  classes := map (fun c => if String.eqb (ApiClass.name c) "Plugin"
                           then sample_class "Plugin" "Instance" ["NotCreatable"]
                                  [ApiMember.Callback "*" None]
                           else c) (classes sample_api);
  enums := enums sample_api
|}.

Definition star_layer : StandardLibrary :=
  match generate_layer 40 false star_api empty_std 7 "0.1.0" with
  | Ok s => s
  | _ => empty_std
  end.

(** The [Script] struct of [sample_layer]. *)
Definition script_table : gmap string Field :=
  match structs sample_layer !! "Script" with Some t => t | None => ∅ end.

(** [Workspace] of [sample_api] with an unknown member in place of
    [Secret]. *)
Definition unknown_workspace : ApiClass.ApiClass :=
  sample_class "Workspace" "Instance" ["Service"]
    [ApiMember.Event "Changed" None; ApiMember.Unknown].

Definition unknown_api : ApiDump :=
  {| classes := map (fun c => if String.eqb (ApiClass.name c) "Workspace"
                              then unknown_workspace else c) (classes sample_api);
     enums := enums sample_api |}.

(** [Script] of [sample_api] with its own read-only [Name], a member its
    superclass [Instance] also has, without the [ReadOnly] tag. *)
Definition override_script : ApiClass.ApiClass :=
  sample_class "Script" "Instance" []
    [sample_property "Name" ["ReadOnly"] (ApiValueType.Other "Primitive");
     sample_property "Source" [] (ApiValueType.Other "Primitive")].

Definition override_api : ApiDump :=
  {| classes := map (fun c => if String.eqb (ApiClass.name c) "Script"
                              then override_script else c) (classes sample_api);
     enums := enums sample_api |}.

Definition override_layer : StandardLibrary :=
  match generate_layer 40 false override_api empty_std 7 "0.1.0" with
  | Ok s => s
  | _ => empty_std
  end.

(** A run of [start_generation] on [sample_api] at [timestamp], shown as
    [time]; the parent descriptor is the empty one and [extend] keeps the
    layer. *)
Definition sample_run (timestamp : Z) (time : string)
    : outcome (string * StandardLibrary) :=
  start_generation 40 false sample_api empty_std timestamp time "0.1.0"
    (fun _ => Some empty_std) (fun s _ => s).

Definition run_bytes (timestamp : Z) (time : string) : string :=
  match sample_run timestamp time with Ok (b, _) => b | _ => EmptyString end.

Definition run_std (timestamp : Z) (time : string) : StandardLibrary :=
  match sample_run timestamp time with Ok (_, s) => s | _ => empty_std end.

(** The generator after synthesizing [Script] of [sample_api] from an empty
    descriptor, and the table it stores. *)
Definition script_generator : RobloxGenerator :=
  match write_class_struct 40 false sample_api "Script" empty_generator with
  | Ok g => g
  | _ => empty_generator
  end.

Definition script_struct : gmap string Field :=
  match structs (std script_generator) !! "Script" with Some t => t | None => ∅ end.

(** [DataModel] synthesized after [Script]. *)
Definition data_model_generator : RobloxGenerator :=
  match write_class_struct 40 false sample_api "DataModel" script_generator with
  | Ok g => g
  | _ => empty_generator
  end.

(** [Script] of [override_api] synthesized from an empty descriptor. *)
Definition override_generator : RobloxGenerator :=
  match write_class_struct 40 false override_api "Script" empty_generator with
  | Ok g => g
  | _ => empty_generator
  end.

(** A seed with a global [print] and a [Vector3] struct. *)
Definition seeded_std : StandardLibrary :=
  {| base := Some "roblox_base";
     globals := {[ "print" := from_field_kind FieldKind.Any ]};
     structs := {[ "Vector3" :=
                     {[ "X" := from_field_kind (FieldKind.Property
                                 PropertyWritability.ReadOnly) ]} ]};
     roblox_classes := ∅; last_updated := None; last_selene_version := None |}.

Definition seeded_layer : StandardLibrary :=
  match generate_layer 40 false sample_api seeded_std 7 "0.1.0" with
  | Ok s => s
  | _ => empty_std
  end.

(** * Properties *)

(** ** General lemmas *)

Lemma contains_In (l : list string) (s : string) :
  contains l s = true <-> In s l.
Proof.
  unfold contains. rewrite existsb_exists. split.
  - intros (x & Hx & Heq). apply String.eqb_eq in Heq. subst. exact Hx.
  - intros H. exists s. split; [exact H | apply String.eqb_refl].
Qed.

Lemma contains_not_In (l : list string) (s : string) :
  contains l s = false <-> ~ In s l.
Proof.
  rewrite <- contains_In. destruct (contains l s); intuition congruence.
Qed.

Lemma in_filter_names (p : ApiClass.ApiClass -> bool) (cs : list ApiClass.ApiClass)
    (n : string) :
  In n (map ApiClass.name (List.filter p cs)) <->
  exists c, In c cs /\ ApiClass.name c = n /\ p c = true.
Proof.
  rewrite in_map_iff. split.
  - intros (c & Hn & Hc). apply filter_In in Hc. firstorder.
  - intros (c & Hc & Hn & Hp). exists c. rewrite filter_In. auto.
Qed.

Lemma run_passes_inv fuel cfg_test api roblox_base g :
  run_passes fuel cfg_test api roblox_base = Ok g ->
  exists g1 g2,
    write_well_known_classes fuel cfg_test api
      {| std := roblox_base; completed := [] |} = Ok g1 /\
    write_get_service api (write_instance_new api (write_enums api g1)) = Ok g2 /\
    g = write_roblox_classes api g2.
Proof.
  unfold run_passes. cbn.
  destruct (write_well_known_classes _ _ _ _) as [g1| |]; cbn; try discriminate.
  destruct (write_get_service _ _) as [g2| |] eqn:E; cbn; try discriminate.
  intros H. injection H as <-. eauto.
Qed.

Lemma generate_layer_inv fuel cfg_test api roblox_base timestamp pkg_version s :
  generate_layer fuel cfg_test api roblox_base timestamp pkg_version = Ok s ->
  exists g, run_passes fuel cfg_test api roblox_base = Ok g /\
    s = set_stamps (Some timestamp) (Some pkg_version) (std g).
Proof.
  unfold generate_layer. cbn.
  destruct (run_passes _ _ _ _) as [g| |]; cbn; try discriminate.
  intros H. injection H as <-. eauto.
Qed.

Lemma write_roblox_classes_keeps api g :
  globals (std (write_roblox_classes api g)) = globals (std g) /\
  structs (std (write_roblox_classes api g)) = structs (std g).
Proof.
  unfold write_roblox_classes. generalize (classes api) as cs.
  intros cs. revert g. induction cs as [|c cs IH]; intros g; [auto|].
  cbn. destruct (IH (write_roblox_class g c)) as [-> ->]. auto.
Qed.

Lemma write_get_service_inv api g g' :
  write_get_service api g = Ok g' ->
  globals (std g') = globals (std g) /\
  roblox_classes (std g') = roblox_classes (std g) /\
  exists dm, structs (std g) !! "DataModel" = Some dm /\
    structs (std g') = <["DataModel" := <["GetService" := get_service_field api]> dm]>
                         (structs (std g)).
Proof.
  unfold write_get_service.
  destruct (structs (std g) !! "DataModel") as [dm|] eqn:Hdm; [|discriminate].
  destruct (dm !! "GetService"); [|discriminate].
  intros H. injection H as <-. cbn. eauto 6.
Qed.

(** ** C2: the constructor constants *)

(** C2. In the generated descriptor, [Instance.new] is a non-method,
    must_use function with exactly one [Required] argument whose constant
    set holds exactly the names of the classes not tagged [NotCreatable];
    [DataModel.GetService] is a method, must_use function with exactly one
    [Required] argument whose constant set holds exactly the names of the
    classes tagged [Service]. *)
Theorem constructor_constants fuel cfg_test api roblox_base timestamp
    pkg_version (s : StandardLibrary) :
  generate_layer fuel cfg_test api roblox_base timestamp pkg_version = Ok s ->
  (exists names,
     globals s !! "Instance.new" =
       Some {| field_kind := FieldKind.Function_
                 {| arguments :=
                      [{| argument_type := ArgumentType.Constant names;
                          required := Required.Required None;
                          observes := Observes.ReadWrite |}];
                    method := false; must_use := true |};
               deprecated := None |} /\
     forall n, In n names <->
       exists c, In c (classes api) /\ ApiClass.name c = n /\
                 ~ In "NotCreatable" (ApiClass.tags c)) /\
  (exists data_model names,
     structs s !! "DataModel" = Some data_model /\
     data_model !! "GetService" =
       Some {| field_kind := FieldKind.Function_
                 {| arguments :=
                      [{| argument_type := ArgumentType.Constant names;
                          required := Required.Required None;
                          observes := Observes.ReadWrite |}];
                    method := true; must_use := true |};
               deprecated := None |} /\
     forall n, In n names <->
       exists c, In c (classes api) /\ ApiClass.name c = n /\
                 In "Service" (ApiClass.tags c)).
Proof.
  intros Hgen.
  destruct (generate_layer_inv _ _ _ _ _ _ _ Hgen) as (g & Hrun & ->).
  destruct (run_passes_inv _ _ _ _ _ Hrun) as (g1 & g2 & _ & Hgs & ->).
  destruct (write_roblox_classes_keeps api g2) as [Hglob Hstr].
  destruct (write_get_service_inv _ _ _ Hgs) as (Hglob2 & _ & dm & _ & Hstr2).
  cbn. rewrite Hglob, Hstr, Hglob2, Hstr2. split.
  - exists (instance_names api). split.
    + cbn. rewrite lookup_insert_eq. reflexivity.
    + intros n. unfold instance_names. rewrite in_filter_names.
      setoid_rewrite Bool.negb_true_iff. setoid_rewrite contains_not_In.
      reflexivity.
  - eexists _, (service_names api). rewrite lookup_insert_eq.
    split; [reflexivity|]. rewrite lookup_insert_eq. split; [reflexivity|].
    intros n. unfold service_names. rewrite in_filter_names.
    setoid_rewrite contains_In. reflexivity.
Qed.

Lemma constructor_constants_witness :
  generate_layer 40 false sample_api empty_std 7 "0.1.0" = Ok sample_layer /\
  ((exists names,
     globals sample_layer !! "Instance.new" =
       Some {| field_kind := FieldKind.Function_
                 {| arguments :=
                      [{| argument_type := ArgumentType.Constant names;
                          required := Required.Required None;
                          observes := Observes.ReadWrite |}];
                    method := false; must_use := true |};
               deprecated := None |} /\
     forall n, In n names <->
       exists c, In c (classes sample_api) /\ ApiClass.name c = n /\
                 ~ In "NotCreatable" (ApiClass.tags c)) /\
  (exists data_model names,
     structs sample_layer !! "DataModel" = Some data_model /\
     data_model !! "GetService" =
       Some {| field_kind := FieldKind.Function_
                 {| arguments :=
                      [{| argument_type := ArgumentType.Constant names;
                          required := Required.Required None;
                          observes := Observes.ReadWrite |}];
                    method := true; must_use := true |};
               deprecated := None |} /\
     forall n, In n names <->
       exists c, In c (classes sample_api) /\ ApiClass.name c = n /\
                 In "Service" (ApiClass.tags c))).
Proof.
  assert (H : generate_layer 40 false sample_api empty_std 7 "0.1.0"
              = Ok sample_layer) by (vm_compute; reflexivity).
  split; [exact H|]. exact (constructor_constants _ _ _ _ _ _ _ H).
Defined.

(** ** C7: deprecation annotations *)

Lemma classify_member_fresh ws cfg_test class_name member g g' name tags
    (field : Field) :
  classify_member ws cfg_test class_name member g =
    Ok (g', Some (name, tags, Some field)) ->
  tags_or_empty tags = member_tags member /\ deprecated field = None.
Proof.
  destruct member as [n t|n t|n t ps|n t sec vt|]; cbn.
  - intros H. injection H as _ <- <- <-. auto.
  - intros H. injection H as _ <- <- <-. auto.
  - intros H. injection H as _ <- <- <-. auto.
  - destruct (String.eqb sec default_security); [|discriminate].
    destruct vt as [cn|v|o]; cbn.
    + destruct (ws cn g); cbn; try discriminate.
      intros H. injection H as _ <- <- <-. auto.
    + destruct (has_custom_methods v); intros H; injection H as _ <- <- <-; auto.
    + intros H. injection H as _ <- <- <-. auto.
  - destruct cfg_test; discriminate.
Qed.

(** C7. Every field emitted by member classification carries the
    deprecation annotation with message "this property is deprecated." and
    an empty replacement list when its member's tags include "Deprecated",
    and no deprecation annotation otherwise. *)
Theorem emitted_field_deprecation ws cfg_test class_name member g g' name tags
    field (f : Field) :
  classify_member ws cfg_test class_name member g =
    Ok (g', Some (name, tags, field)) ->
  emitted_field tags field = Some f ->
  (In "Deprecated" (member_tags member) ->
     deprecated f = Some {| message := "this property is deprecated.";
                            replace := [] |}) /\
  (~ In "Deprecated" (member_tags member) -> deprecated f = None).
Proof.
  intros Hc He. destruct field as [fld|]; [|discriminate].
  injection He as <-.
  destruct (classify_member_fresh _ _ _ _ _ _ _ _ _ Hc) as [Ht Hd].
  unfold apply_deprecation. rewrite Ht. split.
  - intros Hin. apply contains_In in Hin. rewrite Hin. reflexivity.
  - intros Hnin. apply contains_not_In in Hnin. rewrite Hnin. exact Hd.
Qed.

Lemma emitted_field_deprecation_witness :
  let member := sample_property "Bar" ["Deprecated"] (ApiValueType.Other "x") in
  classify_member (fun _ g => Ok g) false "Foo" member empty_generator =
    Ok (empty_generator, Some ("Bar", Some ["Deprecated"],
      Some (from_field_kind
              (FieldKind.Property PropertyWritability.OverrideFields)))) /\
  emitted_field (Some ["Deprecated"])
    (Some (from_field_kind
             (FieldKind.Property PropertyWritability.OverrideFields))) =
    Some {| field_kind := FieldKind.Property PropertyWritability.OverrideFields;
            deprecated := Some deprecation |} /\
  ((In "Deprecated" (member_tags member) ->
     deprecated {| field_kind := FieldKind.Property
                                   PropertyWritability.OverrideFields;
                   deprecated := Some deprecation |} =
       Some {| message := "this property is deprecated."; replace := [] |}) /\
   (~ In "Deprecated" (member_tags member) ->
     deprecated {| field_kind := FieldKind.Property
                                   PropertyWritability.OverrideFields;
                   deprecated := Some deprecation |} = None)).
Proof.
  intros member.
  assert (H1 : classify_member (fun _ g => Ok g) false "Foo" member
                 empty_generator =
    Ok (empty_generator, Some ("Bar", Some ["Deprecated"],
      Some (from_field_kind
              (FieldKind.Property PropertyWritability.OverrideFields)))))
    by reflexivity.
  assert (H2 : emitted_field (Some ["Deprecated"])
    (Some (from_field_kind
             (FieldKind.Property PropertyWritability.OverrideFields))) =
    Some {| field_kind := FieldKind.Property PropertyWritability.OverrideFields;
            deprecated := Some deprecation |}) by reflexivity.
  split; [exact H1|]. split; [exact H2|].
  exact (emitted_field_deprecation _ _ _ _ _ _ _ _ _ _ H1 H2).
Defined.

(** ** C9: [write_enums] and an item named [GetEnumItems] *)

Lemma string_length_app (s t : string) :
  String.length (s ++ t) = String.length s + String.length t.
Proof. induction s as [|c s IH]; [reflexivity | exact (f_equal S IH)]. Qed.

Lemma string_app_cancel_r (s1 s2 t : string) : s1 ++ t = s2 ++ t -> s1 = s2.
Proof.
  intros H.
  assert (Hl : String.length s1 = String.length s2).
  { apply (f_equal String.length) in H. rewrite !string_length_app in H. lia. }
  revert s2 H Hl. induction s1 as [|c s1 IH]; intros [|c2 s2] H Hl; cbn in *;
    try discriminate; try reflexivity.
  injection H as -> H. f_equal. apply IH; [exact H | lia].
Qed.

Lemma set_global_lookup name field g k :
  globals (std (set_global name field g)) !! k =
    if String.eqb name k then Some field else globals (std g) !! k.
Proof.
  cbn. destruct (String.eqb_spec name k) as [->|Hne].
  - apply lookup_insert_eq.
  - apply lookup_insert_ne. exact Hne.
Qed.

Lemma fold_set_global_same (key : string -> string) (v : Field)
    (items : list string) g k :
  (globals (std g) !! k = Some v \/ exists i, In i items /\ key i = k) ->
  globals (std (fold_left (fun g i => set_global (key i) v g) items g)) !! k
    = Some v.
Proof.
  revert g. induction items as [|i items IH]; intros g H; cbn.
  - destruct H as [H|(i & [] & _)]. exact H.
  - apply IH. rewrite set_global_lookup.
    destruct (String.eqb_spec (key i) k) as [Heq|Hne]; [auto|].
    destruct H as [H|(i' & [->|Hi] & Hk)]; [auto|contradiction|eauto].
Qed.

Definition get_enum_items_key (e : string) : string :=
  "Enum." ++ e ++ ".GetEnumItems".

Lemma write_enum_sets e g :
  In "GetEnumItems" (ApiEnum.items e) ->
  globals (std (write_enum g e)) !! get_enum_items_key (ApiEnum.name e) =
    Some (from_field_kind (FieldKind.Struct "EnumItem")).
Proof.
  intros Hin. unfold write_enum.
  apply fold_set_global_same. right. exists "GetEnumItems". split; [exact Hin|].
  unfold get_enum_items_key. reflexivity.
Qed.

Lemma write_enum_keeps e g n :
  ApiEnum.name e <> n ->
  globals (std g) !! get_enum_items_key n =
    Some (from_field_kind (FieldKind.Struct "EnumItem")) ->
  globals (std (write_enum g e)) !! get_enum_items_key n =
    Some (from_field_kind (FieldKind.Struct "EnumItem")).
Proof.
  intros Hne H. unfold write_enum.
  apply fold_set_global_same. left. rewrite set_global_lookup.
  destruct (String.eqb_spec ("Enum." ++ ApiEnum.name e ++ ".GetEnumItems")
              (get_enum_items_key n)) as [Heq|_]; [|exact H].
  exfalso. apply Hne. unfold get_enum_items_key in Heq.
  apply (inj (String.append "Enum.")) in Heq.
  exact (string_app_cancel_r _ _ _ Heq).
Qed.

Lemma write_enums_item_key api g pre e post :
  enums api = (pre ++ e :: post)%list ->
  In "GetEnumItems" (ApiEnum.items e) ->
  Forall (fun e' => ApiEnum.name e' <> ApiEnum.name e) post ->
  globals (std (write_enums api g)) !! get_enum_items_key (ApiEnum.name e) =
    Some (from_field_kind (FieldKind.Struct "EnumItem")).
Proof.
  intros Henums Hin Hpost. unfold write_enums. rewrite Henums, fold_left_app.
  clear Henums. cbn. generalize (write_enum_sets e (fold_left write_enum pre g) Hin).
  generalize (write_enum (fold_left write_enum pre g) e) as g'.
  induction Hpost as [|e' post Hne Hpost IH]; intros g' H; cbn; [exact H|].
  apply IH. apply write_enum_keeps; assumption.
Qed.

(** C9 (as amended). For an enum [E] with an item named [GetEnumItems] and
    no later enum of the same name in the dump, the generated global
    [Enum.E.GetEnumItems] is [Struct("EnumItem")], not the zero-argument
    method function. *)
Theorem enum_get_enum_items_item fuel cfg_test api roblox_base timestamp
    pkg_version (s : StandardLibrary) pre e post :
  generate_layer fuel cfg_test api roblox_base timestamp pkg_version = Ok s ->
  enums api = (pre ++ e :: post)%list ->
  In "GetEnumItems" (ApiEnum.items e) ->
  Forall (fun e' => ApiEnum.name e' <> ApiEnum.name e) post ->
  globals s !! ("Enum." ++ ApiEnum.name e ++ ".GetEnumItems") =
    Some (from_field_kind (FieldKind.Struct "EnumItem")).
Proof.
  intros Hgen Henums Hin Hpost.
  destruct (generate_layer_inv _ _ _ _ _ _ _ Hgen) as (g & Hrun & ->).
  destruct (run_passes_inv _ _ _ _ _ Hrun) as (g1 & g2 & _ & Hgs & ->).
  destruct (write_roblox_classes_keeps api g2) as [Hglob _].
  destruct (write_get_service_inv _ _ _ Hgs) as (Hglob2 & _).
  cbn. rewrite Hglob, Hglob2. unfold write_instance_new.
  rewrite set_global_lookup.
  replace (String.eqb "Instance.new" ("Enum." ++ ApiEnum.name e ++ ".GetEnumItems"))
    with false by reflexivity.
  exact (write_enums_item_key api g1 pre e post Henums Hin Hpost).
Qed.

Definition sample_enum_api : ApiDump :=
  {| classes := classes sample_api;
     enums := [ {| ApiEnum.name := "Style"; ApiEnum.items := ["GetEnumItems"] |} ] |}.

Definition sample_enum_layer : StandardLibrary :=
  match generate_layer 40 false sample_enum_api empty_std 7 "0.1.0" with
  | Ok s => s
  | _ => empty_std
  end.

Definition style_enum : ApiEnum.ApiEnum :=
  {| ApiEnum.name := "Style"; ApiEnum.items := ["GetEnumItems"] |}.

Lemma enum_get_enum_items_item_witness :
  (generate_layer 40 false sample_enum_api empty_std 7 "0.1.0" =
     Ok sample_enum_layer) /\
  (enums sample_enum_api = ([] ++ style_enum :: [])%list) /\
  In "GetEnumItems" (ApiEnum.items style_enum) /\
  (globals sample_enum_layer !!
     ("Enum." ++ ApiEnum.name style_enum ++ ".GetEnumItems") =
     Some (from_field_kind (FieldKind.Struct "EnumItem"))).
Proof.
  assert (H : generate_layer 40 false sample_enum_api empty_std 7 "0.1.0" =
    Ok sample_enum_layer) by (vm_compute; reflexivity).
  assert (He : enums sample_enum_api = ([] ++ style_enum :: [])%list)
    by reflexivity.
  assert (Hi : In "GetEnumItems" (ApiEnum.items style_enum))
    by (left; reflexivity).
  split; [exact H|]. split; [exact He|]. split; [exact Hi|].
  exact (enum_get_enum_items_item 40 false sample_enum_api empty_std 7 "0.1.0"
           sample_enum_layer [] style_enum [] H He Hi (List.Forall_nil _)).
Defined.

(** A dump with two enums named [Style], the first with an item named
    [GetEnumItems]. *)
Definition duplicate_enum_api : ApiDump :=
  {| classes := classes sample_api;
     enums := [ {| ApiEnum.name := "Style"; ApiEnum.items := ["GetEnumItems"] |};
                {| ApiEnum.name := "Style"; ApiEnum.items := ["A"] |} ] |}.

Definition duplicate_enum_layer : StandardLibrary :=
  match generate_layer 40 false duplicate_enum_api empty_std 7 "0.1.0" with
  | Ok s => s
  | _ => empty_std
  end.

(** C9 as stated fails: when a later enum has the same name, the global
    [Enum.Style.GetEnumItems] is the method function again. *)
Lemma enum_get_enum_items_item_counterexample :
  ~ (forall s, generate_layer 40 false duplicate_enum_api empty_std 7 "0.1.0"
                 = Ok s ->
     forall e, In e (enums duplicate_enum_api) ->
     In "GetEnumItems" (ApiEnum.items e) ->
     globals s !! ("Enum." ++ ApiEnum.name e ++ ".GetEnumItems") =
       Some (from_field_kind (FieldKind.Struct "EnumItem"))).
Proof.
  intros H.
  assert (Hg : generate_layer 40 false duplicate_enum_api empty_std 7 "0.1.0" =
    Ok duplicate_enum_layer) by (vm_compute; reflexivity).
  specialize (H _ Hg _ (or_introl eq_refl) (or_introl eq_refl)).
  vm_compute in H. discriminate H.
Qed.

(** ** C10: the class index *)

Lemma write_roblox_class_lookup g c k :
  roblox_classes (std (write_roblox_class g c)) !! k =
    if String.eqb (ApiClass.name c) k
    then Some {| rc_superclass := ApiClass.superclass c;
                 rc_events := class_events (ApiClass.members c);
                 rc_properties := class_properties (ApiClass.members c) |}
    else roblox_classes (std g) !! k.
Proof.
  cbn. destruct (String.eqb_spec (ApiClass.name c) k) as [->|Hne].
  - apply lookup_insert_eq.
  - apply lookup_insert_ne. exact Hne.
Qed.

Lemma write_roblox_classes_entry api g pre c post :
  classes api = (pre ++ c :: post)%list ->
  Forall (fun c' => ApiClass.name c' <> ApiClass.name c) post ->
  roblox_classes (std (write_roblox_classes api g)) !! ApiClass.name c =
    Some {| rc_superclass := ApiClass.superclass c;
            rc_events := class_events (ApiClass.members c);
            rc_properties := class_properties (ApiClass.members c) |}.
Proof.
  intros Hcl Hpost. unfold write_roblox_classes. rewrite Hcl, fold_left_app.
  clear Hcl. cbn.
  assert (H := write_roblox_class_lookup (fold_left write_roblox_class pre g) c
                 (ApiClass.name c)).
  rewrite String.eqb_refl in H. revert H.
  generalize (write_roblox_class (fold_left write_roblox_class pre g) c) as g'.
  induction Hpost as [|c' post Hne Hpost IH]; intros g' H; cbn; [exact H|].
  apply IH. rewrite write_roblox_class_lookup.
  destruct (String.eqb_spec (ApiClass.name c') (ApiClass.name c)); [contradiction|].
  exact H.
Qed.

Lemma class_properties_app (ms1 ms2 : list ApiMember.ApiMember) :
  class_properties (ms1 ++ ms2) = (class_properties ms1 ++ class_properties ms2)%list.
Proof. unfold class_properties. apply flat_map_app. Qed.

(** C10 (as amended). For every class not followed in the dump by another
    class of the same name, its class-index entry records its superclass,
    and its [properties] list is the names of all its [Property] members in
    dump order, whatever their security value or tags: a property that the
    security filter keeps out of the struct table still appears here. *)
Theorem class_index_properties fuel cfg_test api roblox_base timestamp
    pkg_version (s : StandardLibrary) pre c post :
  generate_layer fuel cfg_test api roblox_base timestamp pkg_version = Ok s ->
  classes api = (pre ++ c :: post)%list ->
  Forall (fun c' => ApiClass.name c' <> ApiClass.name c) post ->
  exists rc,
    roblox_classes s !! ApiClass.name c = Some rc /\
    rc_superclass rc = ApiClass.superclass c /\
    rc_properties rc = class_properties (ApiClass.members c) /\
    (forall ms1 ms2 n tags security value_type,
       ApiClass.members c =
         (ms1 ++ ApiMember.Property n tags security value_type :: ms2)%list ->
       rc_properties rc =
         (class_properties ms1 ++ n :: class_properties ms2)%list).
Proof.
  intros Hgen Hcl Hpost.
  destruct (generate_layer_inv _ _ _ _ _ _ _ Hgen) as (g & Hrun & ->).
  destruct (run_passes_inv _ _ _ _ _ Hrun) as (g1 & g2 & _ & _ & ->).
  cbn. rewrite (write_roblox_classes_entry api g2 pre c post Hcl Hpost).
  eexists. split; [reflexivity|]. cbn. split; [reflexivity|].
  split; [reflexivity|].
  intros ms1 ms2 n tags security value_type ->.
  rewrite class_properties_app. reflexivity.
Qed.

Definition workspace_class : ApiClass.ApiClass :=
  sample_class "Workspace" "Instance" ["Service"]
    [ApiMember.Event "Changed" None;
     ApiMember.Property "Secret" None "PluginSecurity"
       (ApiValueType.Other "Primitive")].

Lemma class_index_properties_witness :
  (generate_layer 40 false sample_api empty_std 7 "0.1.0" = Ok sample_layer) /\
  (classes sample_api =
     (removelast (classes sample_api) ++ workspace_class :: [])%list) /\
  exists rc,
    roblox_classes sample_layer !! ApiClass.name workspace_class = Some rc /\
    rc_superclass rc = ApiClass.superclass workspace_class /\
    rc_properties rc = class_properties (ApiClass.members workspace_class) /\
    (forall ms1 ms2 n tags security value_type,
       ApiClass.members workspace_class =
         (ms1 ++ ApiMember.Property n tags security value_type :: ms2)%list ->
       rc_properties rc =
         (class_properties ms1 ++ n :: class_properties ms2)%list).
Proof.
  assert (H : generate_layer 40 false sample_api empty_std 7 "0.1.0" =
              Ok sample_layer) by (vm_compute; reflexivity).
  assert (Hc : classes sample_api =
     (removelast (classes sample_api) ++ workspace_class :: [])%list)
    by reflexivity.
  split; [exact H|]. split; [exact Hc|].
  exact (class_index_properties 40 false sample_api empty_std 7 "0.1.0"
           sample_layer _ workspace_class [] H Hc (List.Forall_nil _)).
Defined.

(** A dump with two classes named [Part]; only the first has a property. *)
Definition duplicate_class_api : ApiDump :=
  {| classes := (classes sample_api ++
       [sample_class "Part" "Instance" []
          [sample_property "Color" [] (ApiValueType.Other "Primitive")];
        sample_class "Part" "Instance" [] []])%list;
     enums := [] |}.

Definition duplicate_class_layer : StandardLibrary :=
  match generate_layer 40 false duplicate_class_api empty_std 7 "0.1.0" with
  | Ok s => s
  | _ => empty_std
  end.

(** C10 as stated fails: the entry of a class is replaced by a later class
    of the same name, so the first [Part]'s property is not in the index. *)
Lemma class_index_properties_counterexample :
  ~ (forall s, generate_layer 40 false duplicate_class_api empty_std 7 "0.1.0"
                 = Ok s ->
     forall c, In c (classes duplicate_class_api) ->
     forall n tags security value_type,
       In (ApiMember.Property n tags security value_type) (ApiClass.members c) ->
       exists rc, roblox_classes s !! ApiClass.name c = Some rc /\
                  In n (rc_properties rc)).
Proof.
  intros H.
  assert (Hg : generate_layer 40 false duplicate_class_api empty_std 7 "0.1.0"
               = Ok duplicate_class_layer) by (vm_compute; reflexivity).
  assert (Hc : In (sample_class "Part" "Instance" []
                     [sample_property "Color" [] (ApiValueType.Other "Primitive")])
                  (classes duplicate_class_api))
    by (cbn; tauto).
  destruct (H _ Hg _ Hc "Color" (Some []) default_security
              (ApiValueType.Other "Primitive") (or_introl eq_refl))
    as (rc & Hrc & Hin).
  vm_compute in Hrc. injection Hrc as <-. cbn in Hin. exact Hin.
Qed.

(** ** How class synthesis changes the generator state *)

(** [g'] extends [g]: stored structs are kept, and every table recorded
    since was recorded for a name that had no struct in [g]. *)
Definition grows (g g' : RobloxGenerator) : Prop :=
  (forall k t, structs (std g) !! k = Some t -> structs (std g') !! k = Some t) /\
  exists l, completed g' = (completed g ++ l)%list /\
            Forall (fun e => structs (std g) !! e.1 = None) l.

Lemma grows_refl g : grows g g.
Proof. split; [auto|]. exists []. rewrite app_nil_r. auto. Qed.

Lemma grows_trans g1 g2 g3 : grows g1 g2 -> grows g2 g3 -> grows g1 g3.
Proof.
  intros [F1 (l1 & L1 & N1)] [F2 (l2 & L2 & N2)]. split; [auto|].
  exists (l1 ++ l2)%list. split; [rewrite L2, L1, app_assoc; reflexivity|].
  apply Forall_app. split; [exact N1|].
  eapply List.Forall_impl; [|exact N2]. intros e He.
  destruct (structs (std g1) !! e.1) eqn:E; [|reflexivity].
  apply F1 in E. congruence.
Qed.

Lemma classify_member_grows ws cfg_test class_name member g g' o :
  (forall n h h', ws n h = Ok h' -> grows h h') ->
  classify_member ws cfg_test class_name member g = Ok (g', o) ->
  grows g g'.
Proof.
  intros Hws. destruct member as [n t|n t|n t ps|n t sec vt|]; cbn.
  1-3: intros H; injection H as <- _; apply grows_refl.
  - destruct (String.eqb sec default_security);
      [|intros H; injection H as <- _; apply grows_refl].
    destruct vt as [cn|v|o']; cbn.
    + destruct (ws cn g) as [h| |] eqn:E; cbn; try discriminate.
      intros H. injection H as <- _. eauto.
    + destruct (has_custom_methods v); intros H; injection H as <- _;
        apply grows_refl.
    + intros H. injection H as <- _. apply grows_refl.
  - destruct cfg_test; [discriminate|]. intros H. injection H as <- _.
    apply grows_refl.
Qed.

Lemma loop_grows ws cfg_test class_name ms table g g' table' :
  (forall n h h', ws n h = Ok h' -> grows h h') ->
  write_class_members_loop ws cfg_test class_name ms table g = Ok (g', table') ->
  grows g g'.
Proof.
  intros Hws. revert table g. induction ms as [|m ms IH]; intros table g; cbn.
  - intros H. injection H as <- _. apply grows_refl.
  - destruct (classify_member ws cfg_test class_name m g) as [[g1 o]| |] eqn:E;
      cbn; try discriminate.
    apply classify_member_grows in E; [|exact Hws].
    destruct o as [[[n t] f]|]; [destruct (emitted_field t f)|];
      intros H; eapply grows_trans; [exact E| |exact E| |exact E|];
      eapply IH; exact H.
Qed.

Lemma reserve_struct_grows class_name g :
  structs (std g) !! class_name = None -> grows g (reserve_struct class_name g).
Proof.
  intros Hn. split.
  - intros k t Hk. cbn. rewrite lookup_insert_ne; [exact Hk|congruence].
  - exists []. rewrite app_nil_r. auto.
Qed.

Lemma synthesis_grows fuel :
  (forall cfg_test api class_name g g',
     write_class_struct fuel cfg_test api class_name g = Ok g' -> grows g g') /\
  (forall cfg_test api table class_name g g' table',
     write_class_members fuel cfg_test api table class_name g = Ok (g', table') ->
     grows g g').
Proof.
  induction fuel as [|fuel [IHs IHm]]; [split; intros; discriminate|]. split.
  - intros cfg_test api class_name g g'. cbn.
    destruct (contains_key (structs (std g)) class_name) eqn:Hc.
    { intros H. injection H as <-. apply grows_refl. }
    destruct (write_class_members fuel cfg_test api _ class_name
                (reserve_struct class_name g)) as [[g2 t2]| |] eqn:E;
      cbn; try discriminate.
    intros H. injection H as <-.
    assert (Hn : structs (std g) !! class_name = None).
    { unfold contains_key in Hc. destruct (_ !! _); congruence. }
    apply IHm in E. pose proof (grows_trans _ _ _ (reserve_struct_grows _ _ Hn) E)
      as [F (l & L & N)].
    split.
    + intros k t Hk. cbn. rewrite lookup_insert_ne; [auto|congruence].
    + exists (l ++ [(class_name, t2)])%list. cbn. split.
      * rewrite L, app_assoc. reflexivity.
      * apply Forall_app. split; [exact N|]. constructor; [exact Hn|constructor].
  - intros cfg_test api table class_name g g' table'. cbn.
    destruct (find_class api class_name) as [c|]; [|discriminate].
    destruct (write_class_members_loop _ _ _ _ _ _) as [[g1 t1]| |] eqn:E;
      cbn; try discriminate.
    apply loop_grows in E; [|intros n h h' Hh; eapply IHs; exact Hh].
    destruct (negb _).
    + intros H. eapply grows_trans; [exact E|]. eapply IHm. exact H.
    + intros H. injection H as <- _. exact E.
Qed.

Lemma write_class_struct_grows fuel cfg_test api class_name g g' :
  write_class_struct fuel cfg_test api class_name g = Ok g' -> grows g g'.
Proof. apply synthesis_grows. Qed.

Lemma write_class_members_grows fuel cfg_test api table class_name g g' table' :
  write_class_members fuel cfg_test api table class_name g = Ok (g', table') ->
  grows g g'.
Proof. apply synthesis_grows. Qed.

(** ** Idempotence, fuel and termination of class synthesis *)

Lemma write_class_struct_present fuel cfg_test api class_name g :
  contains_key (structs (std g)) class_name = true ->
  write_class_struct (S fuel) cfg_test api class_name g = Ok g.
Proof. intros H. cbn. rewrite H. reflexivity. Qed.

Definition refines {A} (r r' : outcome A) : Prop := r = OutOfFuel \/ r = r'.

Lemma classify_member_refines ws1 ws2 cfg_test class_name member g :
  (forall n h, refines (ws1 n h) (ws2 n h)) ->
  refines (classify_member ws1 cfg_test class_name member g)
          (classify_member ws2 cfg_test class_name member g).
Proof.
  intros Hws. destruct member as [n t|n t|n t ps|n t sec vt|]; cbn;
    try (right; reflexivity).
  destruct (String.eqb sec default_security); [|right; reflexivity].
  destruct vt as [cn|v|o]; cbn; [|right; reflexivity|right; reflexivity].
  destruct (Hws cn g) as [-> | ->]; [left; reflexivity|right; reflexivity].
Qed.

Lemma loop_refines ws1 ws2 cfg_test class_name ms table g :
  (forall n h, refines (ws1 n h) (ws2 n h)) ->
  refines (write_class_members_loop ws1 cfg_test class_name ms table g)
          (write_class_members_loop ws2 cfg_test class_name ms table g).
Proof.
  intros Hws. revert table g. induction ms as [|m ms IH]; intros table g; cbn.
  - right. reflexivity.
  - destruct (classify_member_refines ws1 ws2 cfg_test class_name m g Hws)
      as [-> | ->]; [left; reflexivity|].
    destruct (classify_member ws2 cfg_test class_name m g) as [[g1 o]| |];
      cbn; try (right; reflexivity).
    destruct o as [[[n t] f]|]; [destruct (emitted_field t f)|]; apply IH.
Qed.

Lemma synthesis_fuel_step fuel :
  (forall cfg_test api class_name g,
     refines (write_class_struct fuel cfg_test api class_name g)
             (write_class_struct (S fuel) cfg_test api class_name g)) /\
  (forall cfg_test api table class_name g,
     refines (write_class_members fuel cfg_test api table class_name g)
             (write_class_members (S fuel) cfg_test api table class_name g)).
Proof.
  induction fuel as [|fuel [IHs IHm]].
  { split; intros; left; reflexivity. }
  split.
  - intros cfg_test api class_name g.
    change (refines
      (if contains_key (structs (std g)) class_name then Ok g else
       r ← write_class_members fuel cfg_test api {[ "*" := wildcard_field ]}
             class_name (reserve_struct class_name g);
       let '(g2, table') := r in Ok (store_struct class_name table' g2))
      (if contains_key (structs (std g)) class_name then Ok g else
       r ← write_class_members (S fuel) cfg_test api {[ "*" := wildcard_field ]}
             class_name (reserve_struct class_name g);
       let '(g2, table') := r in Ok (store_struct class_name table' g2))).
    destruct (contains_key _ _); [right; reflexivity|].
    destruct (IHm cfg_test api {[ "*" := wildcard_field ]} class_name
                (reserve_struct class_name g)) as [-> | ->];
      [left; reflexivity|right; reflexivity].
  - intros cfg_test api table class_name g.
    change (refines
      (match find_class api class_name with
       | None => Panic unwrap_none_msg
       | Some class =>
           r ← write_class_members_loop
                 (fun n g' => write_class_struct fuel cfg_test api n g')
                 cfg_test class_name (ApiClass.members class) table g;
           let '(g', table') := r in
           if negb (String.eqb (ApiClass.superclass class) ROOT)
           then write_class_members fuel cfg_test api table'
                  (ApiClass.superclass class) g'
           else Ok (g', table')
       end)
      (match find_class api class_name with
       | None => Panic unwrap_none_msg
       | Some class =>
           r ← write_class_members_loop
                 (fun n g' => write_class_struct (S fuel) cfg_test api n g')
                 cfg_test class_name (ApiClass.members class) table g;
           let '(g', table') := r in
           if negb (String.eqb (ApiClass.superclass class) ROOT)
           then write_class_members (S fuel) cfg_test api table'
                  (ApiClass.superclass class) g'
           else Ok (g', table')
       end)).
    destruct (find_class api class_name) as [c|]; [|right; reflexivity].
    destruct (loop_refines (fun n g' => write_class_struct fuel cfg_test api n g')
                (fun n g' => write_class_struct (S fuel) cfg_test api n g')
                cfg_test class_name (ApiClass.members c) table g)
      as [-> | ->]; [intros; apply IHs|left; reflexivity|].
    destruct (write_class_members_loop _ _ _ _ _ _) as [[g1 t1]| |]; cbn;
      try (right; reflexivity).
    destruct (negb _); [apply IHm|right; reflexivity].
Qed.

Lemma write_class_struct_more_fuel fuel fuel' cfg_test api class_name g g' :
  fuel <= fuel' ->
  write_class_struct fuel cfg_test api class_name g = Ok g' ->
  write_class_struct fuel' cfg_test api class_name g = Ok g'.
Proof.
  induction 1 as [|fuel' _ IH]; [auto|]. intros H. specialize (IH H).
  destruct (proj1 (synthesis_fuel_step fuel') cfg_test api class_name g)
    as [E|E]; rewrite IH in E; [discriminate|]. rewrite <- E. reflexivity.
Qed.

Lemma find_class_In api n c :
  find_class api n = Some c -> In c (classes api) /\ ApiClass.name c = n.
Proof.
  unfold find_class. intros H. apply find_some in H as [Hin Heq].
  apply String.eqb_eq in Heq. auto.
Qed.

Lemma filter_length_mono {A} (p p' : A -> bool) (l : list A) :
  (forall x, In x l -> p' x = true -> p x = true) ->
  length (List.filter p' l) <= length (List.filter p l).
Proof.
  induction l as [|x l IH]; intros H; cbn; [lia|].
  assert (IH' : length (List.filter p' l) <= length (List.filter p l))
    by (apply IH; intros y Hy; apply H; right; exact Hy).
  destruct (p' x) eqn:E'.
  - rewrite (H x (or_introl eq_refl) E'). cbn. lia.
  - destruct (p x); cbn; lia.
Qed.

Lemma filter_length_strict {A} (p p' : A -> bool) (l : list A) :
  (forall x, In x l -> p' x = true -> p x = true) ->
  (exists x, In x l /\ p x = true /\ p' x = false) ->
  length (List.filter p' l) < length (List.filter p l).
Proof.
  induction l as [|x l IH]; intros H (y & Hy & Hp & Hp'); [destruct Hy|].
  assert (Hm : forall z, In z l -> p' z = true -> p z = true)
    by (intros z Hz; apply H; right; exact Hz).
  destruct Hy as [<-|Hy]; cbn.
  - rewrite Hp, Hp'. cbn. pose proof (filter_length_mono p p' l Hm). lia.
  - assert (IH' := IH Hm (ex_intro _ y (conj Hy (conj Hp Hp')))).
    destruct (p' x) eqn:E'.
    + rewrite (H x (or_introl eq_refl) E'). cbn. lia.
    + destruct (p x); cbn; lia.
Qed.

Lemma absent_grows api g g' : grows g g' -> absent api g' <= absent api g.
Proof.
  intros [F _]. apply filter_length_mono. intros c _.
  unfold contains_key. destruct (structs (std g) !! ApiClass.name c) eqn:E;
    [|auto]. rewrite (F _ _ E). auto.
Qed.

Lemma absent_reserve api g class_name :
  contains_key (structs (std g)) class_name = false ->
  class_exists api class_name = true ->
  absent api (reserve_struct class_name g) < absent api g.
Proof.
  intros Hc He. unfold class_exists in He.
  destruct (find_class api class_name) as [c|] eqn:Hf; [|discriminate].
  destruct (find_class_In _ _ _ Hf) as [Hin Hn].
  assert (Hg : grows g (reserve_struct class_name g)).
  { apply reserve_struct_grows. unfold contains_key in Hc.
    destruct (_ !! _); congruence. }
  destruct Hg as [F _]. apply filter_length_strict.
  - intros x _. unfold contains_key.
    destruct (structs (std g) !! ApiClass.name x) eqn:E; [|auto].
    rewrite (F _ _ E). auto.
  - exists c. split; [exact Hin|]. rewrite Hn, Hc. split; [reflexivity|].
    unfold contains_key. cbn. rewrite lookup_insert_eq. reflexivity.
Qed.

Lemma chains_ok_walk api class_name :
  chains_ok api = true -> class_exists api class_name = true ->
  walk_ends (length (classes api) + 1) api class_name = true.
Proof.
  intros Hch He. unfold class_exists in He.
  destruct (find_class api class_name) as [c|] eqn:Hf; [|discriminate].
  destruct (find_class_In _ _ _ Hf) as [Hin <-].
  unfold chains_ok in Hch. rewrite forallb_forall in Hch. auto.
Qed.

Lemma refs_ok_class api c :
  refs_ok api = true -> In c (classes api) ->
  (String.eqb (ApiClass.superclass c) ROOT = true \/
   class_exists api (ApiClass.superclass c) = true) /\
  forall m, In m (ApiClass.members c) -> member_refs_ok api m = true.
Proof.
  intros Hr Hin. unfold refs_ok in Hr. rewrite forallb_forall in Hr.
  specialize (Hr c Hin). apply andb_true_iff in Hr as [Hs Hm].
  rewrite forallb_forall in Hm. apply orb_true_iff in Hs. auto.
Qed.

Lemma unknown_ok_member cfg_test api c m :
  unknown_ok cfg_test api = true -> In c (classes api) ->
  In m (ApiClass.members c) -> cfg_test = false \/ is_unknown m = false.
Proof.
  unfold unknown_ok. destruct cfg_test; [|auto]. cbn. intros Hu Hc Hm. right.
  rewrite forallb_forall in Hu. specialize (Hu c Hc).
  rewrite forallb_forall in Hu. specialize (Hu m Hm).
  destruct (is_unknown m); [discriminate|reflexivity].
Qed.

Lemma classify_member_ok api ws cfg_test class_name member g a :
  member_refs_ok api member = true ->
  (cfg_test = false \/ is_unknown member = false) ->
  (forall cn h, absent api h <= a -> class_exists api cn = true ->
     exists h', ws cn h = Ok h' /\ grows h h') ->
  absent api g <= a ->
  exists g' o, classify_member ws cfg_test class_name member g = Ok (g', o) /\
               grows g g'.
Proof.
  intros Hr Hu Hws Ha. destruct member as [n t|n t|n t ps|n t sec vt|]; cbn.
  1-3: eexists _, _; split; [reflexivity|apply grows_refl].
  - destruct (String.eqb sec default_security) eqn:Hsec.
    + destruct vt as [cn|v|o]; cbn.
      * cbn in Hr. rewrite Hsec in Hr. cbn in Hr.
        destruct (Hws cn g Ha Hr) as (h & -> & Hg). cbn. eauto.
      * destruct (has_custom_methods v); eexists _, _;
          split; [reflexivity|apply grows_refl| reflexivity|apply grows_refl].
      * eexists _, _; split; [reflexivity|apply grows_refl].
    + eexists _, _; split; [reflexivity|apply grows_refl].
  - destruct Hu as [->|Hu]; [|discriminate]. eexists _, _.
    split; [reflexivity|apply grows_refl].
Qed.

Lemma loop_ok api ws cfg_test class_name ms table g a :
  (forall m, In m ms -> member_refs_ok api m = true /\
                        (cfg_test = false \/ is_unknown m = false)) ->
  (forall cn h, absent api h <= a -> class_exists api cn = true ->
     exists h', ws cn h = Ok h' /\ grows h h') ->
  absent api g <= a ->
  exists g' table',
    write_class_members_loop ws cfg_test class_name ms table g = Ok (g', table') /\
    grows g g'.
Proof.
  intros Hms Hws. revert table g.
  induction ms as [|m ms IH]; intros table g Ha; cbn.
  - eexists _, _. split; [reflexivity|apply grows_refl].
  - destruct (Hms m (or_introl eq_refl)) as [Hr Hu].
    destruct (classify_member_ok api ws cfg_test class_name m g a Hr Hu Hws Ha)
      as (g1 & o & -> & Hg1).
    cbn. assert (Ha1 : absent api g1 <= a)
      by (pose proof (absent_grows api _ _ Hg1); lia).
    assert (IH' := IH (fun m' Hm' => Hms m' (or_intror Hm'))).
    destruct o as [[[n t] f]|]; [destruct (emitted_field t f)|];
      match goal with
      | |- context [write_class_members_loop _ _ _ _ ?tb g1] =>
          destruct (IH' tb g1 Ha1) as (g' & t' & E & Hg'); rewrite E
      end;
      eexists _, _; (split; [reflexivity|eapply grows_trans; eauto]).
Qed.

Section Termination.
  Variables (cfg_test : bool) (api : ApiDump).
  Hypothesis chains : chains_ok api = true.
  Hypothesis refs : refs_ok api = true.
  Hypothesis unknowns : unknown_ok cfg_test api = true.

Let D := length (classes api) + 1.

Lemma synthesis_ok n :
    (forall a g class_name,
       absent api g <= a -> (a + 1) * (D + 2) <= n ->
       contains_key (structs (std g)) class_name = true \/
       class_exists api class_name = true ->
       exists g', write_class_struct n cfg_test api class_name g = Ok g') /\
    (forall a g class_name table d,
       absent api g <= a -> d + (a + 1) * (D + 2) <= n ->
       class_exists api class_name = true ->
       walk_ends d api class_name = true ->
       exists g' table',
         write_class_members n cfg_test api table class_name g = Ok (g', table')).
  Proof.
    induction n as [|n [IHs IHm]].
    { split; intros; exfalso; nia. }
    split.
    - intros a g class_name Ha Hn Hk. cbn.
      destruct (contains_key (structs (std g)) class_name) eqn:Hc; [eauto|].
      destruct Hk as [Hk|Hk]; [discriminate|].
      pose proof (absent_reserve api g class_name Hc Hk) as Hlt.
      destruct (IHm (a - 1) (reserve_struct class_name g) class_name
                  {[ "*" := wildcard_field ]} D)
        as (g2 & t2 & E); [lia|nia|exact Hk|apply chains_ok_walk; assumption|].
      rewrite E. cbn. eauto.
    - intros a g class_name table d Ha Hn He Hw.
      destruct d as [|d]; [discriminate|].
      unfold class_exists in He.
      destruct (find_class api class_name) as [c|] eqn:Hf; [|discriminate].
      destruct (find_class_In _ _ _ Hf) as [Hin _].
      destruct (refs_ok_class api c refs Hin) as [Hsup Hmem].
      cbn in Hw. rewrite Hf in Hw. cbn. rewrite Hf.
      destruct (loop_ok api (fun n' g' => write_class_struct n cfg_test api n' g')
                  cfg_test class_name (ApiClass.members c) table g a)
        as (g1 & t1 & E & Hg1).
      + intros m Hm. split; [auto|].
        exact (unknown_ok_member cfg_test api c m unknowns Hin Hm).
      + intros cn h Hh Hcn.
        destruct (IHs a h cn Hh ltac:(nia) (or_intror Hcn)) as (h' & Eh).
        exists h'. split; [exact Eh|]. eapply write_class_struct_grows. exact Eh.
      + exact Ha.
      + rewrite E. cbn. pose proof (absent_grows api _ _ Hg1) as Ha1.
        destruct (String.eqb (ApiClass.superclass c) ROOT) eqn:Hs; cbn; [eauto|].
        destruct Hsup as [Hsup|Hsup]; [discriminate|].
        apply (IHm a g1 (ApiClass.superclass c) t1 d); [lia|lia|exact Hsup|exact Hw].
  Qed.

Lemma write_class_struct_terminates class_name g :
    contains_key (structs (std g)) class_name = true \/
    class_exists api class_name = true ->
    exists g', write_class_struct ((absent api g + 1) * (D + 2)) cfg_test api
                 class_name g = Ok g'.
  Proof.
    intros H. apply (proj1 (synthesis_ok _) (absent api g)); [lia|lia|exact H].
  Qed.
End Termination.

Lemma filter_other_names (l : list (string * gmap string Field)) k :
  Forall (fun e => String.eqb e.1 k = false) l ->
  List.filter (fun e => String.eqb e.1 k) l = [].
Proof.
  induction 1 as [|e l He _ IH]; cbn; [reflexivity|]. rewrite He. exact IH.
Qed.

Lemma write_class_struct_once fuel cfg_test api class_name g g' :
  contains_key (structs (std g)) class_name = false ->
  write_class_struct fuel cfg_test api class_name g = Ok g' ->
  exists table,
    structs (std g') !! class_name = Some table /\
    List.filter (fun e => String.eqb e.1 class_name) (completed g') =
      (List.filter (fun e => String.eqb e.1 class_name) (completed g)
         ++ [(class_name, table)])%list.
Proof.
  intros Hc. destruct fuel as [|fuel]; [discriminate|]. cbn. rewrite Hc.
  destruct (write_class_members fuel cfg_test api _ class_name
              (reserve_struct class_name g)) as [[g2 t2]| |] eqn:E;
    cbn; try discriminate.
  intros H. injection H as <-. exists t2. split.
  - cbn. apply lookup_insert_eq.
  - apply write_class_members_grows in E as [_ (l & L & N)]. cbn.
    rewrite L. rewrite !List.filter_app.
    rewrite (filter_other_names l), app_nil_r.
    + cbn. rewrite String.eqb_refl. reflexivity.
    + eapply List.Forall_impl; [|exact N]. intros e He. cbn in He.
      apply String.eqb_neq. intros Heq. rewrite Heq, lookup_insert_eq in He.
      discriminate.
Qed.

Lemma write_class_struct_more_fuel_settled fuel fuel' cfg_test api class_name g r :
  fuel <= fuel' -> r <> OutOfFuel ->
  write_class_struct fuel cfg_test api class_name g = r ->
  write_class_struct fuel' cfg_test api class_name g = r.
Proof.
  intros Hle Hr. induction Hle as [|fuel' _ IH]; [auto|]. intros H.
  specialize (IH H).
  destruct (proj1 (synthesis_fuel_step fuel') cfg_test api class_name g)
    as [E|E]; rewrite IH in E; [congruence|]. rewrite <- E. reflexivity.
Qed.

Lemma classify_member_settles api ws cfg_test class_name member g a :
  (forall cn h, absent api h <= a -> ws cn h <> OutOfFuel) ->
  absent api g <= a ->
  classify_member ws cfg_test class_name member g <> OutOfFuel.
Proof.
  intros Hws Ha. destruct member as [n t|n t|n t ps|n t sec vt|]; cbn;
    try discriminate.
  - destruct (String.eqb sec default_security); [|discriminate].
    destruct vt as [cn|v|o]; cbn; [|destruct (has_custom_methods v)|];
      try discriminate.
    specialize (Hws cn g Ha).
    destruct (ws cn g); cbn; [discriminate|discriminate|contradiction].
  - destruct cfg_test; discriminate.
Qed.

Lemma loop_settles api ws cfg_test class_name ms table g a :
  (forall cn h, absent api h <= a -> ws cn h <> OutOfFuel) ->
  (forall n h h', ws n h = Ok h' -> grows h h') ->
  absent api g <= a ->
  write_class_members_loop ws cfg_test class_name ms table g <> OutOfFuel.
Proof.
  intros Hws Hg. revert table g.
  induction ms as [|m ms IH]; intros table g Ha; cbn; [discriminate|].
  pose proof (classify_member_settles api ws cfg_test class_name m g a Hws Ha)
    as Hc.
  destruct (classify_member ws cfg_test class_name m g) as [[g1 o]| |] eqn:E;
    cbn; [|discriminate|contradiction].
  apply classify_member_grows in E; [|exact Hg].
  pose proof (absent_grows api _ _ E) as Ha1.
  destruct o as [[[n t] f]|]; [destruct (emitted_field t f)|]; apply IH; lia.
Qed.

Section Settling.
  Variables (cfg_test : bool) (api : ApiDump).
  Hypothesis chains : chains_ok api = true.

Let D := length (classes api) + 1.

Lemma synthesis_settles n :
    (forall a g class_name,
       absent api g <= a -> (a + 1) * (D + 2) <= n ->
       write_class_struct n cfg_test api class_name g <> OutOfFuel) /\
    (forall a g class_name table d,
       absent api g <= a -> d + (a + 1) * (D + 2) <= n ->
       walk_ends d api class_name = true ->
       write_class_members n cfg_test api table class_name g <> OutOfFuel).
  Proof.
    induction n as [|n [IHs IHm]].
    { split; intros; exfalso; nia. }
    split.
    - intros a g class_name Ha Hn. cbn.
      destruct (contains_key (structs (std g)) class_name) eqn:Hc;
        [discriminate|].
      destruct (class_exists api class_name) eqn:He.
      + pose proof (absent_reserve api g class_name Hc He) as Hlt.
        pose proof (IHm (a - 1) (reserve_struct class_name g) class_name
                      {[ "*" := wildcard_field ]} D ltac:(lia) ltac:(nia)
                      (chains_ok_walk api class_name chains He)) as Hm.
        destruct (write_class_members _ _ _ _ _ _) as [[g2 t2]| |];
          cbn; [discriminate|discriminate|contradiction].
      + unfold class_exists in He.
        destruct (find_class api class_name) eqn:Hf; [discriminate|].
        destruct n as [|n]; [nia|]. cbn. rewrite Hf. discriminate.
    - intros a g class_name table d Ha Hn Hw.
      destruct d as [|d]; [discriminate|].
      cbn in Hw. cbn.
      destruct (find_class api class_name) as [c|] eqn:Hf; [|discriminate].
      pose proof (loop_settles api (fun n' g' => write_class_struct n cfg_test api n' g')
                    cfg_test class_name (ApiClass.members c) table g a
                    (fun cn h Hh => IHs a h cn Hh ltac:(nia))
                    (fun n' h h' E => write_class_struct_grows _ _ _ _ _ _ E) Ha)
        as Hl.
      destruct (write_class_members_loop _ _ _ _ _ _) as [[g1 t1]| |] eqn:E;
        cbn; [|discriminate|contradiction].
      apply loop_grows in E;
        [|intros n' h h' Eh; exact (write_class_struct_grows _ _ _ _ _ _ Eh)].
      pose proof (absent_grows api _ _ E) as Ha1.
      destruct (String.eqb (ApiClass.superclass c) ROOT) eqn:Hs; cbn;
        [discriminate|].
      apply (IHm a g1 _ t1 d); [lia|lia|exact Hw].
  Qed.

Lemma write_class_struct_settles class_name g :
    write_class_struct ((absent api g + 1) * (D + 2)) cfg_test api class_name g
      <> OutOfFuel.
  Proof. apply (proj1 (synthesis_settles _) (absent api g)); lia. Qed.
End Settling.

(** C4. [write_class_struct] returns at once, changing nothing, for a
    class that already has a struct.  On a dump whose superclass chains
    reach the root without a cycle, synthesis of any class, a
    self-referential one included, terminates: from some fuel on, every
    run gives the same result, which is not a fuel exhaustion.  When that
    result is a completed state and the class had no struct, the state
    stores the class's struct, and its finished table is recorded exactly
    once.  When the dump's references name classes of the dump and, in a
    test build, no member is [Unknown], the result is a completed state. *)
Theorem write_class_struct_cycle_safe cfg_test api class_name g :
  chains_ok api = true ->
  (contains_key (structs (std g)) class_name = true ->
     forall fuel, write_class_struct (S fuel) cfg_test api class_name g = Ok g) /\
  exists fuel r,
    r <> OutOfFuel /\
    (forall fuel', fuel <= fuel' ->
       write_class_struct fuel' cfg_test api class_name g = r) /\
    (forall g', r = Ok g' ->
     contains_key (structs (std g)) class_name = false ->
     exists table,
       structs (std g') !! class_name = Some table /\
       List.filter (fun e => String.eqb e.1 class_name) (completed g') =
         (List.filter (fun e => String.eqb e.1 class_name) (completed g)
            ++ [(class_name, table)])%list) /\
    (refs_ok api = true -> unknown_ok cfg_test api = true ->
     class_exists api class_name = true -> exists g', r = Ok g').
Proof.
  intros Hch. split.
  { intros Hc fuel. apply write_class_struct_present. exact Hc. }
  pose proof (write_class_struct_settles cfg_test api Hch class_name g) as Hr.
  eexists _, _. split; [exact Hr|]. split; [|split].
  - intros fuel' Hle.
    exact (write_class_struct_more_fuel_settled _ _ _ _ _ _ _ Hle Hr eq_refl).
  - intros g' E Hc. exact (write_class_struct_once _ _ _ _ _ _ Hc E).
  - intros Hr' Hu He.
    exact (write_class_struct_terminates cfg_test api Hch Hr' Hu class_name g
             (or_intror He)).
Qed.

(** [Script.Parent2] is a property of type [Script]. *)
Lemma write_class_struct_cycle_safe_witness :
  chains_ok sample_api = true /\
  ((contains_key (structs (std empty_generator)) "Script" = true ->
     forall fuel, write_class_struct (S fuel) false sample_api "Script"
                    empty_generator = Ok empty_generator) /\
  exists fuel r,
    r <> OutOfFuel /\
    (forall fuel', fuel <= fuel' ->
       write_class_struct fuel' false sample_api "Script" empty_generator = r) /\
    (forall g', r = Ok g' ->
     contains_key (structs (std empty_generator)) "Script" = false ->
     exists table,
       structs (std g') !! "Script" = Some table /\
       List.filter (fun e => String.eqb e.1 "Script") (completed g') =
         (List.filter (fun e => String.eqb e.1 "Script") (completed empty_generator)
            ++ [("Script", table)])%list) /\
    (refs_ok sample_api = true -> unknown_ok false sample_api = true ->
     class_exists sample_api "Script" = true -> exists g', r = Ok g')).
Proof.
  assert (H1 : chains_ok sample_api = true) by (vm_compute; reflexivity).
  split; [exact H1|].
  exact (write_class_struct_cycle_safe false sample_api "Script" empty_generator H1).
Defined.

(** ** C5: the wildcard entry *)

Lemma member_not_star api c m :
  no_member_named "*" api = true -> In c (classes api) ->
  In m (ApiClass.members c) -> member_name m <> Some "*".
Proof.
  unfold no_member_named. rewrite forallb_forall. intros H Hc Hm.
  specialize (H c Hc). rewrite forallb_forall in H. specialize (H m Hm).
  destruct (member_name m) as [n|]; [|discriminate]. intros [= ->].
  rewrite String.eqb_refl in H. discriminate.
Qed.

Lemma classify_member_name ws cfg_test class_name member g g' n t f :
  classify_member ws cfg_test class_name member g = Ok (g', Some (n, t, f)) ->
  member_name member = Some n.
Proof.
  destruct member as [n' t'|n' t'|n' t' ps|n' t' sec vt|]; cbn;
    try (intros H; injection H as _ <- _ _; reflexivity).
  - destruct (String.eqb sec default_security);
      [|intros H; injection H as _ <- _ _; reflexivity].
    destruct vt as [cn|v|o]; cbn;
      [destruct (ws cn g); cbn; try discriminate
      |destruct (has_custom_methods v)|];
      intros H; injection H as _ <- _ _; reflexivity.
  - destruct cfg_test; discriminate.
Qed.

Lemma classify_member_preserves (P : RobloxGenerator -> Prop) ws cfg_test
    class_name member g g' o :
  (forall n h h', P h -> ws n h = Ok h' -> P h') -> P g ->
  classify_member ws cfg_test class_name member g = Ok (g', o) -> P g'.
Proof.
  intros Hws Hg. destruct member as [n t|n t|n t ps|n t sec vt|]; cbn;
    try (intros H; injection H as <- _; exact Hg).
  - destruct (String.eqb sec default_security);
      [|intros H; injection H as <- _; exact Hg].
    destruct vt as [cn|v|o']; cbn.
    + destruct (ws cn g) as [h| |] eqn:E; cbn; try discriminate.
      intros H. injection H as <- _. eauto.
    + destruct (has_custom_methods v); intros H; injection H as <- _; exact Hg.
    + intros H. injection H as <- _. exact Hg.
  - destruct cfg_test; [discriminate|]. intros H. injection H as <- _. exact Hg.
Qed.

Lemma loop_keeps_star (P : RobloxGenerator -> Prop) ws cfg_test class_name ms
    table g g' table' :
  (forall n h h', P h -> ws n h = Ok h' -> P h') ->
  (forall m, In m ms -> member_name m <> Some "*") ->
  P g ->
  write_class_members_loop ws cfg_test class_name ms table g = Ok (g', table') ->
  P g' /\ table' !! "*" = table !! "*".
Proof.
  intros Hws. revert table g.
  induction ms as [|m ms IH]; intros table g Hms Hg; cbn.
  { intros H. injection H as <- <-. auto. }
  destruct (classify_member ws cfg_test class_name m g) as [[g1 o]| |] eqn:E;
    cbn; try discriminate.
  assert (Hg1 : P g1) by exact (classify_member_preserves P _ _ _ _ _ _ _ Hws Hg E).
  assert (Hms' : forall m', In m' ms -> member_name m' <> Some "*")
    by (intros m' Hm'; apply Hms; right; exact Hm').
  destruct o as [[[n t] f]|]; [destruct (emitted_field t f)|].
  - intros H. destruct (IH _ _ Hms' Hg1 H) as [HP Ht]. split; [exact HP|].
    rewrite Ht. apply lookup_insert_ne.
    apply classify_member_name in E. intros Heq. rewrite Heq in E.
    exact (Hms m (or_introl eq_refl) E).
  - apply IH; assumption.
  - apply IH; assumption.
Qed.

Lemma synthesis_wildcard fuel cfg_test api old :
  no_member_named "*" api = true ->
  (forall pending class_name g g',
     wildcard_ok old pending g ->
     write_class_struct fuel cfg_test api class_name g = Ok g' ->
     wildcard_ok old pending g') /\
  (forall pending table class_name g g' table',
     wildcard_ok old pending g ->
     write_class_members fuel cfg_test api table class_name g = Ok (g', table') ->
     wildcard_ok old pending g' /\ table' !! "*" = table !! "*").
Proof.
  intros Hstar. induction fuel as [|fuel [IHs IHm]];
    [split; intros; discriminate|]. split.
  - intros pending class_name g g' Hg. cbn.
    destruct (contains_key (structs (std g)) class_name) eqn:Hc.
    { intros H. injection H as <-. exact Hg. }
    destruct (write_class_members fuel cfg_test api _ class_name
                (reserve_struct class_name g)) as [[g2 t2]| |] eqn:E;
      cbn; try discriminate.
    intros H. injection H as <-.
    assert (Hr : wildcard_ok old (class_name :: pending)
                   (reserve_struct class_name g)).
    { intros k t Hk Hold Hin. cbn in Hk.
      destruct (String.eqb_spec k class_name) as [->|Hne];
        [exfalso; apply Hin; left; reflexivity|].
      rewrite lookup_insert_ne in Hk by congruence.
      apply (Hg k t Hk Hold). intros Hp. apply Hin. right. exact Hp. }
    destruct (IHm _ _ _ _ _ _ Hr E) as [Hg2 Ht2].
    intros k t Hk Hold Hin. cbn in Hk.
    destruct (String.eqb_spec k class_name) as [->|Hne].
    + rewrite lookup_insert_eq in Hk. injection Hk as <-.
      rewrite Ht2. apply lookup_insert_eq.
    + rewrite lookup_insert_ne in Hk by congruence.
      apply (Hg2 k t Hk Hold). intros [->|Hp]; [congruence|exact (Hin Hp)].
  - intros pending table class_name g g' table' Hg. cbn.
    destruct (find_class api class_name) as [c|] eqn:Hf; [|discriminate].
    destruct (find_class_In _ _ _ Hf) as [Hin _].
    destruct (write_class_members_loop _ _ _ _ _ _) as [[g1 t1]| |] eqn:E;
      cbn; try discriminate.
    destruct (loop_keeps_star (wildcard_ok old pending) _ _ _ _ _ _ _ _
                (fun n h h' Hh Eh => IHs pending n h h' Hh Eh)
                (fun m Hm => member_not_star api c m Hstar Hin Hm) Hg E)
      as [Hg1 Ht1].
    destruct (negb _).
    + intros H. destruct (IHm _ _ _ _ _ _ Hg1 H) as [Hg' Ht'].
      split; [exact Hg'|]. rewrite Ht', Ht1. reflexivity.
    + intros H. injection H as <- <-. auto.
Qed.

Lemma write_class_wildcard fuel cfg_test api old global_name class_name g g' :
  no_member_named "*" api = true -> wildcard_ok old [] g ->
  write_class fuel cfg_test api global_name class_name g = Ok g' ->
  wildcard_ok old [] g'.
Proof.
  intros Hstar Hg. unfold write_class.
  destruct (write_class_struct _ _ _ _ _) as [g1| |] eqn:E; cbn; try discriminate.
  intros H. injection H as <-.
  exact (proj1 (synthesis_wildcard fuel cfg_test api old Hstar) _ _ _ _ Hg E).
Qed.

Lemma write_enum_structs g e :
  structs (std (write_enum g e)) = structs (std g).
Proof.
  unfold write_enum.
  assert (H : forall is g1,
    structs (std (fold_left (fun g item =>
        set_global ("Enum." ++ ApiEnum.name e ++ "." ++ item)
          (from_field_kind (FieldKind.Struct "EnumItem")) g) is g1)) =
    structs (std g1)).
  { induction is as [|i is IH]; intros g1; cbn; [reflexivity|]. rewrite IH.
    reflexivity. }
  rewrite H. reflexivity.
Qed.

Lemma write_enums_structs api g :
  structs (std (write_enums api g)) = structs (std g).
Proof.
  unfold write_enums. generalize (enums api) as es. intros es.
  induction es as [|e es IH] in g |- *; cbn; [reflexivity|].
  rewrite IH. apply write_enum_structs.
Qed.

Lemma run_passes_wildcard fuel cfg_test api roblox_base g :
  no_member_named "*" api = true ->
  run_passes fuel cfg_test api roblox_base = Ok g ->
  wildcard_ok (structs roblox_base) [] g.
Proof.
  intros Hstar H. apply run_passes_inv in H as (g1 & g2 & E1 & E2 & ->).
  assert (H0 : wildcard_ok (structs roblox_base) []
                 {| std := roblox_base; completed := [] |}).
  { intros k t Hk Hold. cbn in Hk. congruence. }
  unfold write_well_known_classes in E1.
  destruct (write_class _ _ _ "game" _ _) as [h1| |] eqn:F1; cbn in E1;
    try discriminate.
  destruct (write_class _ _ _ "plugin" _ _) as [h2| |] eqn:F2; cbn in E1;
    try discriminate.
  destruct (write_class _ _ _ "script" _ _) as [h3| |] eqn:F3; cbn in E1;
    try discriminate.
  pose proof (write_class_wildcard _ _ _ _ _ _ _ _ Hstar H0 F1) as W1.
  pose proof (write_class_wildcard _ _ _ _ _ _ _ _ Hstar W1 F2) as W2.
  pose proof (write_class_wildcard _ _ _ _ _ _ _ _ Hstar W2 F3) as W3.
  pose proof (write_class_wildcard _ _ _ _ _ _ _ _ Hstar W3 E1) as W4.
  destruct (write_get_service_inv _ _ _ E2) as (_ & _ & dm & Hdm & Hs).
  intros k t Hk Hold Hin.
  rewrite (proj2 (write_roblox_classes_keeps api g2)), Hs in Hk.
  change (structs (std (write_instance_new api (write_enums api g1))))
    with (structs (std (write_enums api g1))) in Hk, Hdm.
  rewrite write_enums_structs in Hk, Hdm.
  destruct (String.eqb_spec k "DataModel") as [->|Hne].
  - rewrite lookup_insert_eq in Hk. injection Hk as <-.
    rewrite lookup_insert_ne by discriminate.
    exact (W4 _ _ Hdm Hold Hin).
  - rewrite lookup_insert_ne in Hk by congruence. exact (W4 _ _ Hk Hold Hin).
Qed.

(** C5 (amended). When no member of the dump is named ["*"], every struct
    the pipeline synthesizes, i.e. every struct of the generated descriptor
    whose key the seed [roblox_base] does not have, holds
    [Struct("Instance")] under ["*"]. *)
Theorem synthesized_struct_wildcard fuel cfg_test api roblox_base timestamp
    pkg_version s k t :
  no_member_named "*" api = true ->
  generate_layer fuel cfg_test api roblox_base timestamp pkg_version = Ok s ->
  structs roblox_base !! k = None ->
  structs s !! k = Some t ->
  t !! "*" = Some (from_field_kind (FieldKind.Struct "Instance")).
Proof.
  intros Hstar H Hold Hk. apply generate_layer_inv in H as (g & E & ->).
  exact (run_passes_wildcard _ _ _ _ _ Hstar E k t Hk Hold (in_nil (a := k))).
Qed.

Lemma synthesized_struct_wildcard_witness :
  no_member_named "*" sample_api = true /\
  generate_layer 40 false sample_api empty_std 7 "0.1.0" = Ok sample_layer /\
  structs empty_std !! "Script" = None /\
  structs sample_layer !! "Script" = Some script_table /\
  script_table !! "*" = Some (from_field_kind (FieldKind.Struct "Instance")).
Proof.
  assert (H1 : no_member_named "*" sample_api = true) by (vm_compute; reflexivity).
  assert (H2 : generate_layer 40 false sample_api empty_std 7 "0.1.0"
                 = Ok sample_layer) by (vm_compute; reflexivity).
  assert (H3 : structs empty_std !! "Script" = None) by reflexivity.
  assert (H4 : structs sample_layer !! "Script" = Some script_table)
    by (vm_compute; reflexivity).
  split; [exact H1|]. split; [exact H2|]. split; [exact H3|]. split; [exact H4|].
  exact (synthesized_struct_wildcard 40 false sample_api empty_std 7 "0.1.0"
           sample_layer "Script" script_table H1 H2 H3 H4).
Defined.

(** C5 fails for a dump with a member named ["*"]: [Plugin]'s callback
    ["*"] replaces the wildcard entry of the synthesized [Plugin] struct. *)
Lemma synthesized_struct_wildcard_counterexample :
  generate_layer 40 false star_api empty_std 7 "0.1.0" = Ok star_layer /\
  structs empty_std !! "Plugin" = None /\
  match structs star_layer !! "Plugin" with
  | Some t => t !! "*"
  | None => None
  end = Some (from_field_kind
                (FieldKind.Property PropertyWritability.OverrideFields)) /\
  from_field_kind (FieldKind.Property PropertyWritability.OverrideFields)
    <> from_field_kind (FieldKind.Struct "Instance").
Proof.
  split; [vm_compute; reflexivity|]. split; [reflexivity|].
  split; [vm_compute; reflexivity|]. discriminate.
Qed.

(** ** Members that classification skips *)

Lemma classify_member_ext ws1 ws2 cfg_test class_name member g :
  (forall n h, ws1 n h = ws2 n h) ->
  classify_member ws1 cfg_test class_name member g =
  classify_member ws2 cfg_test class_name member g.
Proof.
  intros H. destruct member as [n t|n t|n t ps|n t sec vt|]; cbn; try reflexivity.
  destruct (String.eqb sec default_security); [|reflexivity].
  destruct vt; cbn; [rewrite H|..]; reflexivity.
Qed.

Lemma loop_ext ws1 ws2 cfg_test class_name ms table g :
  (forall n h, ws1 n h = ws2 n h) ->
  write_class_members_loop ws1 cfg_test class_name ms table g =
  write_class_members_loop ws2 cfg_test class_name ms table g.
Proof.
  intros H. revert table g. induction ms as [|m ms IH]; intros table g;
    [reflexivity|]. cbn. rewrite (classify_member_ext ws1 ws2 _ _ _ _ H).
  destruct (classify_member ws2 cfg_test class_name m g) as [[g1 o]| |];
    cbn; [|reflexivity|reflexivity].
  destruct o as [[[n t] f]|]; [destruct (emitted_field t f)|]; apply IH.
Qed.

Section Strip.
Variables (p : ApiMember.ApiMember -> bool) (cfg_test : bool).
Hypothesis inert : forall m ws class_name g, p m = true ->
  exists o, classify_member ws cfg_test class_name m g = Ok (g, o) /\
    match o with Some (_, t, f) => emitted_field t f = None | None => True end.

Lemma loop_strip ws class_name ms table g :
  write_class_members_loop ws cfg_test class_name
    (List.filter (fun m => negb (p m)) ms) table g =
  write_class_members_loop ws cfg_test class_name ms table g.
Proof.
  revert table g. induction ms as [|m ms IH]; intros table g; [reflexivity|].
  cbn. destruct (p m) eqn:Hp; cbn.
  - destruct (inert m ws class_name g Hp) as (o & -> & Ho). cbn.
    destruct o as [[[n t] f]|]; [rewrite Ho|]; apply IH.
  - destruct (classify_member ws cfg_test class_name m g) as [[g1 o]| |];
      cbn; [|reflexivity|reflexivity].
    destruct o as [[[n t] f]|]; [destruct (emitted_field t f)|]; apply IH.
Qed.

Lemma find_class_strip api class_name :
  find_class (strip_members p api) class_name =
  option_map (strip_class p) (find_class api class_name).
Proof.
  unfold find_class, strip_members. cbn. induction (classes api) as [|c cs IH];
    [reflexivity|]. cbn. destruct (String.eqb (ApiClass.name c) class_name);
    [reflexivity|exact IH].
Qed.

Lemma synthesis_strip fuel api :
  (forall class_name g,
     write_class_struct fuel cfg_test (strip_members p api) class_name g =
     write_class_struct fuel cfg_test api class_name g) /\
  (forall table class_name g,
     write_class_members fuel cfg_test (strip_members p api) table class_name g =
     write_class_members fuel cfg_test api table class_name g).
Proof.
  induction fuel as [|fuel [IHs IHm]]; [split; reflexivity|]. split.
  - intros class_name g. cbn. rewrite IHm. reflexivity.
  - intros table class_name g. cbn [write_class_members]. rewrite find_class_strip.
    destruct (find_class api class_name) as [c|]; cbn; [|reflexivity].
    rewrite loop_strip.
    rewrite (loop_ext (fun n g' => write_class_struct fuel cfg_test
                                     (strip_members p api) n g')
               (fun n g' => write_class_struct fuel cfg_test api n g'))
      by (intros; apply IHs).
    destruct (write_class_members_loop _ _ _ _ _ _) as [[g1 t1]| |];
      cbn; [|reflexivity|reflexivity].
    destruct (negb _); [apply IHm|reflexivity].
Qed.
Lemma names_strip (f : ApiClass.ApiClass -> bool) cs :
  (forall c, f (strip_class p c) = f c) ->
  map ApiClass.name (List.filter f (map (strip_class p) cs)) =
  map ApiClass.name (List.filter f cs).
Proof.
  intros H. induction cs as [|c cs IH]; [reflexivity|]. simpl. rewrite H.
  destruct (f c); simpl; rewrite IH; reflexivity.
Qed.

Lemma instance_names_strip api :
  instance_names (strip_members p api) = instance_names api.
Proof. apply names_strip. reflexivity. Qed.

Lemma service_names_strip api :
  service_names (strip_members p api) = service_names api.
Proof. apply names_strip. reflexivity. Qed.

Lemma layer_view_roblox_classes api g :
  layer_view (std (write_roblox_classes api g)) = layer_view (std g).
Proof.
  unfold write_roblox_classes. generalize (classes api) as cs. intros cs.
  induction cs as [|c cs IH] in g |- *; [reflexivity|]. cbn. rewrite IH.
  reflexivity.
Qed.

Lemma layer_view_set_stamps t v s1 s2 :
  layer_view s1 = layer_view s2 ->
  layer_view (set_stamps t v s1) = layer_view (set_stamps t v s2).
Proof.
  unfold layer_view. intros H. injection H as Hb Hg Hs _ _. cbn.
  rewrite Hb, Hg, Hs. reflexivity.
Qed.

Lemma generate_layer_strip fuel api roblox_base timestamp pkg_version :
  outcome_map layer_view
    (generate_layer fuel cfg_test (strip_members p api) roblox_base timestamp
       pkg_version) =
  outcome_map layer_view
    (generate_layer fuel cfg_test api roblox_base timestamp pkg_version).
Proof.
  unfold generate_layer, run_passes, write_well_known_classes, write_class.
  rewrite (proj1 (synthesis_strip fuel api)).
  destruct (write_class_struct fuel cfg_test api "DataModel" _) as [g1| |];
    cbn; [|reflexivity|reflexivity].
  rewrite (proj1 (synthesis_strip fuel api)).
  destruct (write_class_struct fuel cfg_test api "Plugin" _) as [g2| |];
    cbn; [|reflexivity|reflexivity].
  rewrite (proj1 (synthesis_strip fuel api)).
  destruct (write_class_struct fuel cfg_test api "Script" _) as [g3| |];
    cbn; [|reflexivity|reflexivity].
  rewrite (proj1 (synthesis_strip fuel api)).
  destruct (write_class_struct fuel cfg_test api "Workspace" _) as [g4| |];
    cbn; [|reflexivity|reflexivity].
  unfold write_get_service, write_instance_new, instance_new_field,
    get_service_field.
  rewrite instance_names_strip, service_names_strip.
  change (enums (strip_members p api)) with (enums api).
  destruct (_ !! "DataModel") as [dm|]; cbn; [|reflexivity].
  destruct (dm !! "GetService"); [|reflexivity]. cbn -[layer_view set_stamps].
  f_equal. apply layer_view_set_stamps.
  assert (Hf : forall cs g, layer_view (std (fold_left write_roblox_class cs g))
                            = layer_view (std g))
    by (intros cs g; exact (layer_view_roblox_classes {| classes := cs; enums := [] |} g)).
  rewrite !Hf, layer_view_roblox_classes. reflexivity.
Qed.
End Strip.

Lemma secure_property_inert cfg_test m ws class_name g :
  secure_property m = true ->
  exists o, classify_member ws cfg_test class_name m g = Ok (g, o) /\
    match o with Some (_, t, f) => emitted_field t f = None | None => True end.
Proof.
  destruct m as [n t|n t|n t ps|n t sec vt|]; cbn; try discriminate.
  destruct (String.eqb sec default_security); cbn; [discriminate|].
  intros _. eexists. split; reflexivity.
Qed.

Lemma unknown_inert m ws class_name g :
  is_unknown m = true ->
  exists o, classify_member ws false class_name m g = Ok (g, o) /\
    match o with Some (_, t, f) => emitted_field t f = None | None => True end.
Proof.
  destruct m; cbn; try discriminate. intros _. eexists. split; [reflexivity|exact I].
Qed.

(** ** C6: properties with non-default security *)

Lemma class_properties_In ms name tags security value_type :
  In (ApiMember.Property name tags security value_type) ms ->
  In name (class_properties ms).
Proof.
  intros H. unfold class_properties. apply in_flat_map.
  exists (ApiMember.Property name tags security value_type).
  split; [exact H|left; reflexivity].
Qed.

(** C6 (amended). Classification of a property whose security is not the
    default emits no field and does not touch the generator state; removing
    all such properties from the dump changes no part of the generated
    descriptor but the class index [roblox_classes].  Such a property still
    appears in the class index: when no later class of the dump has the
    name of its class, its name is among that class's properties. *)
Theorem secure_property_dropped fuel cfg_test api roblox_base timestamp
    pkg_version :
  (forall ws class_name name tags security value_type g,
     String.eqb security default_security = false ->
     classify_member ws cfg_test class_name
       (ApiMember.Property name tags security value_type) g =
     Ok (g, Some (name, tags, None))) /\
  outcome_map layer_view
    (generate_layer fuel cfg_test (strip_members secure_property api) roblox_base
       timestamp pkg_version) =
  outcome_map layer_view
    (generate_layer fuel cfg_test api roblox_base timestamp pkg_version) /\
  (forall s pre c post name tags security value_type,
     generate_layer fuel cfg_test api roblox_base timestamp pkg_version = Ok s ->
     classes api = (pre ++ c :: post)%list ->
     Forall (fun c' => ApiClass.name c' <> ApiClass.name c) post ->
     In (ApiMember.Property name tags security value_type) (ApiClass.members c) ->
     String.eqb security default_security = false ->
     exists rc, roblox_classes s !! ApiClass.name c = Some rc /\
                In name (rc_properties rc)).
Proof.
  split; [|split].
  - intros ws class_name name tags security value_type g H. cbn. rewrite H.
    reflexivity.
  - apply generate_layer_strip. intros m ws class_name g.
    apply secure_property_inert.
  - intros s pre c post name tags security value_type H Hc Hpost Hin _.
    apply generate_layer_inv in H as (g & Hg & ->).
    apply run_passes_inv in Hg as (g1 & g2 & _ & _ & ->). cbn.
    rewrite (write_roblox_classes_entry api g2 pre c post Hc Hpost).
    eexists. split; [reflexivity|]. cbn.
    exact (class_properties_In _ _ _ _ _ Hin).
Qed.

Lemma secure_property_dropped_witness :
  String.eqb "PluginSecurity" default_security = false /\
  classify_member (fun _ g => Ok g) false "Workspace"
    (ApiMember.Property "Secret" None "PluginSecurity"
       (ApiValueType.Other "Primitive")) empty_generator =
  Ok (empty_generator, Some ("Secret", None, None)) /\
  outcome_map layer_view
    (generate_layer 40 false (strip_members secure_property sample_api) empty_std
       7 "0.1.0") =
  outcome_map layer_view (generate_layer 40 false sample_api empty_std 7 "0.1.0") /\
  exists rc, roblox_classes sample_layer !! ApiClass.name workspace_class = Some rc /\
             In "Secret" (rc_properties rc).
Proof.
  assert (H : String.eqb "PluginSecurity" default_security = false)
    by reflexivity.
  assert (Hg : generate_layer 40 false sample_api empty_std 7 "0.1.0"
                 = Ok sample_layer) by (vm_compute; reflexivity).
  assert (Hc : classes sample_api =
                 (firstn 4 (classes sample_api) ++ workspace_class :: [])%list)
    by (vm_compute; reflexivity).
  assert (Hpost : Forall (fun c' => ApiClass.name c' <> ApiClass.name workspace_class)
                    ([] : list ApiClass.ApiClass)) by constructor.
  assert (Hin : In (ApiMember.Property "Secret" None "PluginSecurity"
                      (ApiValueType.Other "Primitive"))
                   (ApiClass.members workspace_class)) by (right; left; reflexivity).
  destruct (secure_property_dropped 40 false sample_api empty_std 7 "0.1.0")
    as [H1 [H2 H3]].
  split; [exact H|]. split; [|split; [exact H2|]].
  - exact (H1 (fun _ g => Ok g) "Workspace" "Secret" None "PluginSecurity"
             (ApiValueType.Other "Primitive") empty_generator H).
  - exact (H3 sample_layer (firstn 4 (classes sample_api)) workspace_class []
             "Secret" None "PluginSecurity" (ApiValueType.Other "Primitive")
             Hg Hc Hpost Hin H).
Defined.

(** C6 fails for the generated output as a whole: [Workspace.Secret], a
    property with security [PluginSecurity], is listed among the
    properties of [Workspace] in the class index of the generated
    descriptor. *)
Lemma secure_property_dropped_counterexample :
  generate_layer 40 false sample_api empty_std 7 "0.1.0" = Ok sample_layer /\
  In (ApiMember.Property "Secret" None "PluginSecurity"
        (ApiValueType.Other "Primitive")) (ApiClass.members workspace_class) /\
  find_class sample_api "Workspace" = Some workspace_class /\
  String.eqb "PluginSecurity" default_security = false /\
  match roblox_classes sample_layer !! "Workspace" with
  | Some rc => contains (rc_properties rc) "Secret"
  | None => false
  end = true.
Proof.
  split; [vm_compute; reflexivity|]. split; [right; left; reflexivity|].
  split; [reflexivity|]. split; [reflexivity|]. vm_compute. reflexivity.
Qed.

(** ** C8: unknown members *)

Lemma loop_app ws cfg_test class_name pre post table g :
  write_class_members_loop ws cfg_test class_name (pre ++ post) table g =
  (r ← write_class_members_loop ws cfg_test class_name pre table g;
   let '(g1, t1) := r in
   write_class_members_loop ws cfg_test class_name post t1 g1).
Proof.
  revert table g. induction pre as [|m pre IH]; intros table g; [reflexivity|].
  cbn. destruct (classify_member ws cfg_test class_name m g) as [[g1 o]| |];
    cbn; [|reflexivity|reflexivity].
  destruct o as [[[n t] f]|]; [destruct (emitted_field t f)|]; apply IH.
Qed.

(** C8. In a test build, once the member walk of a class reaches an
    [Unknown] member, [write_class_members] panics with a message naming
    that class.  Outside a test build, unknown members are skipped:
    synthesis of any class, and the whole generated descriptor, are those
    of the dump with every unknown member removed. *)
Theorem unknown_member_policy :
  (forall fuel api table class_name g c pre post g1 t1,
     find_class api class_name = Some c ->
     ApiClass.members c = (pre ++ ApiMember.Unknown :: post)%list ->
     write_class_members_loop
       (fun n g' => write_class_struct fuel true api n g') true class_name pre
       table g = Ok (g1, t1) ->
     write_class_members (S fuel) true api table class_name g =
     Panic ("unknown property found in Roblox API dump for " ++ class_name)) /\
  (forall fuel api class_name g,
     write_class_struct fuel false (strip_members is_unknown api) class_name g =
     write_class_struct fuel false api class_name g) /\
  (forall fuel api roblox_base timestamp pkg_version,
     outcome_map layer_view
       (generate_layer fuel false (strip_members is_unknown api) roblox_base
          timestamp pkg_version) =
     outcome_map layer_view
       (generate_layer fuel false api roblox_base timestamp pkg_version)).
Proof.
  split; [|split].
  - intros fuel api table class_name g c pre post g1 t1 Hf Hm Hpre.
    cbn [write_class_members]. rewrite Hf, Hm, loop_app, Hpre. reflexivity.
  - intros fuel api class_name g.
    apply (proj1 (synthesis_strip is_unknown false unknown_inert fuel api)).
  - intros. apply generate_layer_strip. exact unknown_inert.
Qed.

(** A dump with an unknown member in [Workspace]. *)
Lemma unknown_member_policy_witness :
  find_class unknown_api "Workspace" = Some unknown_workspace /\
  ApiClass.members unknown_workspace =
    ([ApiMember.Event "Changed" None] ++ ApiMember.Unknown :: [])%list /\
  write_class_members_loop
    (fun n g' => write_class_struct 10 true unknown_api n g') true "Workspace"
    [ApiMember.Event "Changed" None] ∅ empty_generator =
    Ok (empty_generator, {[ "Changed" := from_field_kind (FieldKind.Struct "Event") ]}) /\
  write_class_members 11 true unknown_api ∅ "Workspace" empty_generator =
    Panic ("unknown property found in Roblox API dump for " ++ "Workspace") /\
  write_class_struct 20 false (strip_members is_unknown unknown_api) "Workspace"
    empty_generator =
  write_class_struct 20 false unknown_api "Workspace" empty_generator /\
  outcome_map layer_view
    (generate_layer 40 false (strip_members is_unknown unknown_api) empty_std 7
       "0.1.0") =
  outcome_map layer_view (generate_layer 40 false unknown_api empty_std 7 "0.1.0").
Proof.
  destruct unknown_member_policy as [H1 [H2 H3]].
  assert (Hf : find_class unknown_api "Workspace" = Some unknown_workspace)
    by reflexivity.
  assert (Hm : ApiClass.members unknown_workspace =
    ([ApiMember.Event "Changed" None] ++ ApiMember.Unknown :: [])%list)
    by reflexivity.
  assert (Hl : write_class_members_loop
    (fun n g' => write_class_struct 10 true unknown_api n g') true "Workspace"
    [ApiMember.Event "Changed" None] ∅ empty_generator =
    Ok (empty_generator, {[ "Changed" := from_field_kind (FieldKind.Struct "Event") ]}))
    by reflexivity.
  split; [exact Hf|]. split; [exact Hm|]. split; [exact Hl|].
  split; [exact (H1 10 unknown_api ∅ "Workspace" empty_generator unknown_workspace
                   [ApiMember.Event "Changed" None] [] empty_generator _ Hf Hm Hl)|].
  split; [apply H2|apply H3].
Defined.

(** ** C1: inheritance flattening *)

(** C1 (code). [Script] declares [Name] read-only and its superclass
    [Instance] declares [Name] writable.  Classification of [Script]'s own
    member gives [Property(ReadOnly)], but the generated [Script] struct
    holds [Property(OverrideFields)]: the walk inserts the class's own
    members first and then its superclass's, and insertion overwrites, so
    the ancestor's entry wins. *)
Theorem parent_member_overrides_child :
  generate_layer 40 false override_api empty_std 7 "0.1.0" = Ok override_layer /\
  find_class override_api "Script" = Some override_script /\
  ApiClass.superclass override_script = "Instance" /\
  In (sample_property "Name" ["ReadOnly"] (ApiValueType.Other "Primitive"))
     (ApiClass.members override_script) /\
  (forall ws g,
     classify_member ws false "Script"
       (sample_property "Name" ["ReadOnly"] (ApiValueType.Other "Primitive")) g =
     Ok (g, Some ("Name", Some ["ReadOnly"],
                  Some (from_field_kind
                          (FieldKind.Property PropertyWritability.ReadOnly))))) /\
  emitted_field (Some ["ReadOnly"])
    (Some (from_field_kind (FieldKind.Property PropertyWritability.ReadOnly))) =
    Some (from_field_kind (FieldKind.Property PropertyWritability.ReadOnly)) /\
  match structs override_layer !! "Script" with
  | Some t => t !! "Name"
  | None => None
  end = Some (from_field_kind
                (FieldKind.Property PropertyWritability.OverrideFields)).
Proof.
  split; [vm_compute; reflexivity|]. split; [reflexivity|].
  split; [reflexivity|]. split; [left; reflexivity|].
  split; [reflexivity|]. split; [reflexivity|]. vm_compute. reflexivity.
Qed.

(** ** C3: the output bytes *)

Lemma string_app_assoc (a b c : string) : (a ++ b) ++ c = a ++ (b ++ c).
Proof. induction a as [|x a IH]; [reflexivity|exact (f_equal (String x) IH)]. Qed.

Lemma after_first_line_app (s t : string) :
  has_lf s = false -> after_first_line (s ++ t) = after_first_line t.
Proof.
  induction s as [|c s IH]; [reflexivity|]. intros H.
  change (has_lf (String c s)) with
    (Ascii.eqb c (Ascii.ascii_of_nat 10) || has_lf s) in H.
  apply orb_false_iff in H as [Hc Hs].
  change (String c s ++ t) with (String c (s ++ t)). cbn. rewrite Hc.
  exact (IH Hs).
Qed.

Lemma after_header_line time body :
  has_lf time = false -> after_first_line (header_line time ++ body) = body.
Proof.
  intros H. unfold header_line. rewrite !string_app_assoc.
  rewrite after_first_line_app by reflexivity.
  rewrite after_first_line_app by exact H. reflexivity.
Qed.

Lemma start_generation_bytes fuel cfg_test api roblox_base timestamp time
    pkg_version from_name extend bytes s :
  start_generation fuel cfg_test api roblox_base timestamp time pkg_version
    from_name extend = Ok (bytes, s) ->
  exists s', generate_layer fuel cfg_test api roblox_base timestamp pkg_version
               = Ok s' /\ bytes = header_line time ++ to_yaml_string s'.
Proof.
  unfold start_generation.
  destruct (generate_layer _ _ _ _ _ _) as [s'| |];
    cbn -[to_yaml_string header_line]; try discriminate.
  destruct (base s'); [|discriminate]. destruct (from_name _); [|discriminate].
  intros H. injection H as <- _. exists s'. split; reflexivity.
Qed.

(** C3 (amended). For a fixed dump and seed, the bytes of every run are its
    header line followed by one YAML body, and the bodies of any two runs
    coincide except for the [last_updated] line, which holds each run's
    timestamp: there are [pre] and [post], fixed by the input, such that
    each body is [pre], then [last_updated: <timestamp>], then [post]. *)
Theorem output_fixed_but_last_updated fuel cfg_test api roblox_base pkg_version
    from_name extend :
  exists pre post, forall timestamp time bytes s,
    has_lf time = false ->
    start_generation fuel cfg_test api roblox_base timestamp time pkg_version
      from_name extend = Ok (bytes, s) ->
    after_first_line bytes =
      pre ++ "last_updated: " ++ show_Z timestamp ++ lf ++ post /\
    bytes = header_line time ++ after_first_line bytes.
Proof.
  destruct (run_passes fuel cfg_test api roblox_base) as [g| |] eqn:Hr.
  2,3: exists EmptyString, EmptyString; intros timestamp time bytes s _ H;
    apply start_generation_bytes in H as (s' & E & _);
    unfold generate_layer in E; rewrite Hr in E; discriminate.
  exists ("base:" ++ render_node 0 (yaml_option YStr (base (std g)))
          ++ "globals:" ++ render_node 0 (yaml_gmap yaml_field (globals (std g)))
          ++ "last_selene_version:" ++ render_node 0 (YStr pkg_version)).
  exists ("roblox_classes:"
          ++ render_node 0 (yaml_gmap yaml_roblox_class (roblox_classes (std g)))
          ++ "structs:"
          ++ render_node 0 (yaml_gmap (yaml_gmap yaml_field) (structs (std g)))).
  intros timestamp time bytes s Hlf H.
  apply start_generation_bytes in H as (s' & E & ->).
  unfold generate_layer in E. rewrite Hr in E. injection E as <-.
  rewrite after_header_line by exact Hlf. split; [|reflexivity].
  unfold to_yaml_string, render_document, yaml_std.
  cbn [String.concat map fst snd base globals last_selene_version last_updated
       roblox_classes structs set_stamps yaml_option].
  change (render_node 0 (YInt timestamp)) with (" " ++ show_Z timestamp ++ lf).
  rewrite !string_app_assoc. reflexivity.
Qed.

(** Two runs on [sample_api], one second apart. *)
Lemma output_fixed_but_last_updated_witness :
  exists pre post,
    after_first_line (run_bytes 0 "1970-01-01 00:00:00 +00:00") =
      pre ++ "last_updated: " ++ show_Z 0 ++ lf ++ post /\
    after_first_line (run_bytes 1 "1970-01-01 00:00:01 +00:00") =
      pre ++ "last_updated: " ++ show_Z 1 ++ lf ++ post.
Proof.
  destruct (output_fixed_but_last_updated 40 false sample_api empty_std "0.1.0"
              (fun _ => Some empty_std) (fun s _ => s)) as (pre & post & H).
  assert (H0 : start_generation 40 false sample_api empty_std 0
    "1970-01-01 00:00:00 +00:00" "0.1.0" (fun _ => Some empty_std) (fun s _ => s) =
    Ok (run_bytes 0 "1970-01-01 00:00:00 +00:00",
        run_std 0 "1970-01-01 00:00:00 +00:00")) by (vm_compute; reflexivity).
  assert (H1 : start_generation 40 false sample_api empty_std 1
    "1970-01-01 00:00:01 +00:00" "0.1.0" (fun _ => Some empty_std) (fun s _ => s) =
    Ok (run_bytes 1 "1970-01-01 00:00:01 +00:00",
        run_std 1 "1970-01-01 00:00:01 +00:00")) by (vm_compute; reflexivity).
  exists pre, post. split.
  - exact (proj1 (H 0%Z "1970-01-01 00:00:00 +00:00" (run_bytes 0 "1970-01-01 00:00:00 +00:00")
      (run_std 0 "1970-01-01 00:00:00 +00:00") eq_refl H0)).
  - exact (proj1 (H 1%Z "1970-01-01 00:00:01 +00:00" (run_bytes 1 "1970-01-01 00:00:01 +00:00")
      (run_std 1 "1970-01-01 00:00:01 +00:00") eq_refl H1)).
Defined.

(** C3 fails: two runs on [sample_api] at different seconds differ after
    the header line, in the serialized [last_updated]. *)
Lemma output_fixed_but_last_updated_counterexample :
  sample_run 0 "1970-01-01 00:00:00 +00:00" =
    Ok (run_bytes 0 "1970-01-01 00:00:00 +00:00",
        run_std 0 "1970-01-01 00:00:00 +00:00") /\
  sample_run 1 "1970-01-01 00:00:01 +00:00" =
    Ok (run_bytes 1 "1970-01-01 00:00:01 +00:00",
        run_std 1 "1970-01-01 00:00:01 +00:00") /\
  after_first_line (run_bytes 0 "1970-01-01 00:00:00 +00:00") <>
  after_first_line (run_bytes 1 "1970-01-01 00:00:01 +00:00").
Proof.
  split; [vm_compute; reflexivity|]. split; [vm_compute; reflexivity|].
  intros H.
  assert (E : String.eqb (after_first_line (run_bytes 0 "1970-01-01 00:00:00 +00:00"))
                (after_first_line (run_bytes 1 "1970-01-01 00:00:01 +00:00")) = false)
    by (vm_compute; reflexivity).
  rewrite H, String.eqb_refl in E. discriminate.
Qed.

(** * Further properties of the generator *)

(** ** The content of a synthesized table *)

Lemma classify_member_entry ws cfg_test class_name m g g' o :
  classify_member ws cfg_test class_name m g = Ok (g', o) ->
  match o with
  | Some (n, t, f) =>
      match emitted_field t f with Some f' => Some (n, f') | None => None end
  | None => None
  end = member_entry m.
Proof.
  destruct m as [n t|n t|n t ps|n t sec vt|]; cbn;
    try (intros H; injection H as _ <-; reflexivity).
  - destruct (String.eqb sec default_security);
      [|intros H; injection H as _ <-; reflexivity].
    destruct vt as [cn|v|o']; cbn.
    + destruct (ws cn g); cbn; try discriminate.
      intros H. injection H as _ <-. reflexivity.
    + destruct (has_custom_methods v); intros H; injection H as _ <-;
        reflexivity.
    + intros H. injection H as _ <-. reflexivity.
  - destruct cfg_test; [discriminate|]. intros H. injection H as _ <-.
    reflexivity.
Qed.

Lemma loop_table ws cfg_test class_name ms table g g' table' :
  write_class_members_loop ws cfg_test class_name ms table g = Ok (g', table') ->
  table' = insert_entries ms table.
Proof.
  revert table g. induction ms as [|m ms IH]; intros table g; cbn.
  { intros H. injection H as _ <-. reflexivity. }
  destruct (classify_member ws cfg_test class_name m g) as [[g1 o]| |] eqn:E;
    cbn; try discriminate.
  apply classify_member_entry in E. unfold insert_entries in IH |- *. cbn.
  rewrite <- E.
  destruct o as [[[n t] f]|]; [destruct (emitted_field t f)|]; apply IH.
Qed.

Lemma insert_entries_app ms1 ms2 table :
  insert_entries (ms1 ++ ms2) table = insert_entries ms2 (insert_entries ms1 table).
Proof. unfold insert_entries. apply fold_left_app. Qed.

Lemma write_class_members_table fuel cfg_test api table class_name g g' table' :
  write_class_members fuel cfg_test api table class_name g = Ok (g', table') ->
  forall d, fuel <= d ->
  table' = insert_entries
             (flat_map ApiClass.members (superclass_chain d api class_name)) table.
Proof.
  revert table class_name g g' table'.
  induction fuel as [|fuel IH]; intros table class_name g g' table'; [discriminate|].
  cbn [write_class_members].
  destruct (find_class api class_name) as [c|] eqn:Hf; [|discriminate].
  destruct (write_class_members_loop _ _ _ _ _ _) as [[g1 t1]| |] eqn:E;
    cbn; try discriminate.
  apply loop_table in E as ->.
  intros H d Hd. destruct d as [|d]; [lia|]. cbn. rewrite Hf.
  cbn [flat_map]. rewrite insert_entries_app.
  destruct (String.eqb (ApiClass.superclass c) ROOT); cbn in H |- *.
  - injection H as _ <-. reflexivity.
  - apply (IH _ _ _ _ _ H d). lia.
Qed.

Lemma superclass_chain_stable d api n :
  walk_ends d api n = true ->
  forall d', d <= d' -> superclass_chain d' api n = superclass_chain d api n.
Proof.
  revert n. induction d as [|d IH]; intros n H d' Hd; [discriminate|].
  destruct d' as [|d']; [lia|]. cbn in H |- *.
  destruct (find_class api n) as [c|]; [|reflexivity].
  destruct (String.eqb (ApiClass.superclass c) ROOT); [reflexivity|].
  rewrite (IH _ H d'); [reflexivity|lia].
Qed.

Lemma write_class_struct_stored fuel cfg_test api class_name g g' :
  write_class_struct fuel cfg_test api class_name g = Ok g' ->
  contains_key (structs (std g)) class_name = false ->
  find_class api class_name <> None /\
  forall d, fuel <= d ->
  structs (std g') !! class_name =
    Some (insert_entries
            (flat_map ApiClass.members (superclass_chain d api class_name))
            {[ "*" := wildcard_field ]}).
Proof.
  destruct fuel as [|fuel]; [discriminate|]. cbn. intros H Hc. rewrite Hc in H.
  destruct (write_class_members fuel cfg_test api _ class_name
              (reserve_struct class_name g)) as [[g2 t2]| |] eqn:E;
    cbn in H; try discriminate.
  injection H as <-. split.
  - destruct fuel as [|fuel]; [discriminate|]. cbn in E.
    destruct (find_class api class_name); [discriminate|discriminate].
  - intros d Hd. cbn. rewrite lookup_insert_eq.
    rewrite (write_class_members_table _ _ _ _ _ _ _ _ E d); [reflexivity|lia].
Qed.

Lemma write_class_struct_table fuel cfg_test api class_name g g' :
  chains_ok api = true ->
  contains_key (structs (std g)) class_name = false ->
  write_class_struct fuel cfg_test api class_name g = Ok g' ->
  structs (std g') !! class_name =
    Some (insert_entries (flat_map ApiClass.members (ancestry api class_name))
            {[ "*" := wildcard_field ]}).
Proof.
  intros Hch Hc H.
  destruct (write_class_struct_stored _ _ _ _ _ _ H Hc) as [He Ht].
  assert (Hw : walk_ends (length (classes api) + 1) api class_name = true).
  { apply chains_ok_walk; [exact Hch|]. unfold class_exists.
    destruct (find_class api class_name); [reflexivity|congruence]. }
  rewrite (Ht (Nat.max fuel (length (classes api) + 1))) by lia.
  unfold ancestry. rewrite (superclass_chain_stable _ _ _ Hw); [reflexivity|lia].
Qed.

(** X1. On a dump whose superclass chains reach the root, the table that
    [write_class_struct] stores for a class that had no struct is the
    wildcard entry followed by the entries of the members of the class and
    of each of its ancestors, inserted in walk order (own members first,
    each class in member order), a later entry replacing an earlier one of
    the same name. *)
Theorem synthesized_table fuel cfg_test api class_name g g' :
  chains_ok api = true ->
  contains_key (structs (std g)) class_name = false ->
  write_class_struct fuel cfg_test api class_name g = Ok g' ->
  structs (std g') !! class_name =
    Some (insert_entries (flat_map ApiClass.members (ancestry api class_name))
            {[ "*" := wildcard_field ]}).
Proof. apply write_class_struct_table. Qed.

Lemma insert_entries_skip ms table n :
  Forall (fun m => forall f, member_entry m <> Some (n, f)) ms ->
  insert_entries ms table !! n = table !! n.
Proof.
  unfold insert_entries. revert table.
  induction ms as [|m ms IH]; intros table H; [reflexivity|].
  inversion_clear H as [|? ? Hm Hms]. cbn. rewrite IH by exact Hms.
  destruct (member_entry m) as [[n' f']|] eqn:E; [|reflexivity].
  rewrite lookup_insert_ne; [reflexivity|]. intros Heq. subst n'.
  exact (Hm f' eq_refl).
Qed.

Lemma insert_entries_last pre m post table n f :
  member_entry m = Some (n, f) ->
  Forall (fun m' => forall f', member_entry m' <> Some (n, f')) post ->
  insert_entries (pre ++ m :: post) table !! n = Some f.
Proof.
  intros Hm Hpost. rewrite insert_entries_app.
  change (m :: post) with ([m] ++ post)%list. rewrite insert_entries_app.
  rewrite insert_entries_skip by exact Hpost.
  unfold insert_entries at 1. cbn. rewrite Hm. apply lookup_insert_eq.
Qed.

Lemma insert_entries_origin ms table n f :
  insert_entries ms table !! n = Some f ->
  table !! n = Some f \/ exists m, In m ms /\ member_entry m = Some (n, f).
Proof.
  unfold insert_entries. revert table.
  induction ms as [|m ms IH]; intros table H; [left; exact H|]. cbn in H.
  destruct (IH _ H) as [H1|(m' & Hin & Hm')];
    [|right; exists m'; split; [right; exact Hin|exact Hm']].
  destruct (member_entry m) as [[n' f']|] eqn:E; [|left; exact H1].
  destruct (String.eq_dec n' n) as [<-|Hne].
  - rewrite lookup_insert_eq in H1. injection H1 as <-.
    right. exists m. split; [left; reflexivity|exact E].
  - rewrite lookup_insert_ne in H1 by exact Hne. left. exact H1.
Qed.

(** X2. Precedence inside a synthesized table: when the walk over the
    members of a class and of its ancestors (own members first) meets an
    entry named [n] that no later member of the walk replaces, that entry
    is the field stored under [n]; so a member of an ancestor replaces a
    member of the same name declared lower in the chain. *)
Theorem synthesized_table_last_wins fuel cfg_test api class_name g g' pre m post n f :
  chains_ok api = true ->
  contains_key (structs (std g)) class_name = false ->
  write_class_struct fuel cfg_test api class_name g = Ok g' ->
  flat_map ApiClass.members (ancestry api class_name) = (pre ++ m :: post)%list ->
  member_entry m = Some (n, f) ->
  Forall (fun m' => forall f', member_entry m' <> Some (n, f')) post ->
  exists t, structs (std g') !! class_name = Some t /\ t !! n = Some f.
Proof.
  intros Hch Hc H Hw Hm Hpost.
  rewrite (write_class_struct_table _ _ _ _ _ _ Hch Hc H), Hw.
  eexists. split; [reflexivity|]. apply insert_entries_last; assumption.
Qed.

(** X3. A synthesized table holds no invented field: each of its entries is
    the wildcard [*] entry [Struct("Instance")] or the entry derived from a
    member of the class or of one of its ancestors. *)
Theorem synthesized_table_origin fuel cfg_test api class_name g g' t n f :
  chains_ok api = true ->
  contains_key (structs (std g)) class_name = false ->
  write_class_struct fuel cfg_test api class_name g = Ok g' ->
  structs (std g') !! class_name = Some t ->
  t !! n = Some f ->
  (n = "*" /\ f = wildcard_field) \/
  exists c m, In c (ancestry api class_name) /\ In m (ApiClass.members c) /\
              member_entry m = Some (n, f).
Proof.
  intros Hch Hc H Ht Hn.
  rewrite (write_class_struct_table _ _ _ _ _ _ Hch Hc H) in Ht.
  injection Ht as <-. apply insert_entries_origin in Hn as [Hn|(m & Hin & Hm)].
  - left. destruct (String.eq_dec n "*") as [->|Hne].
    + rewrite lookup_singleton_eq in Hn. injection Hn as <-. auto.
    + rewrite lookup_singleton_ne in Hn by congruence. discriminate.
  - right. apply in_flat_map in Hin as (c & Hc' & Hm').
    exists c, m. auto.
Qed.

(** X4. [write_class_struct] never alters a struct that is already present:
    every table of the input state is found unchanged in the result. *)
Theorem write_class_struct_frame fuel cfg_test api class_name g g' k t :
  write_class_struct fuel cfg_test api class_name g = Ok g' ->
  structs (std g) !! k = Some t ->
  structs (std g') !! k = Some t.
Proof. intros H. apply (write_class_struct_grows _ _ _ _ _ _ H). Qed.


(** ** New struct keys and struct references *)

Lemma new_keys_refl api g : new_keys_ok api g g.
Proof. intros k t H1 H2. congruence. Qed.

Lemma new_keys_trans api g1 g2 g3 :
  new_keys_ok api g1 g2 -> new_keys_ok api g2 g3 -> new_keys_ok api g1 g3.
Proof.
  intros H12 H23 k t H3 H1.
  destruct (structs (std g2) !! k) as [t2|] eqn:E2; eauto.
Qed.

Lemma classify_member_new_keys api ws cfg_test class_name member g g' o :
  (forall n h h', ws n h = Ok h' -> new_keys_ok api h h') ->
  classify_member ws cfg_test class_name member g = Ok (g', o) ->
  new_keys_ok api g g'.
Proof.
  intros Hws. destruct member as [n t|n t|n t ps|n t sec vt|]; cbn.
  1-3: intros H; injection H as <- _; apply new_keys_refl.
  - destruct (String.eqb sec default_security);
      [|intros H; injection H as <- _; apply new_keys_refl].
    destruct vt as [cn|v|o']; cbn.
    + destruct (ws cn g) as [h| |] eqn:E; cbn; try discriminate.
      intros H. injection H as <- _. eauto.
    + destruct (has_custom_methods v); intros H; injection H as <- _;
        apply new_keys_refl.
    + intros H. injection H as <- _. apply new_keys_refl.
  - destruct cfg_test; [discriminate|]. intros H. injection H as <- _.
    apply new_keys_refl.
Qed.

Lemma loop_new_keys api ws cfg_test class_name ms table g g' table' :
  (forall n h h', ws n h = Ok h' -> new_keys_ok api h h') ->
  write_class_members_loop ws cfg_test class_name ms table g = Ok (g', table') ->
  new_keys_ok api g g'.
Proof.
  intros Hws. revert table g. induction ms as [|m ms IH]; intros table g; cbn.
  - intros H. injection H as <- _. apply new_keys_refl.
  - destruct (classify_member ws cfg_test class_name m g) as [[g1 o]| |] eqn:E;
      cbn; try discriminate.
    apply (classify_member_new_keys api) in E; [|exact Hws].
    destruct o as [[[n t] f]|]; [destruct (emitted_field t f)|];
      intros H; (eapply new_keys_trans; [exact E|]); eapply IH; exact H.
Qed.

Lemma write_class_members_exists fuel cfg_test api table class_name g r :
  write_class_members fuel cfg_test api table class_name g = Ok r ->
  class_exists api class_name = true.
Proof.
  destruct fuel; [discriminate|]. cbn. unfold class_exists.
  destruct (find_class api class_name); [reflexivity|discriminate].
Qed.

Lemma synthesis_new_keys fuel :
  (forall cfg_test api class_name g g',
     write_class_struct fuel cfg_test api class_name g = Ok g' ->
     new_keys_ok api g g') /\
  (forall cfg_test api table class_name g g' table',
     write_class_members fuel cfg_test api table class_name g = Ok (g', table') ->
     new_keys_ok api g g').
Proof.
  induction fuel as [|fuel [IHs IHm]]; [split; intros; discriminate|]. split.
  - intros cfg_test api class_name g g'. cbn.
    destruct (contains_key (structs (std g)) class_name) eqn:Hc.
    { intros H. injection H as <-. apply new_keys_refl. }
    destruct (write_class_members fuel cfg_test api _ class_name
                (reserve_struct class_name g)) as [[g2 t2]| |] eqn:E;
      cbn; try discriminate.
    intros H. injection H as <-.
    pose proof (write_class_members_exists _ _ _ _ _ _ _ E) as Hex.
    apply IHm in E. intros k t Hk Hn. cbn in Hk.
    destruct (String.eq_dec k class_name) as [->|Hne]; [exact Hex|].
    rewrite lookup_insert_ne in Hk by congruence. apply (E k t Hk).
    cbn. rewrite lookup_insert_ne by congruence. exact Hn.
  - intros cfg_test api table class_name g g' table'. cbn.
    destruct (find_class api class_name) as [c|]; [|discriminate].
    destruct (write_class_members_loop _ _ _ _ _ _) as [[g1 t1]| |] eqn:E;
      cbn; try discriminate.
    apply (loop_new_keys api) in E; [|intros n h h' Hh; eapply IHs; exact Hh].
    destruct (negb _).
    + intros H. eapply new_keys_trans; [exact E|]. eapply IHm. exact H.
    + intros H. injection H as <- _. exact E.
Qed.

Lemma apply_deprecation_kind tags f :
  field_kind (apply_deprecation tags f) = field_kind f.
Proof. unfold apply_deprecation. destruct (contains tags "Deprecated"); reflexivity. Qed.

Lemma field_ref_ok_mono S S' f :
  (forall c, is_Some (S !! c) -> is_Some (S' !! c)) ->
  field_ref_ok S f -> field_ref_ok S' f.
Proof.
  intros HS. unfold field_ref_ok. destruct (field_kind f); auto.
  intros [H|[H|H]]; auto.
Qed.

Lemma table_refs_ok_mono S S' t :
  (forall c, is_Some (S !! c) -> is_Some (S' !! c)) ->
  table_refs_ok S t -> table_refs_ok S' t.
Proof. intros HS H n f Hn. eapply field_ref_ok_mono; eauto. Qed.

Lemma is_Some_insert {V} (S : gmap string V) k v c :
  is_Some (S !! c) -> is_Some (<[k := v]> S !! c).
Proof.
  intros H. destruct (String.eq_dec k c) as [->|Hne].
  - rewrite lookup_insert_eq. eexists. reflexivity.
  - rewrite lookup_insert_ne by exact Hne. exact H.
Qed.

Lemma grows_is_Some g g' c :
  grows g g' -> is_Some (structs (std g) !! c) -> is_Some (structs (std g') !! c).
Proof. intros [F _] [t Ht]. exists t. apply F. exact Ht. Qed.

Lemma refs_closed_insert old S k t :
  refs_closed old S -> table_refs_ok (<[k := t]> S) t ->
  refs_closed old (<[k := t]> S).
Proof.
  intros H Ht k' t' Hk Hold. destruct (String.eq_dec k k') as [->|Hne].
  - rewrite lookup_insert_eq in Hk. injection Hk as <-. exact Ht.
  - rewrite lookup_insert_ne in Hk by exact Hne.
    eapply table_refs_ok_mono; [|exact (H _ _ Hk Hold)].
    intros c. apply is_Some_insert.
Qed.

(** What a call of [write_struct] is known to do: it extends the state,
    leaves a struct for the requested name, and keeps references resolved. *)
Definition ws_spec (old : gmap string (gmap string Field))
    (ws : string -> RobloxGenerator -> outcome RobloxGenerator) : Prop :=
  forall n h h', ws n h = Ok h' ->
    grows h h' /\ is_Some (structs (std h') !! n) /\
    (refs_closed old (structs (std h)) -> refs_closed old (structs (std h'))).

Section RefsClosed.
Variable old : gmap string (gmap string Field).

Lemma classify_member_refs ws cfg_test class_name m g g' o :
  ws_spec old ws ->
  classify_member ws cfg_test class_name m g = Ok (g', o) ->
  refs_closed old (structs (std g)) ->
  grows g g' /\ refs_closed old (structs (std g')) /\
  forall n f, member_entry m = Some (n, f) -> field_ref_ok (structs (std g')) f.
Proof.
  intros Hws. destruct m as [n t|n t|n t ps|n t sec vt|]; cbn.
  1-3: intros H; injection H as <- _; intros Hr; split; [apply grows_refl|];
    split; [exact Hr|]; intros n' f' E; injection E as _ <-;
    unfold field_ref_ok; rewrite apply_deprecation_kind; cbn; auto.
  - destruct (String.eqb sec default_security);
      [|intros H; injection H as <- _; intros Hr;
        split; [apply grows_refl|]; split; [exact Hr|discriminate]].
    destruct vt as [cn|v|o']; cbn.
    + destruct (ws cn g) as [h| |] eqn:E; cbn; try discriminate.
      intros H. injection H as <- _. apply Hws in E as (Hg & Hs & Hr).
      intros Hr0. split; [exact Hg|]. split; [exact (Hr Hr0)|].
      intros n' f' E'. injection E' as _ <-.
      unfold field_ref_ok. rewrite apply_deprecation_kind. cbn. auto.
    + destruct (has_custom_methods v); intros H; injection H as <- _;
        intros Hr; (split; [apply grows_refl|]); (split; [exact Hr|]);
        intros n' f' E'; injection E' as _ <-;
        unfold field_ref_ok; rewrite apply_deprecation_kind; cbn; auto.
    + intros H. injection H as <- _. intros Hr.
      split; [apply grows_refl|]. split; [exact Hr|].
      intros n' f' E'. injection E' as _ <-.
      unfold field_ref_ok. rewrite apply_deprecation_kind. cbn. auto.
  - destruct cfg_test; [discriminate|]. intros H. injection H as <- _.
    intros Hr. split; [apply grows_refl|]. split; [exact Hr|discriminate].
Qed.

Lemma loop_refs ws cfg_test class_name ms table g g' table' :
  ws_spec old ws ->
  write_class_members_loop ws cfg_test class_name ms table g = Ok (g', table') ->
  refs_closed old (structs (std g)) -> table_refs_ok (structs (std g)) table ->
  grows g g' /\ refs_closed old (structs (std g')) /\
  table_refs_ok (structs (std g')) table'.
Proof.
  intros Hws. revert table g. induction ms as [|m ms IH]; intros table g; cbn.
  - intros H. injection H as <- <-. intros Hr Ht. split; [apply grows_refl|]. auto.
  - destruct (classify_member ws cfg_test class_name m g) as [[g1 o]| |] eqn:E;
      cbn; try discriminate.
    intros H Hr Ht.
    pose proof (classify_member_entry _ _ _ _ _ _ _ E) as Hent.
    destruct (classify_member_refs _ _ _ _ _ _ _ Hws E Hr) as (Hg1 & Hr1 & Hf1).
    assert (Ht1 : table_refs_ok (structs (std g1)) table).
    { eapply table_refs_ok_mono; [|exact Ht]. intros c. apply grows_is_Some.
      exact Hg1. }
    assert (Hfin : forall g2 t2, grows g1 g2 /\ refs_closed old (structs (std g2)) /\
              table_refs_ok (structs (std g2)) t2 ->
              grows g g2 /\ refs_closed old (structs (std g2)) /\
              table_refs_ok (structs (std g2)) t2).
    { intros g2 t2 (G & R & T). split; [eapply grows_trans; eauto|]. auto. }
    destruct o as [[[n t] f]|]; [destruct (emitted_field t f) as [f'|] eqn:Ef|];
      apply Hfin; eapply IH; try exact H; try exact Hr1; try exact Ht1.
    intros n' f'' Hn'. destruct (String.eq_dec n n') as [->|Hne].
    + rewrite lookup_insert_eq in Hn'. injection Hn' as <-.
      apply (Hf1 n'). rewrite <- Hent. reflexivity.
    + rewrite lookup_insert_ne in Hn' by exact Hne. exact (Ht1 _ _ Hn').
Qed.

Lemma write_class_struct_is_Some fuel cfg_test api class_name g g' :
  write_class_struct fuel cfg_test api class_name g = Ok g' ->
  is_Some (structs (std g') !! class_name).
Proof.
  destruct fuel as [|fuel]; [discriminate|]. cbn.
  destruct (contains_key (structs (std g)) class_name) eqn:Hc.
  - intros H. injection H as <-. unfold contains_key in Hc.
    destruct (structs (std g) !! class_name) eqn:E; [eexists; reflexivity|discriminate].
  - destruct (write_class_members _ _ _ _ _ _) as [[g2 t2]| |]; cbn; try discriminate.
    intros H. injection H as <-. cbn. rewrite lookup_insert_eq. eexists. reflexivity.
Qed.

Lemma synthesis_refs fuel :
  (forall cfg_test api class_name g g',
     write_class_struct fuel cfg_test api class_name g = Ok g' ->
     refs_closed old (structs (std g)) -> refs_closed old (structs (std g'))) /\
  (forall cfg_test api table class_name g g' table',
     write_class_members fuel cfg_test api table class_name g = Ok (g', table') ->
     refs_closed old (structs (std g)) -> table_refs_ok (structs (std g)) table ->
     refs_closed old (structs (std g')) /\ table_refs_ok (structs (std g')) table').
Proof.
  induction fuel as [|fuel [IHs IHm]]; [split; intros; discriminate|].
  assert (Hws : forall cfg_test api, ws_spec old (fun n g' => write_class_struct fuel cfg_test api n g')).
  { intros cfg_test api n h h' H. split; [eapply write_class_struct_grows; exact H|].
    split; [eapply write_class_struct_is_Some; exact H|]. eapply IHs. exact H. }
  split.
  - intros cfg_test api class_name g g'. cbn.
    destruct (contains_key (structs (std g)) class_name) eqn:Hc.
    { intros H. injection H as <-. auto. }
    destruct (write_class_members fuel cfg_test api _ class_name
                (reserve_struct class_name g)) as [[g2 t2]| |] eqn:E;
      cbn; try discriminate.
    intros H Hr. injection H as <-. cbn.
    destruct (IHm _ _ _ _ _ _ _ E) as [Hr2 Ht2].
    + cbn. apply refs_closed_insert; [exact Hr|]. intros n f Hn.
      rewrite lookup_empty in Hn. discriminate.
    + intros n f Hn. destruct (String.eq_dec n "*") as [->|Hne].
      * rewrite lookup_singleton_eq in Hn. injection Hn as <-.
        cbn. left. reflexivity.
      * rewrite lookup_singleton_ne in Hn by congruence. discriminate.
    + apply refs_closed_insert; [exact Hr2|].
      eapply table_refs_ok_mono; [|exact Ht2]. intros c. apply is_Some_insert.
  - intros cfg_test api table class_name g g' table'. cbn.
    destruct (find_class api class_name) as [c|]; [|discriminate].
    destruct (write_class_members_loop _ _ _ _ _ _) as [[g1 t1]| |] eqn:E;
      cbn; try discriminate.
    intros H Hr Ht.
    destruct (loop_refs _ _ _ _ _ _ _ _ (Hws cfg_test api) E Hr Ht) as (_ & Hr1 & Ht1).
    destruct (negb _).
    + eapply IHm; eauto.
    + injection H as <- <-. auto.
Qed.

End RefsClosed.

(** ** What each pass leaves alone *)

Lemma classify_member_std ws cfg_test class_name m g g' o :
  (forall n h h', ws n h = Ok h' -> std h' = set_structs (structs (std h')) (std h)) ->
  classify_member ws cfg_test class_name m g = Ok (g', o) ->
  std g' = set_structs (structs (std g')) (std g).
Proof.
  intros Hws. destruct m as [n t|n t|n t ps|n t sec vt|]; cbn.
  1-3: intros H; injection H as <- _; destruct (std g); reflexivity.
  - destruct (String.eqb sec default_security);
      [|intros H; injection H as <- _; destruct (std g); reflexivity].
    destruct vt as [cn|v|o']; cbn.
    + destruct (ws cn g) as [h| |] eqn:E; cbn; try discriminate.
      intros H. injection H as <- _. eauto.
    + destruct (has_custom_methods v); intros H; injection H as <- _;
        destruct (std g); reflexivity.
    + intros H. injection H as <- _. destruct (std g); reflexivity.
  - destruct cfg_test; [discriminate|]. intros H. injection H as <- _.
    destruct (std g); reflexivity.
Qed.

Lemma loop_std ws cfg_test class_name ms table g g' table' :
  (forall n h h', ws n h = Ok h' -> std h' = set_structs (structs (std h')) (std h)) ->
  write_class_members_loop ws cfg_test class_name ms table g = Ok (g', table') ->
  std g' = set_structs (structs (std g')) (std g).
Proof.
  intros Hws. revert table g. induction ms as [|m ms IH]; intros table g; cbn.
  - intros H. injection H as <- _. destruct (std g); reflexivity.
  - destruct (classify_member ws cfg_test class_name m g) as [[g1 o]| |] eqn:E;
      cbn; try discriminate.
    apply classify_member_std in E; [|exact Hws].
    destruct o as [[[n t] f]|]; [destruct (emitted_field t f)|];
      intros H; apply IH in H; rewrite H, E; reflexivity.
Qed.

Lemma synthesis_std fuel :
  (forall cfg_test api class_name g g',
     write_class_struct fuel cfg_test api class_name g = Ok g' ->
     std g' = set_structs (structs (std g')) (std g)) /\
  (forall cfg_test api table class_name g g' table',
     write_class_members fuel cfg_test api table class_name g = Ok (g', table') ->
     std g' = set_structs (structs (std g')) (std g)).
Proof.
  induction fuel as [|fuel [IHs IHm]]; [split; intros; discriminate|]. split.
  - intros cfg_test api class_name g g'. cbn.
    destruct (contains_key (structs (std g)) class_name) eqn:Hc.
    { intros H. injection H as <-. destruct (std g); reflexivity. }
    destruct (write_class_members fuel cfg_test api _ class_name
                (reserve_struct class_name g)) as [[g2 t2]| |] eqn:E;
      cbn; try discriminate.
    intros H. injection H as <-. apply IHm in E. cbn. rewrite E. reflexivity.
  - intros cfg_test api table class_name g g' table'. cbn.
    destruct (find_class api class_name) as [c|]; [|discriminate].
    destruct (write_class_members_loop _ _ _ _ _ _) as [[g1 t1]| |] eqn:E;
      cbn; try discriminate.
    apply loop_std in E; [|intros n h h' Hh; eapply IHs; exact Hh].
    destruct (negb _).
    + intros H. apply IHm in H. rewrite H, E. reflexivity.
    + intros H. injection H as <- _. exact E.
Qed.

Lemma write_class_struct_std fuel cfg_test api class_name g g' :
  write_class_struct fuel cfg_test api class_name g = Ok g' ->
  std g' = set_structs (structs (std g')) (std g).
Proof. apply synthesis_std. Qed.

Lemma write_enum_std g e :
  std (write_enum g e) = set_globals (globals (std (write_enum g e))) (std g).
Proof.
  unfold write_enum.
  assert (Hfold : forall items h,
    std (fold_left (fun g item => set_global ("Enum." ++ ApiEnum.name e ++ "." ++ item)
           (from_field_kind (FieldKind.Struct "EnumItem")) g) items h) =
    set_globals (globals (std (fold_left (fun g item =>
           set_global ("Enum." ++ ApiEnum.name e ++ "." ++ item)
           (from_field_kind (FieldKind.Struct "EnumItem")) g) items h))) (std h)).
  { induction items as [|i items IH]; intros h; cbn;
      [destruct (std h); reflexivity|]. rewrite IH. reflexivity. }
  rewrite Hfold. reflexivity.
Qed.

Lemma write_enums_std api g :
  std (write_enums api g) = set_globals (globals (std (write_enums api g))) (std g).
Proof.
  unfold write_enums. generalize g. induction (enums api) as [|e es IH]; intros h;
    cbn; [destruct (std h); reflexivity|].
  rewrite IH, write_enum_std. reflexivity.
Qed.

Lemma write_roblox_classes_std api g :
  std (write_roblox_classes api g) =
    set_roblox_classes (roblox_classes (std (write_roblox_classes api g))) (std g).
Proof.
  unfold write_roblox_classes. generalize g.
  induction (classes api) as [|c cs IH]; intros h;
    cbn; [destruct (std h); reflexivity|].
  rewrite IH. reflexivity.
Qed.

Lemma write_enum_globals_other g e k :
  (forall r, k <> "Enum." ++ r) ->
  globals (std (write_enum g e)) !! k = globals (std g) !! k.
Proof.
  intros Hk. unfold write_enum.
  assert (Hfold : forall items h,
    globals (std (fold_left (fun g item =>
           set_global ("Enum." ++ ApiEnum.name e ++ "." ++ item)
           (from_field_kind (FieldKind.Struct "EnumItem")) g) items h)) !! k =
    globals (std h) !! k).
  { induction items as [|i items IH]; intros h; cbn; [reflexivity|].
    rewrite IH, set_global_lookup.
    destruct (String.eqb_spec ("Enum." ++ ApiEnum.name e ++ "." ++ i) k) as [E|];
      [|reflexivity].
    exfalso. exact (Hk _ (eq_sym E)). }
  rewrite Hfold, set_global_lookup.
  destruct (String.eqb_spec ("Enum." ++ ApiEnum.name e ++ ".GetEnumItems") k)
    as [E|]; [|reflexivity].
  exfalso. exact (Hk _ (eq_sym E)).
Qed.

Lemma write_class_struct_keeps fuel cfg_test api class_name g g' :
  write_class_struct fuel cfg_test api class_name g = Ok g' ->
  base (std g') = base (std g) /\ globals (std g') = globals (std g) /\
  roblox_classes (std g') = roblox_classes (std g).
Proof.
  intros H. apply write_class_struct_std in H.
  rewrite H. cbn. auto.
Qed.

Lemma write_class_inv fuel cfg_test api global_name class_name g g' :
  write_class fuel cfg_test api global_name class_name g = Ok g' ->
  base (std g') = base (std g) /\
  globals (std g') = <[global_name := from_field_kind (FieldKind.Struct class_name)]>
                       (globals (std g)) /\
  grows g g' /\ new_keys_ok api g g' /\
  (forall old, refs_closed old (structs (std g)) -> refs_closed old (structs (std g'))) /\
  is_Some (structs (std g') !! class_name).
Proof.
  unfold write_class.
  destruct (write_class_struct fuel cfg_test api class_name g) as [h| |] eqn:E;
    cbn; try discriminate.
  intros H. injection H as <-.
  destruct (write_class_struct_keeps _ _ _ _ _ _ E) as (Hb & Hg & _).
  cbn. rewrite Hb, Hg. split; [reflexivity|]. split; [reflexivity|].
  split; [exact (write_class_struct_grows _ _ _ _ _ _ E)|].
  split; [exact (proj1 (synthesis_new_keys fuel) _ _ _ _ _ E)|].
  split; [intros old; exact (proj1 (synthesis_refs old fuel) _ _ _ _ _ E)|].
  exact (write_class_struct_is_Some _ _ _ _ _ _ E).
Qed.

Lemma write_well_known_classes_inv fuel cfg_test api g0 g1 :
  write_well_known_classes fuel cfg_test api g0 = Ok g1 ->
  base (std g1) = base (std g0) /\
  globals (std g1) = well_known_globals (globals (std g0)) /\
  grows g0 g1 /\ new_keys_ok api g0 g1 /\
  (forall old, refs_closed old (structs (std g0)) -> refs_closed old (structs (std g1))) /\
  Forall (fun c => is_Some (structs (std g1) !! c))
    ["DataModel"; "Plugin"; "Script"; "Workspace"].
Proof.
  unfold write_well_known_classes.
  destruct (write_class _ _ _ "game" _ g0) as [h1| |] eqn:E1; cbn; try discriminate.
  destruct (write_class _ _ _ "plugin" _ h1) as [h2| |] eqn:E2; cbn; try discriminate.
  destruct (write_class _ _ _ "script" _ h2) as [h3| |] eqn:E3; cbn; try discriminate.
  intros E4.
  apply write_class_inv in E1 as (B1 & G1 & W1 & N1 & R1 & S1).
  apply write_class_inv in E2 as (B2 & G2 & W2 & N2 & R2 & S2).
  apply write_class_inv in E3 as (B3 & G3 & W3 & N3 & R3 & S3).
  apply write_class_inv in E4 as (B4 & G4 & W4 & N4 & R4 & S4).
  split; [congruence|]. split; [rewrite G4, G3, G2, G1; reflexivity|].
  split; [eauto using grows_trans|].
  split; [eauto using new_keys_trans|]. split; [auto|].
  repeat constructor; eauto using grows_is_Some.
Qed.

Lemma run_passes_decompose fuel cfg_test api roblox_base g :
  run_passes fuel cfg_test api roblox_base = Ok g ->
  exists g1 dm,
    write_well_known_classes fuel cfg_test api
      {| std := roblox_base; completed := [] |} = Ok g1 /\
    structs (std g1) !! "DataModel" = Some dm /\ is_Some (dm !! "GetService") /\
    base (std g) = base roblox_base /\
    globals (std g) = globals (std (write_instance_new api (write_enums api g1))) /\
    structs (std g) = <["DataModel" := <["GetService" := get_service_field api]> dm]>
                        (structs (std g1)).
Proof.
  intros H. apply run_passes_inv in H as (g1 & g2 & E1 & E2 & ->).
  exists g1.
  pose proof (write_well_known_classes_inv _ _ _ _ _ E1) as (B1 & _).
  destruct (write_roblox_classes_keeps api g2) as [Kg Ks].
  pose proof (write_roblox_classes_std api g2) as Kstd.
  unfold write_get_service in E2.
  replace (structs (std (write_instance_new api (write_enums api g1))))
    with (structs (std g1)) in E2
    by (cbn; symmetry; apply write_enums_structs).
  destruct (structs (std g1) !! "DataModel") as [dm|] eqn:Edm; [|discriminate].
  destruct (dm !! "GetService") as [gs|] eqn:Egs; [|discriminate].
  injection E2 as <-. exists dm.
  split; [exact E1|]. split; [reflexivity|]. split; [exists gs; exact Egs|].
  split; [|split; [exact Kg|]].
  - rewrite Kstd. cbn. rewrite write_enums_std. cbn. exact B1.
  - rewrite Ks. cbn. rewrite write_enums_structs. reflexivity.
Qed.

Lemma generate_layer_decompose fuel cfg_test api roblox_base timestamp pkg_version s :
  generate_layer fuel cfg_test api roblox_base timestamp pkg_version = Ok s ->
  exists g1 dm,
    write_well_known_classes fuel cfg_test api
      {| std := roblox_base; completed := [] |} = Ok g1 /\
    structs (std g1) !! "DataModel" = Some dm /\ is_Some (dm !! "GetService") /\
    base s = base roblox_base /\
    globals s = globals (std (write_instance_new api (write_enums api g1))) /\
    structs s = <["DataModel" := <["GetService" := get_service_field api]> dm]>
                  (structs (std g1)).
Proof.
  intros H. apply generate_layer_inv in H as (g & Hg & ->).
  exact (run_passes_decompose _ _ _ _ _ Hg).
Qed.

Lemma write_enums_globals_other api g k :
  (forall r, k <> "Enum." ++ r) ->
  globals (std (write_enums api g)) !! k = globals (std g) !! k.
Proof.
  intros Hk. unfold write_enums. generalize g.
  induction (enums api) as [|e es IH]; intros h; cbn; [reflexivity|].
  rewrite IH. apply write_enum_globals_other. exact Hk.
Qed.

Lemma set_global_is_Some name field g k :
  is_Some (globals (std g) !! k) ->
  is_Some (globals (std (set_global name field g)) !! k).
Proof.
  intros H. rewrite set_global_lookup. destruct (String.eqb name k); [|exact H].
  eexists. reflexivity.
Qed.

Lemma fold_set_global_is_Some (key : string -> string) v items g k :
  is_Some (globals (std g) !! k) ->
  is_Some (globals (std (fold_left (fun g i => set_global (key i) v g) items g)) !! k).
Proof.
  revert g. induction items as [|i items IH]; intros g H; cbn; [exact H|].
  apply IH. apply set_global_is_Some. exact H.
Qed.

Lemma fold_set_global_covers (key : string -> string) v items g i :
  In i items ->
  is_Some (globals (std (fold_left (fun g i => set_global (key i) v g) items g)) !! key i).
Proof.
  revert g. induction items as [|j items IH]; intros g Hi; [destruct Hi|].
  cbn. destruct Hi as [<-|Hi]; [|apply IH; exact Hi].
  apply fold_set_global_is_Some. rewrite set_global_lookup, String.eqb_refl.
  eexists. reflexivity.
Qed.

Lemma fold_set_global_values (key : string -> string) v items g k f :
  globals (std (fold_left (fun g i => set_global (key i) v g) items g)) !! k = Some f ->
  globals (std g) !! k = Some f \/ f = v.
Proof.
  revert g. induction items as [|i items IH]; intros g H; cbn in H; [left; exact H|].
  destruct (IH _ H) as [H1|H1]; [|right; exact H1].
  rewrite set_global_lookup in H1. destruct (String.eqb (key i) k);
    [injection H1 as <-; right; reflexivity|left; exact H1].
Qed.

Lemma write_enum_values g e k f :
  globals (std (write_enum g e)) !! k = Some f ->
  globals (std g) !! k = Some f \/ f = get_enum_items_field \/
  f = from_field_kind (FieldKind.Struct "EnumItem").
Proof.
  unfold write_enum. intros H.
  apply (fold_set_global_values (fun i => "Enum." ++ ApiEnum.name e ++ "." ++ i))
    in H as [H|H]; [|right; right; exact H].
  rewrite set_global_lookup in H.
  destruct (String.eqb _ k); [injection H as <-; right; left; reflexivity|].
  left. exact H.
Qed.

Lemma write_enum_covers g e k :
  is_Some (globals (std g) !! k) -> is_Some (globals (std (write_enum g e)) !! k).
Proof.
  intros H. unfold write_enum. apply fold_set_global_is_Some.
  apply set_global_is_Some. exact H.
Qed.

Lemma write_enum_keys g e :
  is_Some (globals (std (write_enum g e)) !! ("Enum." ++ ApiEnum.name e ++ ".GetEnumItems")) /\
  forall i, In i (ApiEnum.items e) ->
    is_Some (globals (std (write_enum g e)) !! ("Enum." ++ ApiEnum.name e ++ "." ++ i)).
Proof.
  split.
  - unfold write_enum. apply fold_set_global_is_Some.
    rewrite set_global_lookup, String.eqb_refl. eexists. reflexivity.
  - intros i Hi. unfold write_enum.
    exact (fold_set_global_covers (fun i => "Enum." ++ ApiEnum.name e ++ "." ++ i)
             _ _ _ _ Hi).
Qed.

Lemma write_roblox_classes_other cs g k :
  Forall (fun c => ApiClass.name c <> k) cs ->
  roblox_classes (std (fold_left write_roblox_class cs g)) !! k =
    roblox_classes (std g) !! k.
Proof.
  revert g. induction cs as [|c cs IH]; intros g H; cbn; [reflexivity|].
  inversion_clear H as [|? ? Hc Hcs]. rewrite IH by exact Hcs.
  rewrite write_roblox_class_lookup.
  destruct (String.eqb_spec (ApiClass.name c) k); [congruence|reflexivity].
Qed.

Lemma write_roblox_classes_named cs g k :
  (exists c, In c cs /\ ApiClass.name c = k) ->
  exists c', In c' cs /\ ApiClass.name c' = k /\
    roblox_classes (std (fold_left write_roblox_class cs g)) !! k =
      Some (roblox_class_entry c').
Proof.
  revert g. induction cs as [|c cs IH]; intros g (c0 & Hin & Hn); [destruct Hin|].
  cbn. destruct (existsb (fun c => String.eqb (ApiClass.name c) k) cs) eqn:E.
  - apply existsb_exists in E as (c1 & Hc1 & Hn1).
    apply String.eqb_eq in Hn1.
    destruct (IH (write_roblox_class g c)) as (c' & Hc' & Hn' & Hl);
      [exists c1; auto|].
    exists c'. split; [right; exact Hc'|]. auto.
  - assert (Hno : Forall (fun c => ApiClass.name c <> k) cs).
    { apply List.Forall_forall. intros c' Hc' Hn'.
      assert (existsb (fun c => String.eqb (ApiClass.name c) k) cs = true)
        by (apply existsb_exists; exists c'; split; [exact Hc'|];
            apply String.eqb_eq; exact Hn').
      congruence. }
    destruct Hin as [Heq|Hin];
      [subst c0|exfalso; exact (proj1 (List.Forall_forall _ _) Hno c0 Hin Hn)].
    exists c. split; [left; reflexivity|]. split; [exact Hn|].
    rewrite write_roblox_classes_other by exact Hno.
    rewrite write_roblox_class_lookup, Hn, String.eqb_refl. reflexivity.
Qed.

(** ** Properties of the passes and of the generated layer *)

(** X6. Every struct of the generated layer that the seed lacked is named
    after a class of the dump: the generator adds no struct for a name
    outside the dump. *)
Theorem generated_struct_keys fuel cfg_test api roblox_base timestamp pkg_version
    s k t :
  generate_layer fuel cfg_test api roblox_base timestamp pkg_version = Ok s ->
  structs s !! k = Some t -> structs roblox_base !! k = None ->
  class_exists api k = true.
Proof.
  intros H Hk Hold.
  destruct (generate_layer_decompose _ _ _ _ _ _ _ H)
    as (g1 & dm & E1 & Edm & _ & _ & _ & Hs).
  destruct (write_well_known_classes_inv _ _ _ _ _ E1) as (_ & _ & _ & N1 & _).
  rewrite Hs in Hk. destruct (String.eq_dec "DataModel" k) as [<-|Hne].
  - exact (N1 _ _ Edm Hold).
  - rewrite lookup_insert_ne in Hk by exact Hne. exact (N1 _ _ Hk Hold).
Qed.

(** X7. In the generated layer, every [Struct] field of a struct that the
    seed lacked refers to ["Instance"], to ["Event"], or to a struct that
    the layer contains: synthesis writes the struct of every class a
    property refers to. *)
Theorem generated_struct_refs fuel cfg_test api roblox_base timestamp pkg_version s :
  generate_layer fuel cfg_test api roblox_base timestamp pkg_version = Ok s ->
  refs_closed (structs roblox_base) (structs s).
Proof.
  intros H.
  destruct (generate_layer_decompose _ _ _ _ _ _ _ H)
    as (g1 & dm & E1 & Edm & _ & _ & _ & Hs).
  destruct (write_well_known_classes_inv _ _ _ _ _ E1) as (_ & _ & _ & _ & R1 & _).
  specialize (R1 (structs roblox_base)). cbn in R1.
  assert (R : refs_closed (structs roblox_base) (structs (std g1)))
    by (apply R1; intros k t Hk Hold; congruence).
  rewrite Hs. intros k t Hk Hold.
  assert (Mono : forall t', table_refs_ok (structs (std g1)) t' ->
            table_refs_ok (<["DataModel" := <["GetService" := get_service_field api]> dm]>
                             (structs (std g1))) t').
  { intros t'. apply table_refs_ok_mono. intros c. apply is_Some_insert. }
  destruct (String.eq_dec "DataModel" k) as [<-|Hne].
  - rewrite lookup_insert_eq in Hk. injection Hk as <-.
    intros n f Hn. destruct (String.eq_dec "GetService" n) as [<-|Hne'].
    + rewrite lookup_insert_eq in Hn. injection Hn as <-. exact I.
    + rewrite lookup_insert_ne in Hn by exact Hne'.
      exact (Mono _ (R _ _ Edm Hold) _ _ Hn).
  - rewrite lookup_insert_ne in Hk by exact Hne. exact (Mono _ (R _ _ Hk Hold)).
Qed.

(** X8. In the generated layer the globals [game], [plugin], [script] and
    [workspace] are [Struct("DataModel")], [Struct("Plugin")],
    [Struct("Script")] and [Struct("Workspace")], and each of those four
    structs is present. *)
Theorem generated_well_known fuel cfg_test api roblox_base timestamp pkg_version s :
  generate_layer fuel cfg_test api roblox_base timestamp pkg_version = Ok s ->
  Forall (fun '(global_name, class_name) =>
            globals s !! global_name =
              Some (from_field_kind (FieldKind.Struct class_name)) /\
            is_Some (structs s !! class_name))
    [("game", "DataModel"); ("plugin", "Plugin"); ("script", "Script");
     ("workspace", "Workspace")].
Proof.
  intros H.
  destruct (generate_layer_decompose _ _ _ _ _ _ _ H)
    as (g1 & dm & E1 & Edm & _ & _ & Hg & Hs).
  destruct (write_well_known_classes_inv _ _ _ _ _ E1) as (_ & G1 & _ & _ & _ & S1).
  rewrite Hg, Hs. unfold write_instance_new.
  repeat rewrite Forall_cons in S1 || rewrite Forall_nil in S1.
  destruct S1 as (S1 & S2 & S3 & S4 & _).
  repeat (apply List.Forall_cons; [cbn beta iota; split|]);
    try apply List.Forall_nil; try (apply is_Some_insert; assumption);
    rewrite set_global_lookup; cbn;
    rewrite write_enums_globals_other by (intros r Hr; discriminate Hr);
    rewrite G1; unfold well_known_globals;
    rewrite ?lookup_insert_ne by discriminate; apply lookup_insert_eq.
Qed.

(** X9. Generation succeeds only if the [DataModel] table ends with a
    [GetService] entry (lines 275-277): the seed's [DataModel] table has
    one, or the seed has no [DataModel] and a member of [DataModel] or of
    one of its ancestors yields an entry named [GetService]. *)
Theorem generation_needs_get_service fuel cfg_test api roblox_base timestamp
    pkg_version s :
  chains_ok api = true ->
  generate_layer fuel cfg_test api roblox_base timestamp pkg_version = Ok s ->
  (exists dm, structs roblox_base !! "DataModel" = Some dm /\
              is_Some (dm !! "GetService")) \/
  (structs roblox_base !! "DataModel" = None /\
   exists c m f, In c (ancestry api "DataModel") /\ In m (ApiClass.members c) /\
                 member_entry m = Some ("GetService", f)).
Proof.
  intros Hch H.
  destruct (generate_layer_decompose _ _ _ _ _ _ _ H)
    as (g1 & dm & E1 & Edm & Hgs & _).
  destruct (structs roblox_base !! "DataModel") as [dm0|] eqn:E0.
  - left. exists dm0. split; [reflexivity|].
    destruct (write_well_known_classes_inv _ _ _ _ _ E1) as (_ & _ & [F _] & _).
    specialize (F "DataModel" dm0 E0). rewrite Edm in F. injection F as <-.
    exact Hgs.
  - right. split; [reflexivity|].
    unfold write_well_known_classes in E1.
    destruct (write_class _ _ _ "game" _ _) as [h1| |] eqn:Eg; cbn in E1;
      try discriminate.
    assert (Hrest : grows h1 g1).
    { destruct (write_class _ _ _ "plugin" _ h1) as [h2| |] eqn:E2; cbn in E1;
        try discriminate.
      destruct (write_class _ _ _ "script" _ h2) as [h3| |] eqn:E3; cbn in E1;
        try discriminate.
      apply write_class_inv in E1 as (_ & _ & W4 & _).
      apply write_class_inv in E2 as (_ & _ & W2 & _).
      apply write_class_inv in E3 as (_ & _ & W3 & _).
      eauto using grows_trans. }
    unfold write_class in Eg.
    destruct (write_class_struct _ _ _ "DataModel" _) as [h0| |] eqn:Ews;
      cbn in Eg; try discriminate.
    injection Eg as <-.
    assert (Hc : contains_key (structs (std {| std := roblox_base; completed := [] |}))
                   "DataModel" = false) by (unfold contains_key; cbn; rewrite E0; reflexivity).
    pose proof (write_class_struct_table _ _ _ _ _ _ Hch Hc Ews) as Ht.
    destruct Hrest as [F _]. apply F in Ht. cbn in Ht. rewrite Edm in Ht.
    injection Ht as ->. destruct Hgs as [f Hf].
    apply insert_entries_origin in Hf as [Hf|(m & Hin & Hm)].
    + rewrite lookup_singleton_ne in Hf by discriminate. discriminate.
    + apply in_flat_map in Hin as (c & Hc' & Hm').
      exists c, m, f. auto.
Qed.

(** X10. The generated layer keeps the seed's globals, apart from the four
    well-known names, [Instance.new] and names starting with [Enum.]. *)
Theorem generated_globals_frame fuel cfg_test api roblox_base timestamp pkg_version
    s k :
  generate_layer fuel cfg_test api roblox_base timestamp pkg_version = Ok s ->
  ~ In k ["game"; "plugin"; "script"; "workspace"; "Instance.new"] ->
  (forall r, k <> "Enum." ++ r) ->
  globals s !! k = globals roblox_base !! k.
Proof.
  intros H Hk Henum.
  destruct (generate_layer_decompose _ _ _ _ _ _ _ H)
    as (g1 & dm & E1 & _ & _ & _ & Hg & _).
  destruct (write_well_known_classes_inv _ _ _ _ _ E1) as (_ & G1 & _).
  rewrite Hg. unfold write_instance_new. rewrite set_global_lookup.
  destruct (String.eqb_spec "Instance.new" k) as [<-|_];
    [exfalso; apply Hk; cbn; tauto|].
  rewrite write_enums_globals_other by exact Henum. rewrite G1.
  unfold well_known_globals. cbn in Hk.
  rewrite !lookup_insert_ne by (intros <-; tauto). reflexivity.
Qed.

(** X11. The generated layer keeps every struct of the seed, except that a
    seeded [DataModel] table gets its [GetService] entry replaced by the
    function of [write_get_service]. *)
Theorem generated_structs_frame fuel cfg_test api roblox_base timestamp pkg_version
    s k t :
  generate_layer fuel cfg_test api roblox_base timestamp pkg_version = Ok s ->
  structs roblox_base !! k = Some t ->
  structs s !! k =
    Some (if String.eqb k "DataModel"
          then <["GetService" := get_service_field api]> t else t).
Proof.
  intros H Hk.
  destruct (generate_layer_decompose _ _ _ _ _ _ _ H)
    as (g1 & dm & E1 & Edm & _ & _ & _ & Hs).
  destruct (write_well_known_classes_inv _ _ _ _ _ E1) as (_ & _ & [F _] & _).
  specialize (F k t Hk). cbn in F. rewrite Hs.
  destruct (String.eqb_spec k "DataModel") as [->|Hne].
  - rewrite Edm in F. injection F as ->. apply lookup_insert_eq.
  - rewrite lookup_insert_ne by congruence. exact F.
Qed.

(** X12. [start_generation] returns only when the seed names a base library
    that [from_name] finds (the [unwrap]s of lines 54-55): the bytes are the
    header line followed by the YAML of the generated layer, and the library
    is that layer extended with the named parent. *)
Theorem start_generation_ok fuel cfg_test api roblox_base timestamp time pkg_version
    from_name extend r :
  start_generation fuel cfg_test api roblox_base timestamp time pkg_version
    from_name extend = Ok r ->
  exists s b parent,
    generate_layer fuel cfg_test api roblox_base timestamp pkg_version = Ok s /\
    base roblox_base = Some b /\ from_name b = Some parent /\
    r = (header_line time ++ to_yaml_string s, extend s parent).
Proof.
  unfold start_generation.
  destruct (generate_layer fuel cfg_test api roblox_base timestamp pkg_version)
    as [s| |] eqn:E; cbn -[header_line to_yaml_string]; try discriminate.
  destruct (generate_layer_decompose _ _ _ _ _ _ _ E) as (_ & _ & _ & _ & _ & Hb & _).
  destruct (base s) as [b|] eqn:Eb; [|discriminate].
  destruct (from_name b) as [parent|] eqn:Ep; [|discriminate].
  intros Hr. injection Hr as <-. exists s, b, parent.
  split; [reflexivity|]. split; [symmetry; exact Hb|]. auto.
Qed.

(** X13. [write_enums] touches only globals whose names start with [Enum.]:
    the other globals, the structs, the Roblox class table and the base are
    unchanged. *)
Theorem write_enums_frame api g :
  structs (std (write_enums api g)) = structs (std g) /\
  roblox_classes (std (write_enums api g)) = roblox_classes (std g) /\
  base (std (write_enums api g)) = base (std g) /\
  forall k, (forall r, k <> "Enum." ++ r) ->
    globals (std (write_enums api g)) !! k = globals (std g) !! k.
Proof.
  pose proof (write_enums_std api g) as E.
  split; [rewrite E; reflexivity|]. split; [rewrite E; reflexivity|].
  split; [rewrite E; reflexivity|]. apply write_enums_globals_other.
Qed.

(** X14. After [write_enums], each enum has a global [Enum.<name>.GetEnumItems]
    and a global [Enum.<name>.<item>] for each of its items, and every global
    it wrote is the [GetEnumItems] method or [Struct("EnumItem")]. *)
Theorem write_enums_globals api g :
  (forall e, In e (enums api) ->
     is_Some (globals (std (write_enums api g)) !!
                ("Enum." ++ ApiEnum.name e ++ ".GetEnumItems")) /\
     forall i, In i (ApiEnum.items e) ->
       is_Some (globals (std (write_enums api g)) !!
                  ("Enum." ++ ApiEnum.name e ++ "." ++ i))) /\
  (forall k f, globals (std (write_enums api g)) !! k = Some f ->
     globals (std g) !! k = Some f \/ f = get_enum_items_field \/
     f = from_field_kind (FieldKind.Struct "EnumItem")).
Proof.
  unfold write_enums. split.
  - intros e He.
    assert (Keep : forall es h k, is_Some (globals (std h) !! k) ->
              is_Some (globals (std (fold_left write_enum es h)) !! k)).
    { induction es as [|e' es IH]; intros h k Hk; cbn; [exact Hk|].
      apply IH. apply write_enum_covers. exact Hk. }
    revert g He. induction (enums api) as [|e' es IH]; intros g He;
      [destruct He|]. cbn.
    destruct He as [Heq|He]; [subst e'|apply IH; exact He].
    destruct (write_enum_keys g e) as [K1 K2]. split.
    + apply Keep. exact K1.
    + intros i Hi. apply Keep. apply K2. exact Hi.
  - revert g. induction (enums api) as [|e es IH]; intros g k f H; cbn in H;
      [left; exact H|].
    destruct (IH _ _ _ H) as [H1|H1]; [|right; exact H1].
    exact (write_enum_values _ _ _ _ H1).
Qed.

(** X15. [write_roblox_classes] gives every class name of the dump the entry
    (superclass, events, properties) of a dump class of that name, and
    leaves the entry of any other name unchanged. *)
Theorem write_roblox_classes_lookup api g k :
  ((exists c, In c (classes api) /\ ApiClass.name c = k) ->
   exists c', In c' (classes api) /\ ApiClass.name c' = k /\
     roblox_classes (std (write_roblox_classes api g)) !! k =
       Some (roblox_class_entry c')) /\
  (Forall (fun c => ApiClass.name c <> k) (classes api) ->
   roblox_classes (std (write_roblox_classes api g)) !! k =
     roblox_classes (std g) !! k).
Proof.
  split; [apply write_roblox_classes_named|apply write_roblox_classes_other].
Qed.

(** ** Witnesses of the further properties *)

Lemma synthesized_table_witness :
  chains_ok sample_api = true /\
  contains_key (structs (std empty_generator)) "Script" = false /\
  write_class_struct 40 false sample_api "Script" empty_generator = Ok script_generator /\
  structs (std script_generator) !! "Script" =
    Some (insert_entries (flat_map ApiClass.members (ancestry sample_api "Script"))
            {[ "*" := wildcard_field ]}).
Proof.
  assert (H1 : chains_ok sample_api = true) by (vm_compute; reflexivity).
  assert (H2 : contains_key (structs (std empty_generator)) "Script" = false)
    by reflexivity.
  assert (H3 : write_class_struct 40 false sample_api "Script" empty_generator
                 = Ok script_generator) by (vm_compute; reflexivity).
  split; [exact H1|]. split; [exact H2|]. split; [exact H3|].
  exact (synthesized_table 40 false sample_api "Script" empty_generator
           script_generator H1 H2 H3).
Defined.

Lemma synthesized_table_last_wins_witness :
  chains_ok override_api = true /\
  contains_key (structs (std empty_generator)) "Script" = false /\
  write_class_struct 40 false override_api "Script" empty_generator =
    Ok override_generator /\
  flat_map ApiClass.members (ancestry override_api "Script") =
    ([sample_property "Name" ["ReadOnly"] (ApiValueType.Other "Primitive");
      sample_property "Source" [] (ApiValueType.Other "Primitive")] ++
     sample_property "Name" [] (ApiValueType.Other "Primitive") ::
     [ApiMember.Function_ "Destroy" None []])%list /\
  member_entry (sample_property "Name" [] (ApiValueType.Other "Primitive")) =
    Some ("Name", from_field_kind
                    (FieldKind.Property PropertyWritability.OverrideFields)) /\
  Forall (fun m' => forall f', member_entry m' <> Some ("Name", f'))
    [ApiMember.Function_ "Destroy" None []] /\
  exists t, structs (std override_generator) !! "Script" = Some t /\
    t !! "Name" = Some (from_field_kind
                          (FieldKind.Property PropertyWritability.OverrideFields)).
Proof.
  assert (H1 : chains_ok override_api = true) by (vm_compute; reflexivity).
  assert (H2 : contains_key (structs (std empty_generator)) "Script" = false)
    by reflexivity.
  assert (H3 : write_class_struct 40 false override_api "Script" empty_generator
                 = Ok override_generator) by (vm_compute; reflexivity).
  assert (H4 : flat_map ApiClass.members (ancestry override_api "Script") =
    ([sample_property "Name" ["ReadOnly"] (ApiValueType.Other "Primitive");
      sample_property "Source" [] (ApiValueType.Other "Primitive")] ++
     sample_property "Name" [] (ApiValueType.Other "Primitive") ::
     [ApiMember.Function_ "Destroy" None []])%list) by (vm_compute; reflexivity).
  assert (H5 : member_entry (sample_property "Name" [] (ApiValueType.Other "Primitive")) =
    Some ("Name", from_field_kind
                    (FieldKind.Property PropertyWritability.OverrideFields)))
    by (vm_compute; reflexivity).
  assert (H6 : Forall (fun m' => forall f', member_entry m' <> Some ("Name", f'))
                 [ApiMember.Function_ "Destroy" None []]).
  { constructor; [|constructor]. intros f' Hf. vm_compute in Hf. discriminate Hf. }
  split; [exact H1|]. split; [exact H2|]. split; [exact H3|]. split; [exact H4|].
  split; [exact H5|]. split; [exact H6|].
  exact (synthesized_table_last_wins 40 false override_api "Script" empty_generator
           override_generator
           [sample_property "Name" ["ReadOnly"] (ApiValueType.Other "Primitive");
            sample_property "Source" [] (ApiValueType.Other "Primitive")]
           (sample_property "Name" [] (ApiValueType.Other "Primitive"))
           [ApiMember.Function_ "Destroy" None []] "Name"
           (from_field_kind (FieldKind.Property PropertyWritability.OverrideFields))
           H1 H2 H3 H4 H5 H6).
Defined.

Lemma synthesized_table_origin_witness :
  chains_ok sample_api = true /\
  contains_key (structs (std empty_generator)) "Script" = false /\
  write_class_struct 40 false sample_api "Script" empty_generator = Ok script_generator /\
  structs (std script_generator) !! "Script" = Some script_struct /\
  script_struct !! "Parent2" =
    Some (apply_deprecation ["Deprecated"] (from_field_kind (FieldKind.Struct "Script"))) /\
  ((("Parent2" = "*" /\
     apply_deprecation ["Deprecated"] (from_field_kind (FieldKind.Struct "Script"))
       = wildcard_field) \/
    exists c m, In c (ancestry sample_api "Script") /\ In m (ApiClass.members c) /\
      member_entry m = Some ("Parent2",
        apply_deprecation ["Deprecated"] (from_field_kind (FieldKind.Struct "Script"))))).
Proof.
  assert (H1 : chains_ok sample_api = true) by (vm_compute; reflexivity).
  assert (H2 : contains_key (structs (std empty_generator)) "Script" = false)
    by reflexivity.
  assert (H3 : write_class_struct 40 false sample_api "Script" empty_generator
                 = Ok script_generator) by (vm_compute; reflexivity).
  assert (H4 : structs (std script_generator) !! "Script" = Some script_struct)
    by (vm_compute; reflexivity).
  assert (H5 : script_struct !! "Parent2" =
    Some (apply_deprecation ["Deprecated"] (from_field_kind (FieldKind.Struct "Script"))))
    by (vm_compute; reflexivity).
  split; [exact H1|]. split; [exact H2|]. split; [exact H3|]. split; [exact H4|].
  split; [exact H5|].
  exact (synthesized_table_origin 40 false sample_api "Script" empty_generator
           script_generator script_struct "Parent2"
           (apply_deprecation ["Deprecated"] (from_field_kind (FieldKind.Struct "Script")))
           H1 H2 H3 H4 H5).
Defined.

Lemma write_class_struct_frame_witness :
  write_class_struct 40 false sample_api "DataModel" script_generator =
    Ok data_model_generator /\
  structs (std script_generator) !! "Script" = Some script_struct /\
  structs (std data_model_generator) !! "Script" = Some script_struct.
Proof.
  assert (H1 : write_class_struct 40 false sample_api "DataModel" script_generator
                 = Ok data_model_generator) by (vm_compute; reflexivity).
  assert (H2 : structs (std script_generator) !! "Script" = Some script_struct)
    by (vm_compute; reflexivity).
  split; [exact H1|]. split; [exact H2|].
  exact (write_class_struct_frame 40 false sample_api "DataModel" script_generator
           data_model_generator "Script" script_struct H1 H2).
Defined.


Lemma generated_struct_keys_witness :
  generate_layer 40 false sample_api empty_std 7 "0.1.0" = Ok sample_layer /\
  structs sample_layer !! "Script" = Some script_table /\
  structs empty_std !! "Script" = None /\
  class_exists sample_api "Script" = true.
Proof.
  assert (H1 : generate_layer 40 false sample_api empty_std 7 "0.1.0"
                 = Ok sample_layer) by (vm_compute; reflexivity).
  assert (H2 : structs sample_layer !! "Script" = Some script_table)
    by (vm_compute; reflexivity).
  assert (H3 : structs empty_std !! "Script" = None) by reflexivity.
  split; [exact H1|]. split; [exact H2|]. split; [exact H3|].
  exact (generated_struct_keys 40 false sample_api empty_std 7 "0.1.0"
           sample_layer "Script" script_table H1 H2 H3).
Defined.

Lemma generated_struct_refs_witness :
  generate_layer 40 false sample_api empty_std 7 "0.1.0" = Ok sample_layer /\
  refs_closed (structs empty_std) (structs sample_layer).
Proof.
  assert (H1 : generate_layer 40 false sample_api empty_std 7 "0.1.0"
                 = Ok sample_layer) by (vm_compute; reflexivity).
  split; [exact H1|].
  exact (generated_struct_refs 40 false sample_api empty_std 7 "0.1.0"
           sample_layer H1).
Defined.

Lemma generated_well_known_witness :
  generate_layer 40 false sample_api empty_std 7 "0.1.0" = Ok sample_layer /\
  Forall (fun '(global_name, class_name) =>
            globals sample_layer !! global_name =
              Some (from_field_kind (FieldKind.Struct class_name)) /\
            is_Some (structs sample_layer !! class_name))
    [("game", "DataModel"); ("plugin", "Plugin"); ("script", "Script");
     ("workspace", "Workspace")].
Proof.
  assert (H1 : generate_layer 40 false sample_api empty_std 7 "0.1.0"
                 = Ok sample_layer) by (vm_compute; reflexivity).
  split; [exact H1|].
  exact (generated_well_known 40 false sample_api empty_std 7 "0.1.0"
           sample_layer H1).
Defined.

Lemma generation_needs_get_service_witness :
  chains_ok sample_api = true /\
  generate_layer 40 false sample_api empty_std 7 "0.1.0" = Ok sample_layer /\
  ((exists dm, structs empty_std !! "DataModel" = Some dm /\
               is_Some (dm !! "GetService")) \/
   (structs empty_std !! "DataModel" = None /\
    exists c m f, In c (ancestry sample_api "DataModel") /\
                  In m (ApiClass.members c) /\
                  member_entry m = Some ("GetService", f))).
Proof.
  assert (H1 : chains_ok sample_api = true) by (vm_compute; reflexivity).
  assert (H2 : generate_layer 40 false sample_api empty_std 7 "0.1.0"
                 = Ok sample_layer) by (vm_compute; reflexivity).
  split; [exact H1|]. split; [exact H2|].
  exact (generation_needs_get_service 40 false sample_api empty_std 7 "0.1.0"
           sample_layer H1 H2).
Defined.

Lemma generated_globals_frame_witness :
  generate_layer 40 false sample_api seeded_std 7 "0.1.0" = Ok seeded_layer /\
  ~ In "print" ["game"; "plugin"; "script"; "workspace"; "Instance.new"] /\
  (forall r, "print" <> "Enum." ++ r) /\
  globals seeded_layer !! "print" = Some (from_field_kind FieldKind.Any).
Proof.
  assert (H1 : generate_layer 40 false sample_api seeded_std 7 "0.1.0"
                 = Ok seeded_layer) by (vm_compute; reflexivity).
  assert (H2 : ~ In "print" ["game"; "plugin"; "script"; "workspace"; "Instance.new"])
    by (cbn; intros [H|[H|[H|[H|[H|[]]]]]]; discriminate H).
  assert (H3 : forall r, "print" <> "Enum." ++ r) by (intros r H; discriminate H).
  split; [exact H1|]. split; [exact H2|]. split; [exact H3|].
  exact (generated_globals_frame 40 false sample_api seeded_std 7 "0.1.0"
           seeded_layer "print" H1 H2 H3).
Defined.

Lemma generated_structs_frame_witness :
  generate_layer 40 false sample_api seeded_std 7 "0.1.0" = Ok seeded_layer /\
  structs seeded_std !! "Vector3" =
    Some {[ "X" := from_field_kind (FieldKind.Property PropertyWritability.ReadOnly) ]} /\
  structs seeded_layer !! "Vector3" =
    Some {[ "X" := from_field_kind (FieldKind.Property PropertyWritability.ReadOnly) ]}.
Proof.
  assert (H1 : generate_layer 40 false sample_api seeded_std 7 "0.1.0"
                 = Ok seeded_layer) by (vm_compute; reflexivity).
  assert (H2 : structs seeded_std !! "Vector3" =
    Some {[ "X" := from_field_kind (FieldKind.Property PropertyWritability.ReadOnly) ]})
    by reflexivity.
  split; [exact H1|]. split; [exact H2|].
  exact (generated_structs_frame 40 false sample_api seeded_std 7 "0.1.0"
           seeded_layer "Vector3"
           {[ "X" := from_field_kind (FieldKind.Property PropertyWritability.ReadOnly) ]}
           H1 H2).
Defined.

Lemma start_generation_ok_witness :
  start_generation 40 false sample_api empty_std 7 "t" "0.1.0"
    (fun _ => Some empty_std) (fun s _ => s) = Ok (run_bytes 7 "t", run_std 7 "t") /\
  exists s b parent,
    generate_layer 40 false sample_api empty_std 7 "0.1.0" = Ok s /\
    base empty_std = Some b /\ (fun _ : string => Some empty_std) b = Some parent /\
    (run_bytes 7 "t", run_std 7 "t") =
      (header_line "t" ++ to_yaml_string s, (fun s _ => s) s parent).
Proof.
  assert (H1 : start_generation 40 false sample_api empty_std 7 "t" "0.1.0"
                 (fun _ => Some empty_std) (fun s _ => s)
               = Ok (run_bytes 7 "t", run_std 7 "t")) by (vm_compute; reflexivity).
  split; [exact H1|].
  exact (start_generation_ok 40 false sample_api empty_std 7 "t" "0.1.0"
           (fun _ => Some empty_std) (fun s _ => s)
           (run_bytes 7 "t", run_std 7 "t") H1).
Defined.
